(** * Phase-sheet reader of shellfish ([io/gotetra.go])

    A shallow embedding of the gotetra phase-sheet decoder: the binary header
    codec, the vector payload reader, the reusable sub-grid buffer with its
    open/closed life cycle, and the cell-bounds helper.

    Go values are modelled as follows.
    - [int], [int64] and [int32] are integers of [Z] wrapped to their width.
    - [float32] and [float64] are IEEE 754 values ([spec_float] of the
      Standard Library, precision 24 and 53).
    - A slice is a [list]; indexing outside [0, len) panics.
    - A call that can panic returns an [outcome]; Go's [error] results are
      [option error] ([None] is [nil]).
    - The operating system (files, descriptors, the trace of system calls)
      and heap objects mutated through pointers are threaded as state. *)

From Stdlib Require Import ZArith Lia Strings.Byte Floats.SpecFloat.
From stdpp Require Import gmap strings list fin_maps.

Local Open Scope Z_scope.

(** ** Machine integers *)

(** Two's-complement wrap-around of [z] to a signed integer of [bits] bits. *)
Definition wrap (bits z : Z) : Z :=
  (z + 2 ^ (bits - 1)) mod 2 ^ bits - 2 ^ (bits - 1).

Definition int32 (z : Z) : Z := wrap 32 z.
Definition int64 (z : Z) : Z := wrap 64 z.
(** Go's [int] on a 64-bit platform. *)
Definition int (z : Z) : Z := wrap 64 z.

Definition maxInt : Z := 2 ^ 63 - 1.

(** ** Bytes and byte orders ([encoding/binary]) *)

Inductive ByteOrder := LittleEndian | BigEndian.

Definition byte_val (b : byte) : Z := Z.of_N (Byte.to_N b).

Definition byte_of_Z (z : Z) : byte :=
  match Byte.of_N (Z.to_N (z mod 256)) with
  | Some b => b
  | None => x00
  end.

(** Unsigned value of a byte string, least significant byte first. *)
Fixpoint le_uint (bs : list byte) : Z :=
  match bs with
  | [] => 0
  | b :: bs' => byte_val b + 256 * le_uint bs'
  end.

Definition uint_of_bytes (order : ByteOrder) (bs : list byte) : Z :=
  match order with
  | LittleEndian => le_uint bs
  | BigEndian => le_uint (rev bs)
  end.

(** [n] bytes of [z], least significant byte first. *)
Fixpoint le_bytes (n : nat) (z : Z) : list byte :=
  match n with
  | O => []
  | S n' => byte_of_Z z :: le_bytes n' (z / 256)
  end.

Definition bytes_of_uint (order : ByteOrder) (n : nat) (z : Z) : list byte :=
  match order with
  | LittleEndian => le_bytes n z
  | BigEndian => rev (le_bytes n z)
  end.

(** ** IEEE 754 values *)

(** [Float32frombits] / [Float64frombits]: [mw] mantissa bits, [ew]
    exponent bits. *)
Definition float_of_bits (mw ew : Z) (x : Z) : spec_float :=
  let prec := mw + 1 in
  let emax := 2 ^ (ew - 1) in
  let s := Z.testbit x (mw + ew) in
  let e := Z.land (Z.shiftr x mw) (2 ^ ew - 1) in
  let m := Z.land x (2 ^ mw - 1) in
  if e =? 0 then
    (if m =? 0 then S754_zero s else S754_finite s (Z.to_pos m) (emin prec emax))
  else if e =? 2 ^ ew - 1 then
    (if m =? 0 then S754_infinity s else S754_nan)
  else S754_finite s (Z.to_pos (m + 2 ^ mw)) (e + emin prec emax - 1).

(** [Float32bits] / [Float64bits] of a value in canonical form. *)
Definition bits_of_float (mw ew : Z) (f : spec_float) : Z :=
  let prec := mw + 1 in
  let emax := 2 ^ (ew - 1) in
  let sign (s : bool) := if s then 2 ^ (mw + ew) else 0 in
  match f with
  | S754_zero s => sign s
  | S754_infinity s => sign s + Z.shiftl (2 ^ ew - 1) mw
  | S754_nan => Z.shiftl (2 ^ ew - 1) mw + 2 ^ (mw - 1)
  | S754_finite s m e =>
      if Z.pos m <? 2 ^ mw then sign s + Z.pos m
      else sign s + Z.shiftl (e - emin prec emax + 1) mw + (Z.pos m - 2 ^ mw)
  end.

Definition float32frombits : Z -> spec_float := float_of_bits 23 8.
Definition float64frombits : Z -> spec_float := float_of_bits 52 11.
Definition float32bits : spec_float -> Z := bits_of_float 23 8.
Definition float64bits : spec_float -> Z := bits_of_float 52 11.

(** The conversions [float32(n)] and [float64(n)] of an integer. *)
Definition float32_of_int (n : Z) : spec_float := binary_normalize 24 128 n 0 false.
Definition float64_of_int (n : Z) : spec_float := binary_normalize 53 1024 n 0 false.

(** [float64(x)] of a [float32]: exact, renormalised to 53 bits. *)
Definition float64_of_float32 (x : spec_float) : spec_float :=
  match x with
  | S754_finite s m e => binary_normalize 53 1024 (cond_Zopp s (Z.pos m)) e s
  | _ => x
  end.

(** [math.Floor]. *)
Definition math_Floor (x : spec_float) : spec_float :=
  match x with
  | S754_finite s m e =>
      if 0 <=? e then x
      else binary_normalize 53 1024 (Z.shiftr (cond_Zopp s (Z.pos m)) (- e)) 0 s
  | _ => x
  end.

(** [int(x)] of a [float64]: truncation towards zero. Go leaves the result
    open when the value does not fit; amd64 yields the least [int], which is
    what the model returns. *)
Definition int_of_float64 (x : spec_float) : Z :=
  match x with
  | S754_zero _ => 0
  | S754_finite s m e =>
      let t := if 0 <=? e then Z.pos m * 2 ^ e else Z.pos m / 2 ^ (- e) in
      let v := cond_Zopp s t in
      if (- 2 ^ 63 <=? v) && (v <=? maxInt) then v else - 2 ^ 63
  | _ => - 2 ^ 63
  end.

(** Fixed-length arrays [[3]T]. *)
Definition array3 (A : Type) : Type := (A * A * A)%type.

Definition get3 {A} (a : array3 A) (j : nat) : A :=
  let '(x, y, z) := a in
  match j with O => x | S O => y | _ => z end.

Definition set3 {A} (a : array3 A) (j : nat) (v : A) : array3 A :=
  let '(x, y, z) := a in
  match j with O => (v, y, z) | S O => (x, v, z) | _ => (x, y, v) end.

(** ** Errors, panics and the state monad *)

(** The values of Go's [error] that the decoder can meet. *)
Inductive error :=
| ErrNotExist (name : string)
    (** [*os.PathError] of [os.OpenFile]: the file cannot be opened *)
| ErrInvalid
    (** [os.ErrInvalid]: a method called on a nil [*os.File] *)
| ErrClosed
    (** [os.ErrClosed]: the descriptor is not open *)
| ErrSeek
    (** [*os.PathError] of [Seek]: not seekable, or a negative offset *)
| ErrClose
    (** [*os.PathError] of [Close] *)
| EOF
| ErrUnexpectedEOF
| ErrHeaderSize (expected found : Z)
    (** "Expected catalog.SheetHeader size of %d, found %d." *)
| ErrPositionBuffer (len : Z) (file : string) (count : Z).
    (** "Position buffer has length %d, but file %s has %d vectors." *)

(** The specification's taxonomy of recoverable errors. *)
Definition is_FormatError (e : error) : bool :=
  match e with
  | ErrHeaderSize _ _ | ErrPositionBuffer _ _ _ => true
  | _ => false
  end.

Definition is_IOError (e : error) : bool := negb (is_FormatError e).

(** What a Go panic carries. *)
Inductive panic_value :=
| PanicString (msg : string)
| PanicError (e : error)
| IndexOutOfRange (i : Z) (len : nat)
| MakeSliceLen.

Inductive outcome (A : Type) :=
| Returns (a : A)
| Panics (p : panic_value).
Arguments Returns {A} a.
Arguments Panics {A} p.

(** A Go computation over a state [S]; the state at a panic is kept. *)
Definition Go (St A : Type) : Type := St -> outcome A * St.

Definition ret {St A} (a : A) : Go St A := fun s => (Returns a, s).

Definition bind {St A B} (m : Go St A) (k : A -> Go St B) : Go St B :=
  fun s =>
    match m s with
    | (Returns a, s') => k a s'
    | (Panics p, s') => (Panics p, s')
    end.

Definition panic {St A} (p : panic_value) : Go St A := fun s => (Panics p, s).

Notation "x <- m ;; k" := (bind m (fun x => k))
  (at level 100, m at next level, right associativity).
Notation "'let*' pat := m 'in' k" := (bind m (fun x => let 'pat := x in k))
  (at level 10, pat pattern, m at level 100, k at level 200).
Notation "m ;;; k" := (bind m (fun _ => k))
  (at level 100, right associativity).

(** [for i := 0; i < hi; i++ { body i }], unrolled from [i] for [n] rounds. *)
Fixpoint for_loop {St} (n : nat) (i : Z) (body : Z -> Go St unit) : Go St unit :=
  match n with
  | O => ret tt
  | S n' => body i ;;; for_loop n' (i + 1) body
  end.

Definition for_range {St} (hi : Z) (body : Z -> Go St unit) : Go St unit :=
  for_loop (Z.to_nat hi) 0 body.

(** Slice indexing [s[i]] and assignment [s[i] = v]. *)
Definition index {St A} (s : list A) (i : Z) : Go St A :=
  if 0 <=? i then
    match s !! Z.to_nat i with
    | Some v => ret v
    | None => panic (IndexOutOfRange i (length s))
    end
  else panic (IndexOutOfRange i (length s)).

Definition store {St A} (s : list A) (i : Z) (v : A) : Go St (list A) :=
  if (0 <=? i) && (Z.to_nat i <? length s)%nat then ret (<[Z.to_nat i := v]> s)
  else panic (IndexOutOfRange i (length s)).

(** ** The operating system *)

(** A file of the file system: its bytes, whether it can be repositioned
    (a pipe cannot), and whether closing it reports success. *)
Record inode := {
  contents : list byte;
  seekable : bool;
  close_ok : bool
}.

(** An open descriptor: the file and the read offset. *)
Record desc := {
  d_file : inode;
  d_pos : nat
}.

Inductive event :=
| EvOpen (fd : nat) (name : string)
| EvRead (fd : nat) (pos n : nat)
| EvSeek (fd : nat) (offset : Z)
| EvClose (fd : nat).

Record world := {
  files : gmap string inode;
  fdtab : gmap nat desc;
  nextfd : nat;
  trace : list event
}.

Definition log (e : event) (w : world) : world :=
  {| files := files w; fdtab := fdtab w; nextfd := nextfd w;
     trace := trace w ++ [e] |}.

Definition set_fd (fd : nat) (d : desc) (w : world) : world :=
  {| files := files w; fdtab := <[fd := d]> (fdtab w); nextfd := nextfd w;
     trace := trace w |}.

(** A [*os.File]: [None] is the nil pointer. *)
Definition File : Type := option nat.

(** The next free descriptor is handed out. *)
Definition alloc_fd (w : world) : world :=
  {| files := files w; fdtab := fdtab w; nextfd := S (nextfd w);
     trace := trace w |}.

(** [os.OpenFile(name, os.O_RDONLY, os.ModePerm)]. *)
Definition os_OpenFile (name : string) : Go world (File * option error) :=
  fun w =>
    match files w !! name with
    | None => (Returns (None, Some (ErrNotExist name)), w)
    | Some nd =>
        let fd := nextfd w in
        (Returns (Some fd, None),
         log (EvOpen fd name)
           (set_fd fd {| d_file := nd; d_pos := 0 |} (alloc_fd w)))
    end.

(** The error of a read that asked for [n] bytes and got [got]. *)
Definition short_read (got n : nat) : option error :=
  if (got =? n)%nat then None
  else if (got =? 0)%nat then Some EOF
  else Some ErrUnexpectedEOF.

(** [io.ReadFull(f, buf)] with [len(buf) = n], the read that [binary.Read]
    issues: the bytes read, and [EOF] (nothing left) or [ErrUnexpectedEOF]
    (fewer than [n] left) when the file is too short. *)
Definition ReadFull (f : File) (n : nat) : Go world (list byte * option error) :=
  fun w =>
    match f with
    | None => (Returns ([], Some ErrInvalid), w)
    | Some fd =>
        match fdtab w !! fd with
        | None => (Returns ([], Some ErrClosed), w)
        | Some d =>
            let got := take n (drop (d_pos d) (contents (d_file d))) in
            (Returns (got, short_read (length got) n),
             log (EvRead fd (d_pos d) n)
               (set_fd fd {| d_file := d_file d;
                             d_pos := (d_pos d + length got)%nat |} w))
        end
    end.

(** [f.Seek(offset, 0)]: reposition relative to the start of the file. *)
Definition Seek (f : File) (offset : Z) : Go world (Z * option error) :=
  fun w =>
    match f with
    | None => (Returns (0, Some ErrInvalid), w)
    | Some fd =>
        match fdtab w !! fd with
        | None => (Returns (0, Some ErrClosed), w)
        | Some d =>
            if seekable (d_file d) && (0 <=? offset) then
              (Returns (offset, None),
               log (EvSeek fd offset)
                 (set_fd fd {| d_file := d_file d; d_pos := Z.to_nat offset |} w))
            else (Returns (0, Some ErrSeek), log (EvSeek fd offset) w)
        end
    end.

Definition free_fd (fd : nat) (w : world) : world :=
  {| files := files w; fdtab := delete fd (fdtab w); nextfd := nextfd w;
     trace := trace w |}.

(** [f.Close()]: the descriptor is released even when the close reports an
    error. *)
Definition File_Close (f : File) : Go world (option error) :=
  fun w =>
    match f with
    | None => (Returns (Some ErrInvalid), w)
    | Some fd =>
        match fdtab w !! fd with
        | None => (Returns (Some ErrClosed), w)
        | Some d =>
            (Returns (if close_ok (d_file d) then None else Some ErrClose),
             log (EvClose fd) (free_fd fd w))
        end
    end.

#[global] Instance event_eq_dec : EqDecision event.
Proof. solve_decision. Defined.

(** How often descriptor [fd] is closed in a trace. *)
Definition closes (fd : nat) (t : list event) : nat :=
  length (filter (fun e => e = EvClose fd) t).

(** ** The phase-sheet format *)

(** A [[3]float32]. *)
Definition vec3 : Type := array3 spec_float.

Definition zero_vec3 : vec3 := (S754_zero false, S754_zero false, S754_zero false).

Record RawGotetraHeader := {
  Cosmo : list byte;
  Count : Z; CountWidth : Z;
  SegmentWidth : Z; GridWidth : Z; GridCount : Z;
  Idx : Z; Cells : Z;
  Mass : spec_float;
  TotalWidth : spec_float;
  Origin : vec3; Width : vec3;
  VelocityOrigin : vec3; VelocityWidth : vec3
}.

(** [GotetraHeader] embeds the raw header ([Raw]) and adds [N]. *)
Record GotetraHeader := {
  Raw : RawGotetraHeader;
  N : Z;
  guard : unit
}.

Record CellBounds := {
  cb_Origin : array3 Z;
  cb_Width : array3 Z
}.

Record GotetraBuffer := {
  open : bool;
  sheet : list vec3;
  out : list vec3;
  sw : Z; gw : Z;
  hd : GotetraHeader
}.

(** Field updates [buf.open = v], [buf.sheet = v], [buf.out = v]. *)
Definition with_open (v : bool) (b : GotetraBuffer) : GotetraBuffer :=
  {| open := v; sheet := sheet b; out := out b; sw := sw b; gw := gw b; hd := hd b |}.

Definition with_sheet (v : list vec3) (b : GotetraBuffer) : GotetraBuffer :=
  {| open := open b; sheet := v; out := out b; sw := sw b; gw := gw b; hd := hd b |}.

Definition with_out (v : list vec3) (b : GotetraBuffer) : GotetraBuffer :=
  {| open := open b; sheet := sheet b; out := v; sw := sw b; gw := gw b; hd := hd b |}.

Definition with_Count (c : Z) (r : RawGotetraHeader) : RawGotetraHeader :=
  {| Cosmo := Cosmo r; Count := c; CountWidth := CountWidth r;
     SegmentWidth := SegmentWidth r; GridWidth := GridWidth r;
     GridCount := GridCount r; Idx := Idx r; Cells := Cells r;
     Mass := Mass r; TotalWidth := TotalWidth r;
     Origin := Origin r; Width := Width r;
     VelocityOrigin := VelocityOrigin r; VelocityWidth := VelocityWidth r |}.

(** [raw.Postprocess(hd)]. *)
Definition Postprocess (raw : RawGotetraHeader) (hd : GotetraHeader) : GotetraHeader :=
  let hd := {| Raw := raw; N := N hd; guard := guard hd |} in
  let cw := CountWidth (Raw hd) in
  let hd := {| Raw := with_Count (int64 (int64 (cw * cw) * cw)) (Raw hd);
               N := N hd; guard := guard hd |} in
  let s := SegmentWidth (Raw hd) in
  {| Raw := Raw hd; N := int64 (int64 (s * s) * s); guard := guard hd |}.

(** [endianness] converts an endianness flag to a byte order. *)
Definition endianness (flag : Z) : outcome ByteOrder :=
  if flag =? 0 then Returns LittleEndian
  else if flag =? -1 then Returns BigEndian
  else Panics (PanicString "Unrecognized endianness flag.").

Definition call {St A} (o : outcome A) : Go St A := fun s => (o, s).

(** The zero values [RawGotetraHeader{}] and [GotetraHeader{}]. *)
Definition zero_RawGotetraHeader (cosmo : list byte) : RawGotetraHeader :=
  {| Cosmo := cosmo; Count := 0; CountWidth := 0;
     SegmentWidth := 0; GridWidth := 0; GridCount := 0; Idx := 0; Cells := 0;
     Mass := S754_zero false; TotalWidth := S754_zero false;
     Origin := zero_vec3; Width := zero_vec3;
     VelocityOrigin := zero_vec3; VelocityWidth := zero_vec3 |}.

(** The largest allocation of the 64-bit runtime, in bytes
    ([runtime.maxAlloc]). *)
Definition maxAlloc : Z := 2 ^ 48.

(** Whether [make([][3]float32, n)] is refused: [runtime.makeslice] panics
    with "len out of range" for a negative length and for a length whose
    [12 * n] bytes exceed [maxAlloc]. Running out of memory below that limit
    ends the process and is not modelled. *)
Definition make_refused (n : Z) : bool := (n <? 0) || (maxAlloc <? 12 * n).

(** [make([][3]float32, n)]. *)
Definition make_vecs {St} (n : Z) : Go St (list vec3) :=
  if make_refused n then panic MakeSliceLen
  else ret (replicate (Z.to_nat n) zero_vec3).

Definition decode_vec (order : ByteOrder) (bs : list byte) : vec3 :=
  let f k := float32frombits (uint_of_bytes order (take 4 (drop (4 * k) bs))) in
  (f 0%nat, f 1%nat, f 2%nat).

Fixpoint decode_vecs (order : ByteOrder) (n : nat) (bs : list byte) : list vec3 :=
  match n with
  | O => []
  | S n' => decode_vec order (take 12 bs) :: decode_vecs order n' (drop 12 bs)
  end.

Section Gotetra.

(** [CosmologyHeader] is declared elsewhere in the package; the decoder only
    copies it. Its byte size is a parameter, and the struct is taken to be
    laid out without padding, so that [unsafe.Sizeof] and the wire size of
    [RawGotetraHeader] agree. *)
Variable sizeofCosmologyHeader : nat.

(** [unsafe.Sizeof(RawGotetraHeader{})]: the cosmology block, seven [int64],
    two [float64] and four [[3]float32]. *)
Definition sizeofRawGotetraHeader : nat := (sizeofCosmologyHeader + 56 + 16 + 48)%nat.

Definition zero_GotetraHeader : GotetraHeader :=
  {| Raw := zero_RawGotetraHeader (replicate sizeofCosmologyHeader x00);
     N := 0; guard := tt |}.

(** The fields of a [RawGotetraHeader] in declaration order, as
    [binary.Read] decodes them. *)
Definition decodeRaw (order : ByteOrder) (bs : list byte) : RawGotetraHeader :=
  let c := sizeofCosmologyHeader in
  let i64 k := int64 (uint_of_bytes order (take 8 (drop (c + 8 * k) bs))) in
  let f64 k := float64frombits (uint_of_bytes order (take 8 (drop (c + 56 + 8 * k) bs))) in
  let v3 k := decode_vec order (take 12 (drop (c + 72 + 12 * k) bs)) in
  {| Cosmo := take c bs;
     Count := i64 0%nat; CountWidth := i64 1%nat;
     SegmentWidth := i64 2%nat; GridWidth := i64 3%nat; GridCount := i64 4%nat;
     Idx := i64 5%nat; Cells := i64 6%nat;
     Mass := f64 0%nat; TotalWidth := f64 1%nat;
     Origin := v3 0%nat; Width := v3 1%nat;
     VelocityOrigin := v3 2%nat; VelocityWidth := v3 3%nat |}.

(** [binary.Read(f, order, &hdBuf.RawGotetraHeader)]: nothing is stored
    unless all bytes were read. *)
Definition binary_Read_RawGotetraHeader (f : File) (order : ByteOrder)
    (hdBuf : GotetraHeader) : Go world (GotetraHeader * option error) :=
  let* (bs, err) := ReadFull f sizeofRawGotetraHeader in
  match err with
  | Some e => ret (hdBuf, Some e)
  | None => ret ({| Raw := decodeRaw order bs; N := N hdBuf; guard := guard hdBuf |}, None)
  end.

(** Modelled from the spec: [readInt32] is defined in another file of the
    package. It reads a 4-byte signed integer in the given byte order; its
    result type has no room for an error, so a failed read is raised as a
    panic that carries the I/O error. *)
Definition readInt32 (f : File) (order : ByteOrder) : Go world Z :=
  let* (bs, err) := ReadFull f 4 in
  match err with
  | Some e => panic (PanicError e)
  | None => ret (int32 (uint_of_bytes order bs))
  end.

(** Modelled from the spec: [readVecAsByte] is defined in another file of the
    package. It reads [len(buf)] consecutive triples of 32-bit floats in the
    given byte order into [buf], in file order; on a read failure it returns
    the I/O error and leaves [buf] as it was. *)
Definition readVecAsByte (f : File) (order : ByteOrder) (buf : list vec3)
  : Go world (list vec3 * option error) :=
  let* (bs, err) := ReadFull f (12 * length buf) in
  match err with
  | Some e => ret (buf, Some e)
  | None => ret (decode_vecs order (length buf) bs, None)
  end.

(** [readSheetHeaderAt(file, hdBuf)]: the header after the call, and the
    results [(f, order, err)]. *)
Definition readSheetHeaderAt (file : string) (hdBuf : GotetraHeader)
  : Go world (GotetraHeader * (File * ByteOrder * option error)) :=
  let* (f, err) := os_OpenFile file in
  match err with
  | Some e => ret (hdBuf, (None, LittleEndian, Some e))
  | None =>
      flag <- readInt32 f LittleEndian ;;
      order <- call (endianness flag) ;;
      headerSize <- readInt32 f order ;;
      if negb (headerSize =? int32 (Z.of_nat sizeofRawGotetraHeader)) then
        ret (hdBuf, (None, LittleEndian,
                     Some (ErrHeaderSize (Z.of_nat sizeofRawGotetraHeader) headerSize)))
      else
        let* (_, err) := Seek f (4 + 4) in
        match err with
        | Some e => ret (hdBuf, (None, LittleEndian, Some e))
        | None =>
            let* (hdBuf, err) := binary_Read_RawGotetraHeader f order hdBuf in
            match err with
            | Some e => ret (hdBuf, (None, LittleEndian, Some e))
            | None => ret (Postprocess (Raw hdBuf) hdBuf, (f, order, None))
            end
        end
  end.

(** [ReadSheetHeaderAt] reads the header of the file into [hdBuf]. *)
Definition ReadSheetHeaderAt (file : string) (hdBuf : GotetraHeader)
  : Go world (GotetraHeader * option error) :=
  let* (hdBuf, (f, _, err)) := readSheetHeaderAt file hdBuf in
  match err with
  | Some e => ret (hdBuf, Some e)
  | None =>
      err <- File_Close f ;;
      match err with
      | Some e => ret (hdBuf, Some e)
      | None => ret (hdBuf, None)
      end
  end.

(** [readSheetPositionsAt(file, xsBuf)]: the contents of [xsBuf] after the
    call, and the returned error. *)
Definition readSheetPositionsAt (file : string) (xsBuf : list vec3)
  : Go world (list vec3 * option error) :=
  let h := zero_GotetraHeader in
  let* (h, (f, order, err)) := readSheetHeaderAt file h in
  match err with
  | Some _ => ret (xsBuf, None)
  | None =>
      if negb (GridCount (Raw h) =? int64 (Z.of_nat (length xsBuf))) then
        ret (xsBuf, Some (ErrPositionBuffer (Z.of_nat (length xsBuf)) file
                            (GridCount (Raw h))))
      else
        Seek f (int64 (int (4 + 4 + int (Z.of_nat sizeofRawGotetraHeader)))) ;;;
        let* (xsBuf, err) := readVecAsByte f order xsBuf in
        match err with
        | Some e => ret (xsBuf, Some e)
        | None =>
            err <- File_Close f ;;
            match err with
            | Some e => ret (xsBuf, Some e)
            | None => ret (xsBuf, None)
            end
        end
  end.

(** [NewGotetraBuffer(fname)]; a nil buffer is [None]. *)
Definition NewGotetraBuffer (fname : string)
  : Go world (option GotetraBuffer * option error) :=
  let hd0 := zero_GotetraHeader in
  let* (hd0, err) := ReadSheetHeaderAt fname hd0 in
  match err with
  | Some e => ret (None, Some e)
  | None =>
      let sw := SegmentWidth (Raw hd0) in
      let gw := GridWidth (Raw hd0) in
      sheet <- make_vecs (int64 (int64 (gw * gw) * gw)) ;;
      out <- make_vecs (int64 (int64 (sw * sw) * sw)) ;;
      ret (Some {| open := false; sheet := sheet; out := out;
                   sw := int sw; gw := int gw; hd := zero_GotetraHeader |},
           None)
  end.

(** Methods of [*GotetraBuffer] run on the operating system and the buffer
    they point to. *)
Definition in_world {B A} (m : Go world A) : Go (world * B) A :=
  fun s =>
    let '(r, w') := m (fst s) in (r, (w', snd s)).

Definition get_buf : Go (world * GotetraBuffer) GotetraBuffer :=
  fun s => (Returns (snd s), s).

Definition set_open (v : bool) : Go (world * GotetraBuffer) unit :=
  fun s => (Returns tt, (fst s, with_open v (snd s))).

Definition set_sheet (v : list vec3) : Go (world * GotetraBuffer) unit :=
  fun s => (Returns tt, (fst s, with_sheet v (snd s))).

Definition set_out (v : list vec3) : Go (world * GotetraBuffer) unit :=
  fun s => (Returns tt, (fst s, with_out v (snd s))).

Definition IsOpen (buf : GotetraBuffer) : bool := open buf.

(** The index expression [x + y*w + z*w*w] of the extraction loop, in [int]
    arithmetic: [si] for [w = buf.sw], [gi] for [w = buf.gw]. *)
Definition cell_index (w x y z : Z) : Z :=
  int (int (x + int (y * w)) + int (int (z * w) * w)).

(** [buf.out[si] = buf.sheet[gi]] at the loop indices [x], [y], [z]. *)
Definition copy_cell (x y z : Z) : Go (world * GotetraBuffer) unit :=
  buf <- get_buf ;;
  let si := cell_index (sw buf) x y z in
  let gi := cell_index (gw buf) x y z in
  v <- index (sheet buf) gi ;;
  out' <- store (out buf) si v ;;
  set_out out'.

(** The three nested loops of [Read]. *)
Definition extract : Go (world * GotetraBuffer) unit :=
  buf <- get_buf ;;
  for_range (sw buf) (fun z =>
    for_range (sw buf) (fun y =>
      for_range (sw buf) (fun x => copy_cell x y z))).

(** [buf.Read(fname)]: the returned slice ([None] is nil) and error. The
    callee fills [buf.sheet] through the slice it is handed. *)
Definition Read (fname : string)
  : Go (world * GotetraBuffer) (option (list vec3) * option error) :=
  buf <- get_buf ;;
  if open buf then panic (PanicString "Buffer already open.")
  else
    set_open true ;;;
    let* (xs, err) := in_world (readSheetPositionsAt fname (sheet buf)) in
    set_sheet xs ;;;
    match err with
    | Some e => ret (None, Some e)
    | None =>
        extract ;;;
        buf <- get_buf ;;
        ret (Some (out buf), None)
    end.

(** [buf.Close()]. *)
Definition Close : Go (world * GotetraBuffer) unit :=
  buf <- get_buf ;;
  if negb (open buf) then panic (PanicString "Buffer already closed.")
  else set_open false.

End Gotetra.

(** [hd.CellBounds(cells)]. *)
Definition GotetraHeader_CellBounds (hd : GotetraHeader) (cells : Z) : CellBounds :=
  let cb := {| cb_Origin := (0, 0, 0); cb_Width := (0, 0, 0) |} in
  let cellWidth := SFdiv 53 1024 (TotalWidth (Raw hd)) (float64_of_int cells) in
  fold_left (fun cb j =>
    let o := int_of_float64 (math_Floor
               (SFdiv 53 1024 (float64_of_float32 (get3 (Origin (Raw hd)) j)) cellWidth)) in
    let cb := {| cb_Origin := set3 (cb_Origin cb) j o; cb_Width := cb_Width cb |} in
    let w := int (1 + int_of_float64 (math_Floor
               (SFdiv 53 1024
                  (float64_of_float32
                     (SFadd 24 128 (get3 (Origin (Raw hd)) j) (get3 (Width (Raw hd)) j)))
                  cellWidth))) in
    let cb := {| cb_Origin := cb_Origin cb; cb_Width := set3 (cb_Width cb) j w |} in
    {| cb_Origin := cb_Origin cb;
       cb_Width := set3 (cb_Width cb) j
                     (int (get3 (cb_Width cb) j - get3 (cb_Origin cb) j)) |})
    [0; 1; 2]%nat cb.

(** ** The cell-bounds formulas in the specification's words

    [cellWidth = totalWidth / cells], [originIdx = floor(origin / cellWidth)],
    [farIdx = 1 + floor((origin + width) / cellWidth)] and
    [widthIdx = farIdx - originIdx], per axis, in IEEE arithmetic. *)
Definition spec_cellWidth (hd : GotetraHeader) (cells : Z) : spec_float :=
  SFdiv 53 1024 (TotalWidth (Raw hd)) (float64_of_int cells).

Definition spec_originIdx (hd : GotetraHeader) (cells : Z) (j : nat) : Z :=
  int_of_float64 (math_Floor
    (SFdiv 53 1024 (float64_of_float32 (get3 (Origin (Raw hd)) j))
       (spec_cellWidth hd cells))).

Definition spec_farIdx (hd : GotetraHeader) (cells : Z) (j : nat) : Z :=
  int (1 + int_of_float64 (math_Floor
    (SFdiv 53 1024
       (float64_of_float32
          (SFadd 24 128 (get3 (Origin (Raw hd)) j) (get3 (Width (Raw hd)) j)))
       (spec_cellWidth hd cells)))).

Definition spec_widthIdx (hd : GotetraHeader) (cells : Z) (j : nat) : Z :=
  int (spec_farIdx hd cells j - spec_originIdx hd cells j).

(** ** Predicates on buffers *)

(** What no method changes: the cached widths, the header, and the lengths
    of the two arrays. *)
Definition same_shape (b b' : GotetraBuffer) : Prop :=
  sw b' = sw b /\ gw b' = gw b /\ hd b' = hd b /\
  length (sheet b') = length (sheet b) /\ length (out b') = length (out b).

(** What the extraction loop leaves alone: everything but the contents of
    [out]. *)
Definition extract_frame (s0 s : world * GotetraBuffer) : Prop :=
  fst s = fst s0 /\ open (snd s) = open (snd s0) /\
  sheet (snd s) = sheet (snd s0) /\ sw (snd s) = sw (snd s0) /\
  gw (snd s) = gw (snd s0) /\ hd (snd s) = hd (snd s0) /\
  length (out (snd s)) = length (out (snd s0)).

(** The loop has filled the first [k] cells of [out], counted in the order
    of the iteration: cell [x + y*sw + z*sw*sw] holds the vector of the
    sheet at the index the loop computes from [gw]. *)
Definition cells_done (s0 : world * GotetraBuffer) (k : Z)
    (s : world * GotetraBuffer) : Prop :=
  let w := sw (snd s0) in
  extract_frame s0 s /\ k <= 2 ^ 63 /\
  forall x y z, 0 <= x < w -> 0 <= y < w -> 0 <= z < w ->
    x + y * w + z * w * w < k ->
    0 <= cell_index (gw (snd s0)) x y z /\
    exists v, sheet (snd s0) !! Z.to_nat (cell_index (gw (snd s0)) x y z) = Some v /\
              out (snd s) !! Z.to_nat (x + y * w + z * w * w) = Some v.

(** The arrays have the lengths that [NewGotetraBuffer] computes from the
    widths, in [int64] arithmetic. *)
Definition sized (b : GotetraBuffer) : Prop :=
  length (sheet b) = Z.to_nat (int64 (int64 (gw b * gw b) * gw b)) /\
  length (out b) = Z.to_nat (int64 (int64 (sw b * sw b) * sw b)).

(** Every index of the extraction loop is inside its array. *)
Definition in_bounds (b : GotetraBuffer) : Prop :=
  forall x y z, 0 <= x < sw b -> 0 <= y < sw b -> 0 <= z < sw b ->
    0 <= cell_index (gw b) x y z < Z.of_nat (length (sheet b)) /\
    0 <= cell_index (sw b) x y z < Z.of_nat (length (out b)).

(** ** Comparing two runs

    Two runs of the decoder on the same file, started in different states of
    the operating system, are compared up to the number of the descriptor. *)

(** [f] in [w] and [f'] in [w'] are the same open file at the same offset
    (or both nil, or both closed). *)
Definition same_file (w w' : world) (f f' : File) : Prop :=
  match f, f' with
  | None, None => True
  | Some fd, Some fd' => fdtab w !! fd = fdtab w' !! fd'
  | _, _ => False
  end.

(** Both runs return, with results related by [V], or both panic alike. *)
Definition agree {A} (V : world -> world -> A -> A -> Prop)
    (r r' : outcome A * world) : Prop :=
  match r, r' with
  | (Returns a, w1), (Returns a', w1') => V w1 w1' a a'
  | (Panics p, _), (Panics p', _) => p = p'
  | _, _ => False
  end.

(** A computation that leaves the file system as it was. *)
Definition keeps_files {A} (m : Go world A) : Prop :=
  forall w, files (snd (m w)) = files w.

(** ** Sequences of calls on one buffer *)

Inductive method := CallRead (fname : string) | CallClose.

(** Run the calls in order; a panic ends the run. *)
Fixpoint run_calls (c : nat) (calls : list method) (s : world * GotetraBuffer)
  : world * GotetraBuffer :=
  match calls with
  | [] => s
  | CallRead fname :: rest =>
      match Read c fname s with
      | (Returns _, s') => run_calls c rest s'
      | (Panics _, s') => s'
      end
  | CallClose :: rest =>
      match Close s with
      | (Returns _, s') => run_calls c rest s'
      | (Panics _, s') => s'
      end
  end.

(** ** Sample files

    An encoder for phase sheets and a few concrete files and worlds on which
    the decoder is run. *)
Module Sample.

Definition encode_vec (order : ByteOrder) (v : vec3) : list byte :=
  let '(a, b, c) := v in
  bytes_of_uint order 4 (float32bits a) ++ bytes_of_uint order 4 (float32bits b)
    ++ bytes_of_uint order 4 (float32bits c).

Definition encodeRaw (order : ByteOrder) (r : RawGotetraHeader) : list byte :=
  let i64 := bytes_of_uint order 8 in
  let f64 x := bytes_of_uint order 8 (float64bits x) in
  Cosmo r ++ i64 (Count r) ++ i64 (CountWidth r) ++ i64 (SegmentWidth r)
    ++ i64 (GridWidth r) ++ i64 (GridCount r) ++ i64 (Idx r) ++ i64 (Cells r)
    ++ f64 (Mass r) ++ f64 (TotalWidth r)
    ++ encode_vec order (Origin r) ++ encode_vec order (Width r)
    ++ encode_vec order (VelocityOrigin r) ++ encode_vec order (VelocityWidth r).

(** A whole file: flag, declared header size, header, payload. *)
Definition encode_sheet (order : ByteOrder) (flag declared : Z)
    (r : RawGotetraHeader) (vs : list vec3) : list byte :=
  bytes_of_uint order 4 flag ++ bytes_of_uint order 4 declared
    ++ encodeRaw order r ++ concat (map (encode_vec order) vs).

Definition flag_of (order : ByteOrder) : Z :=
  match order with LittleEndian => 0 | BigEndian => -1 end.

(** The byte size of the cosmology block used by the samples. *)
Definition cosmo : nat := 40.

Definition fl (n : Z) : spec_float := float32_of_int n.

(** A header for a grid of side [g] with requested segment side [s] and
    [count] stored vectors. *)
Definition header (s g count : Z) : RawGotetraHeader :=
  {| Cosmo := replicate cosmo x2a;
     Count := 0; CountWidth := 3;
     SegmentWidth := s; GridWidth := g; GridCount := count;
     Idx := 7; Cells := 8;
     Mass := float64_of_int 1; TotalWidth := float64_of_int 100;
     Origin := (fl 5, fl 5, fl 5); Width := (fl 12, fl 12, fl 12);
     VelocityOrigin := zero_vec3; VelocityWidth := zero_vec3 |}.

(** The synthetic grid whose [i]-th vector is [(i, 0, 0)]. *)
Definition ramp (n : nat) : list vec3 :=
  map (fun i => (fl (Z.of_nat i), S754_zero false, S754_zero false)) (seq 0 n).

Definition regular (bs : list byte) : inode :=
  {| contents := bs; seekable := true; close_ok := true |}.

Definition good_sheet (order : ByteOrder) : inode :=
  regular (encode_sheet order (flag_of order) (Z.of_nat (sizeofRawGotetraHeader cosmo))
             (header 2 4 64) (ramp 64)).

(** Declared header size off by one. *)
Definition bad_size_sheet : inode :=
  regular (encode_sheet LittleEndian 0 (Z.of_nat (sizeofRawGotetraHeader cosmo) + 1)
             (header 2 4 64) (ramp 64)).

(** Endianness flag 1. *)
Definition bad_flag_sheet : inode :=
  regular (encode_sheet LittleEndian 1 (Z.of_nat (sizeofRawGotetraHeader cosmo))
             (header 2 4 64) (ramp 64)).

(** A sheet of side 2 (8 vectors) with a segment of side 1. *)
Definition small_sheet : inode :=
  regular (encode_sheet LittleEndian 0 (Z.of_nat (sizeofRawGotetraHeader cosmo))
             (header 1 2 8) (ramp 8)).

(** A header whose grid side cubes to [2 ^ 66], with no payload. *)
Definition huge_sheet : inode :=
  regular (encode_sheet LittleEndian 0 (Z.of_nat (sizeofRawGotetraHeader cosmo))
             (header 1 (2 ^ 22) 0) []).

Definition disk : gmap string inode :=
  <["le.dat" := good_sheet LittleEndian]>
  (<["be.dat" := good_sheet BigEndian]>
  (<["size.dat" := bad_size_sheet]>
  (<["flag.dat" := bad_flag_sheet]>
  (<["small.dat" := small_sheet]>
  (<["huge.dat" := huge_sheet]> ∅))))).

(** The decoded header of the sample sheets. *)
Definition sample_hd : GotetraHeader :=
  Postprocess (header 2 4 64) (zero_GotetraHeader cosmo).

Definition boot : world :=
  {| files := disk; fdtab := ∅; nextfd := 3; trace := [] |}.

(** A closed buffer for a grid of side [g] and a segment of side [s]. *)
Definition fresh_buffer (s g : Z) : GotetraBuffer :=
  {| open := false;
     sheet := replicate (Z.to_nat (g * g * g)) zero_vec3;
     out := replicate (Z.to_nat (s * s * s)) zero_vec3;
     sw := s; gw := g; hd := zero_GotetraHeader cosmo |}.

End Sample.

(** ** Well-formed sheets

    What the header decoder looks at in a file, as functions of its bytes. *)

Section Layout.
Variable c : nat.

(** The byte order that the leading four bytes select. *)
Definition flag_order (nd : inode) : outcome ByteOrder :=
  endianness (int32 (uint_of_bytes LittleEndian (take 4 (contents nd)))).

(** The header size that bytes 4 to 7 declare, read in [order]. *)
Definition declared_size (order : ByteOrder) (nd : inode) : Z :=
  int32 (uint_of_bytes order (take 4 (drop 4 (contents nd)))).

(** The bytes of the raw header, from offset 8. *)
Definition header_bytes (nd : inode) : list byte :=
  take (sizeofRawGotetraHeader c) (drop 8 (contents nd)).

(** The header that a successful decode stores over [hdBuf]. *)
Definition decoded_header (order : ByteOrder) (nd : inode) (hdBuf : GotetraHeader)
  : GotetraHeader :=
  let raw := decodeRaw c order (header_bytes nd) in
  Postprocess raw {| Raw := raw; N := N hdBuf; guard := guard hdBuf |}.

(** A file that can be repositioned, holds flag, size and a whole header,
    carries a valid flag, and declares the size of [RawGotetraHeader]. *)
Definition well_formed (nd : inode) (order : ByteOrder) : Prop :=
  seekable nd = true /\
  (8 + sizeofRawGotetraHeader c <= length (contents nd))%nat /\
  flag_order nd = Returns order /\
  declared_size order nd = int32 (Z.of_nat (sizeofRawGotetraHeader c)).

(** The operating system after a successful decode of [file] from [w]: one
    more descriptor, positioned behind the header, and five system calls. *)
Definition after_header (w : world) (file : string) (nd : inode) : world :=
  let fd := nextfd w in
  {| files := files w;
     fdtab := <[fd := {| d_file := nd; d_pos := 8 + sizeofRawGotetraHeader c |}]> (fdtab w);
     nextfd := S fd;
     trace := trace w ++ [EvOpen fd file; EvRead fd 0 4; EvRead fd 4 4; EvSeek fd 8;
                          EvRead fd 8 (sizeofRawGotetraHeader c)] |}.

(** The operating system after [ReadSheetHeaderAt] on a well-formed file:
    the descriptor is gone again. *)
Definition after_probe (w : world) (file : string) : world :=
  let fd := nextfd w in
  {| files := files w;
     fdtab := delete fd (fdtab w);
     nextfd := S fd;
     trace := trace w ++ [EvOpen fd file; EvRead fd 0 4; EvRead fd 4 4; EvSeek fd 8;
                          EvRead fd 8 (sizeofRawGotetraHeader c); EvClose fd] |}.

End Layout.

(** ** The payload *)

Section Payload.
Variable c : nat.

(** The bytes of the first [n] vectors, behind the header. *)
Definition payload_bytes (nd : inode) (n : nat) : list byte :=
  take (12 * n) (drop (8 + sizeofRawGotetraHeader c) (contents nd)).

(** The operating system after a payload read of [n] vectors that got as
    far as closing the file: the descriptor is gone, and the trace shows the
    header decode, the seek behind the header, one read and the close. *)
Definition after_payload (w : world) (file : string) (n : nat) : world :=
  let fd := nextfd w in
  let H := sizeofRawGotetraHeader c in
  {| files := files w;
     fdtab := delete fd (fdtab w);
     nextfd := S fd;
     trace := trace w ++ [EvOpen fd file; EvRead fd 0 4; EvRead fd 4 4; EvSeek fd 8;
                          EvRead fd 8 H; EvSeek fd (Z.of_nat (8 + H));
                          EvRead fd (8 + H) (12 * n); EvClose fd] |}.

End Payload.

(** ** The extraction loop *)

(** The cells of [out] from index [k] on are as they were in [s0]. *)
Definition cells_kept (s0 : world * GotetraBuffer) (k : Z)
    (s : world * GotetraBuffer) : Prop :=
  forall i : nat, k <= Z.of_nat i -> out (snd s) !! i = out (snd s0) !! i.

(** A computation that neither looks at the operating system nor changes
    it: started in another state of the system it does the same to the
    buffer and returns the same. *)
Definition buffer_only {A} (m : Go (world * GotetraBuffer) A) : Prop :=
  forall w w' b, m (w', b) = (fst (m (w, b)), (w', snd (snd (m (w, b))))).

(** The panic of an index or a slice assignment out of range. *)
Definition is_index_panic (p : panic_value) : bool :=
  match p with IndexOutOfRange _ _ => true | _ => false end.

(** ** More sample files *)
Module Sample2.

(** Segment width 3 on a grid of side 2. *)
Definition wide_sheet : inode :=
  Sample.regular (Sample.encode_sheet LittleEndian 0
                    (Z.of_nat (sizeofRawGotetraHeader Sample.cosmo))
                    (Sample.header 3 2 8) (Sample.ramp 8)).

(** A negative grid width. *)
Definition negative_sheet : inode :=
  Sample.regular (Sample.encode_sheet LittleEndian 0
                    (Z.of_nat (sizeofRawGotetraHeader Sample.cosmo))
                    (Sample.header 1 (-2) 8) (Sample.ramp 8)).

(** The good big-endian sheet on a device whose close reports an error. *)
Definition flaky_sheet : inode :=
  {| contents := contents (Sample.good_sheet BigEndian);
     seekable := true; close_ok := false |}.

(** The good little-endian sheet behind a pipe. *)
Definition piped_sheet : inode :=
  {| contents := contents (Sample.good_sheet LittleEndian);
     seekable := false; close_ok := true |}.

(** A sheet cut off in the middle of its header. *)
Definition cut_sheet : inode :=
  Sample.regular (take 100 (contents (Sample.good_sheet LittleEndian))).

(** A sheet cut off in the middle of its payload. *)
Definition short_sheet : inode :=
  Sample.regular (take 300 (contents (Sample.good_sheet LittleEndian))).

Definition disk : gmap string inode :=
  <["short.dat" := short_sheet]>
  (<["wide.dat" := wide_sheet]>
  (<["negative.dat" := negative_sheet]>
  (<["flaky.dat" := flaky_sheet]>
  (<["pipe.dat" := piped_sheet]>
  (<["cut.dat" := cut_sheet]>
  (<["le.dat" := Sample.good_sheet LittleEndian]>
  (<["small.dat" := Sample.small_sheet]> ∅))))))).

Definition boot : world :=
  {| files := disk; fdtab := ∅; nextfd := 3; trace := [] |}.

(** A later state of the system: descriptor 3 is open on another sheet and
    some calls have been logged. *)
Definition busy : world :=
  {| files := disk;
     fdtab := <[3%nat := {| d_file := wide_sheet; d_pos := 17 |}]> ∅;
     nextfd := 7;
     trace := [EvOpen 3 "wide.dat"; EvRead 3 0 17] |}.

End Sample2.

(** ** Sample files for the counterexamples *)
Module Sample3.

(** Flag 1 and a declared header size of 161. *)
Definition odd_sheet : inode :=
  Sample.regular (Sample.encode_sheet LittleEndian 1
                    (Z.of_nat (sizeofRawGotetraHeader Sample.cosmo) + 1)
                    (Sample.header 2 4 64) (Sample.ramp 64)).

Definition odd_boot : world :=
  {| files := <["odd.dat" := odd_sheet]> ∅; fdtab := ∅; nextfd := 3; trace := [] |}.

(** A grid of side [2^32 + 2]: its square and its cube do not fit an
    [int64], and wrap to [2^34 + 4] and to [3 * 2^34 + 8]. *)
Definition wrapped_side : Z := 2 ^ 32 + 2.
Definition wrapped_square : Z := 17179869188.
Definition wrapped_cube : Z := 51539607560.

(** A sheet of that side with segment width 2 that stores [vs]. *)
Definition wrapped_sheet_of (vs : list vec3) : inode :=
  Sample.regular (Sample.encode_sheet LittleEndian 0
                    (Z.of_nat (sizeofRawGotetraHeader Sample.cosmo))
                    (Sample.header 2 wrapped_side wrapped_cube) vs).

(** The sheet that stores [wrapped_cube] zero vectors. *)
Definition wrapped_sheet : inode :=
  wrapped_sheet_of (replicate (Z.to_nat wrapped_cube) zero_vec3).

Definition wrapped_boot : world :=
  {| files := <["wrapped.dat" := wrapped_sheet]> ∅; fdtab := ∅; nextfd := 3;
     trace := [] |}.

End Sample3.

(** * Properties *)

(** ** Integers and bytes *)

Lemma wrap_id (bits z : Z) :
  0 < bits -> - 2 ^ (bits - 1) <= z < 2 ^ (bits - 1) -> wrap bits z = z.
Proof.
  intros Hb Hz. unfold wrap.
  assert (E : 2 ^ bits = 2 * 2 ^ (bits - 1)).
  { rewrite <- Z.pow_succ_r by lia. f_equal. lia. }
  rewrite Z.mod_small by lia. lia.
Qed.

Lemma wrap_range (bits z : Z) :
  0 < bits -> - 2 ^ (bits - 1) <= wrap bits z < 2 ^ (bits - 1).
Proof.
  intros Hb. unfold wrap.
  assert (E : 2 ^ bits = 2 * 2 ^ (bits - 1)).
  { rewrite <- Z.pow_succ_r by lia. f_equal. lia. }
  assert (0 < 2 ^ (bits - 1)) by (apply Z.pow_pos_nonneg; lia).
  pose proof (Z.mod_pos_bound (z + 2 ^ (bits - 1)) (2 ^ bits)). lia.
Qed.

Lemma int_id (z : Z) : - 2 ^ 63 <= z < 2 ^ 63 -> int z = z.
Proof. intros. apply wrap_id; lia. Qed.

Lemma int64_id (z : Z) : - 2 ^ 63 <= z < 2 ^ 63 -> int64 z = z.
Proof. intros. apply wrap_id; lia. Qed.

Lemma int32_id (z : Z) : - 2 ^ 31 <= z < 2 ^ 31 -> int32 z = z.
Proof. intros. apply wrap_id; lia. Qed.

(** The signed reading of an unsigned 32-bit value. *)
Lemma int32_unsigned (u : Z) :
  0 <= u < 2 ^ 32 -> int32 u = if u <? 2 ^ 31 then u else u - 2 ^ 32.
Proof.
  intros Hu. unfold int32, wrap. destruct (Z.ltb_spec u (2 ^ 31)).
  - rewrite Z.mod_small; lia.
  - replace (u + 2 ^ (32 - 1)) with (u - 2 ^ 31 + 1 * 2 ^ 32) by lia.
    rewrite Z.mod_add by lia. rewrite Z.mod_small; lia.
Qed.

Lemma byte_val_range (b : byte) : 0 <= byte_val b <= 255.
Proof. unfold byte_val. pose proof (Byte.to_N_bounded b). lia. Qed.

(** A four-byte word reads as 0, or as -1, in one byte order exactly when it
    does in the other: these two flags are byte-order palindromes. *)
Lemma flag_word_symmetric (bs : list byte) :
  length bs = 4%nat ->
  let l := int32 (uint_of_bytes LittleEndian bs) in
  let b := int32 (uint_of_bytes BigEndian bs) in
  (l = 0 <-> b = 0) /\ (l = -1 <-> b = -1).
Proof.
  intros Hlen.
  destruct bs as [|b0 [|b1 [|b2 [|b3 [|]]]]]; try discriminate. clear Hlen.
  cbn [uint_of_bytes rev app le_uint].
  pose proof (byte_val_range b0). pose proof (byte_val_range b1).
  pose proof (byte_val_range b2). pose proof (byte_val_range b3).
  rewrite !int32_unsigned by lia.
  repeat match goal with |- context [?a <? ?b] => destruct (Z.ltb_spec a b) end; lia.
Qed.

Lemma endianness_cases (flag : Z) :
  (flag = 0 /\ endianness flag = Returns LittleEndian) \/
  (flag = -1 /\ endianness flag = Returns BigEndian) \/
  (flag <> 0 /\ flag <> -1 /\
   endianness flag = Panics (PanicString "Unrecognized endianness flag.")).
Proof.
  unfold endianness.
  destruct (Z.eqb_spec flag 0); [auto|].
  destruct (Z.eqb_spec flag (-1)); auto.
Qed.

(** ** Running the decoder on an open descriptor *)

Lemma bind_Returns {St A B} (m : Go St A) (k : A -> Go St B) s a s' :
  m s = (Returns a, s') -> bind m k s = k a s'.
Proof. unfold bind. intros ->. reflexivity. Qed.

Lemma short_read_full (n : nat) : short_read n n = None.
Proof. unfold short_read. by rewrite Nat.eqb_refl. Qed.

Lemma os_OpenFile_Some (w : world) (name : string) (nd : inode) :
  files w !! name = Some nd ->
  os_OpenFile name w =
    (Returns (Some (nextfd w), None),
     log (EvOpen (nextfd w) name)
       (set_fd (nextfd w) {| d_file := nd; d_pos := 0 |} (alloc_fd w))).
Proof. unfold os_OpenFile. intros ->. reflexivity. Qed.

Lemma ReadFull_Some (w : world) (fd : nat) (d : desc) (n : nat) :
  fdtab w !! fd = Some d ->
  ReadFull (Some fd) n w =
    (let got := take n (drop (d_pos d) (contents (d_file d))) in
     (Returns (got, short_read (length got) n),
      log (EvRead fd (d_pos d) n)
        (set_fd fd {| d_file := d_file d; d_pos := (d_pos d + length got)%nat |} w))).
Proof. unfold ReadFull. intros ->. reflexivity. Qed.

Lemma fdtab_log_set_fd (e : event) (fd : nat) (d : desc) (w : world) :
  fdtab (log e (set_fd fd d w)) !! fd = Some d.
Proof. cbn. apply lookup_insert_eq. Qed.

(** The first read of the decoder: four bytes at offset 0. *)
Lemma readInt32_Some (w : world) (fd : nat) (d : desc) (order : ByteOrder) :
  fdtab w !! fd = Some d ->
  (d_pos d + 4 <= length (contents (d_file d)))%nat ->
  readInt32 (Some fd) order w =
    (Returns (int32 (uint_of_bytes order (take 4 (drop (d_pos d) (contents (d_file d)))))),
     log (EvRead fd (d_pos d) 4)
       (set_fd fd {| d_file := d_file d; d_pos := (d_pos d + 4)%nat |} w)).
Proof.
  intros Hfd Hlen. unfold readInt32.
  erewrite bind_Returns by (apply ReadFull_Some; eassumption).
  cbn zeta.
  assert (E : length (take 4 (drop (d_pos d) (contents (d_file d)))) = 4%nat).
  { rewrite length_take, length_drop. lia. }
  rewrite E, short_read_full. reflexivity.
Qed.

Section Decoder.
Variable c : nat.

(** The decoder up to the byte order: the file opens, its first four bytes
    are read as the flag, and the flag decides. *)
Lemma readSheetHeaderAt_flag (w : world) (file : string) (nd : inode)
    (hdBuf : GotetraHeader) :
  files w !! file = Some nd ->
  (4 <= length (contents nd))%nat ->
  let fd := nextfd w in
  let w1 := log (EvRead fd 0 4)
              (set_fd fd {| d_file := nd; d_pos := 4 |}
                 (log (EvOpen fd file)
                    (set_fd fd {| d_file := nd; d_pos := 0 |} (alloc_fd w)))) in
  match endianness (int32 (uint_of_bytes LittleEndian (take 4 (contents nd)))) with
  | Panics p => readSheetHeaderAt c file hdBuf w = (Panics p, w1)
  | Returns order =>
      readSheetHeaderAt c file hdBuf w =
        (headerSize <- readInt32 (Some fd) order ;;
         if negb (headerSize =? int32 (Z.of_nat (sizeofRawGotetraHeader c))) then
           ret (hdBuf, (None, LittleEndian,
                        Some (ErrHeaderSize (Z.of_nat (sizeofRawGotetraHeader c)) headerSize)))
         else
           let* (_, err) := Seek (Some fd) (4 + 4) in
           match err with
           | Some e => ret (hdBuf, (None, LittleEndian, Some e))
           | None =>
               let* (hdBuf, err) := binary_Read_RawGotetraHeader c (Some fd) order hdBuf in
               match err with
               | Some e => ret (hdBuf, (None, LittleEndian, Some e))
               | None => ret (Postprocess (Raw hdBuf) hdBuf, (Some fd, order, None))
               end
           end) w1
  end.
Proof.
  intros Hf Hlen fd w1.
  unfold readSheetHeaderAt.
  erewrite bind_Returns by (apply os_OpenFile_Some; eassumption).
  cbn iota beta.
  erewrite bind_Returns.
  2:{ erewrite readInt32_Some; [reflexivity | apply fdtab_log_set_fd | cbn; lia]. }
  cbn [d_pos d_file Nat.add]. rewrite drop_0. fold fd. fold w1.
  unfold bind at 1, call.
  destruct (endianness _); reflexivity.
Qed.

End Decoder.

(** ** The endianness flag and the declared header size *)

Section HeaderChecks.
Variable c : nat.

(** A successful decode hands back the byte order that the flag selected. *)
Lemma readSheetHeaderAt_order (w w' : world) (file : string) (nd : inode)
    (hdBuf h : GotetraHeader) (f : File) (order : ByteOrder) :
  files w !! file = Some nd ->
  (4 <= length (contents nd))%nat ->
  readSheetHeaderAt c file hdBuf w = (Returns (h, (f, order, None)), w') ->
  endianness (int32 (uint_of_bytes LittleEndian (take 4 (contents nd)))) = Returns order.
Proof.
  intros Hf Hlen Hrun.
  pose proof (readSheetHeaderAt_flag c w file nd hdBuf Hf Hlen) as Hflag.
  cbn zeta in Hflag.
  destruct (endianness _) as [o|p]; [|congruence].
  rewrite Hflag in Hrun. clear Hflag. f_equal.
  unfold bind in Hrun.
  destruct (readInt32 _ _ _) as [[hs|p] w1]; [|discriminate].
  destruct (negb _); [discriminate|].
  destruct (Seek _ _ _) as [[[pos [e|]]|p] w2]; try discriminate.
  destruct (binary_Read_RawGotetraHeader _ _ _ _ _) as [[[h' [e|]]|p] w3];
    try discriminate.
  unfold ret in Hrun. congruence.
Qed.

(** C6 (as amended). The decoder reads the leading four bytes as the flag.
    Flag 0 selects little-endian and flag -1 selects big-endian; for every
    other flag the decoder does not proceed: it panics with "Unrecognized
    endianness flag." (a fatal abort, no [error] value is returned). Reading
    the flag bytes in big-endian order instead of little-endian order gives
    the same result. *)
Theorem endianness_flag_decoding (w : world) (file : string) (nd : inode)
    (hdBuf : GotetraHeader) :
  files w !! file = Some nd ->
  (4 <= length (contents nd))%nat ->
  let bs := take 4 (contents nd) in
  let flag := int32 (uint_of_bytes LittleEndian bs) in
  endianness 0 = Returns LittleEndian /\
  endianness (-1) = Returns BigEndian /\
  endianness (int32 (uint_of_bytes BigEndian bs)) = endianness flag /\
  (forall h f order w',
     readSheetHeaderAt c file hdBuf w = (Returns (h, (f, order, None)), w') ->
     (flag = 0 /\ order = LittleEndian) \/ (flag = -1 /\ order = BigEndian)) /\
  (flag <> 0 -> flag <> -1 ->
   fst (readSheetHeaderAt c file hdBuf w) =
     Panics (PanicString "Unrecognized endianness flag.")).
Proof.
  intros Hf Hlen bs flag.
  split; [reflexivity|]. split; [reflexivity|]. split; [|split].
  - assert (Hbs : length bs = 4%nat) by (unfold bs; rewrite length_take; lia).
    destruct (flag_word_symmetric bs Hbs) as [H0 H1]. cbn zeta in H0, H1.
    fold flag in H0, H1. unfold endianness.
    destruct (Z.eqb_spec flag 0) as [E0|N0].
    + rewrite (proj1 H0 E0). reflexivity.
    + destruct (Z.eqb_spec (int32 (uint_of_bytes BigEndian bs)) 0) as [E|N];
        [tauto|].
      destruct (Z.eqb_spec flag (-1)) as [E1|N1].
      * rewrite (proj1 H1 E1). reflexivity.
      * destruct (Z.eqb_spec (int32 (uint_of_bytes BigEndian bs)) (-1)); tauto.
  - intros h f order w' Hrun.
    pose proof (readSheetHeaderAt_order _ _ _ _ _ _ _ _ Hf Hlen Hrun) as Hord.
    fold bs in Hord. fold flag in Hord.
    destruct (endianness_cases flag) as [[E H]|[[E H]|(_ & _ & H)]];
      rewrite H in Hord; [left|right|discriminate]; split; congruence.
  - intros N0 N1.
    pose proof (readSheetHeaderAt_flag c w file nd hdBuf Hf Hlen) as Hflag.
    cbn zeta in Hflag. fold bs in Hflag. fold flag in Hflag.
    destruct (endianness_cases flag) as [[E H]|[[E H]|(_ & _ & H)]];
      [contradiction|contradiction|].
    rewrite H in Hflag. rewrite Hflag. reflexivity.
Qed.

(** C8 (as amended). When the file opens, holds at least 8 bytes, carries a
    valid flag (0 or -1), and its declared 4-byte header size (read in the
    detected order) differs from the size of [RawGotetraHeader] (a size
    below [2 ^ 31]), the decoder returns the format error that reports
    the expected and the found size. The header buffer is left as it was, and
    the only reads issued are the two 4-byte reads of flag and size: the
    header fields are never read. *)
Theorem header_size_mismatch (w : world) (file : string) (nd : inode)
    (hdBuf : GotetraHeader) (order : ByteOrder) :
  files w !! file = Some nd ->
  (8 <= length (contents nd))%nat ->
  endianness (int32 (uint_of_bytes LittleEndian (take 4 (contents nd)))) = Returns order ->
  let declared := int32 (uint_of_bytes order (take 4 (drop 4 (contents nd)))) in
  let expected := Z.of_nat (sizeofRawGotetraHeader c) in
  expected < 2 ^ 31 ->
  declared <> expected ->
  exists w',
    readSheetHeaderAt c file hdBuf w =
      (Returns (hdBuf, (None, LittleEndian, Some (ErrHeaderSize expected declared))), w')
    /\ is_FormatError (ErrHeaderSize expected declared) = true
    /\ trace w' = trace w ++ [EvOpen (nextfd w) file; EvRead (nextfd w) 0 4;
                              EvRead (nextfd w) 4 4].
Proof.
  intros Hf Hlen Hord declared expected Hsz Hne.
  pose proof (readSheetHeaderAt_flag c w file nd hdBuf Hf ltac:(lia)) as Hflag.
  cbn zeta in Hflag. rewrite Hord in Hflag.
  eexists. split; [|split; [reflexivity|]].
  - rewrite Hflag.
    erewrite bind_Returns.
    2:{ erewrite readInt32_Some; [reflexivity | apply fdtab_log_set_fd | cbn; lia]. }
    cbn [d_pos d_file]. fold declared. fold expected.
    rewrite (int32_id expected) by (unfold expected; lia).
    destruct (Z.eqb_spec declared expected); [contradiction|].
    reflexivity.
  - cbn. rewrite <- !app_assoc. reflexivity.
Qed.

End HeaderChecks.

(** C6, counterexample: on a file whose flag is 1 the decoder returns no
    format error; it panics. *)
Lemma bad_flag_panics :
  endianness 1 = Panics (PanicString "Unrecognized endianness flag.") /\
  fst (readSheetHeaderAt Sample.cosmo "flag.dat"
         (zero_GotetraHeader Sample.cosmo) Sample.boot) =
    Panics (PanicString "Unrecognized endianness flag.").
Proof. split; vm_compute; reflexivity. Qed.

(** The flag theorem on the big-endian sample sheet. *)
Lemma endianness_flag_decoding_witness :
  let w := Sample.boot in
  let hd0 := zero_GotetraHeader Sample.cosmo in
  let flag := int32 (uint_of_bytes LittleEndian
                       (take 4 (contents (Sample.good_sheet BigEndian)))) in
  endianness 0 = Returns LittleEndian /\
  endianness (-1) = Returns BigEndian /\
  endianness (int32 (uint_of_bytes BigEndian
                       (take 4 (contents (Sample.good_sheet BigEndian))))) =
    endianness flag /\
  (forall h f order w',
     readSheetHeaderAt Sample.cosmo "be.dat" hd0 w = (Returns (h, (f, order, None)), w') ->
     (flag = 0 /\ order = LittleEndian) \/ (flag = -1 /\ order = BigEndian)) /\
  (flag <> 0 -> flag <> -1 ->
   fst (readSheetHeaderAt Sample.cosmo "be.dat" hd0 w) =
     Panics (PanicString "Unrecognized endianness flag.")).
Proof.
  apply (endianness_flag_decoding Sample.cosmo Sample.boot "be.dat"
           (Sample.good_sheet BigEndian)).
  - vm_compute. reflexivity.
  - vm_compute. lia.
Defined.

(** The size check on the sample sheet that declares 161 bytes. *)
Lemma header_size_mismatch_witness :
  exists w',
    readSheetHeaderAt Sample.cosmo "size.dat" (zero_GotetraHeader Sample.cosmo) Sample.boot =
      (Returns (zero_GotetraHeader Sample.cosmo,
                (None, LittleEndian, Some (ErrHeaderSize 160 161))), w')
    /\ is_FormatError (ErrHeaderSize 160 161) = true
    /\ trace w' = trace Sample.boot ++ [EvOpen 3 "size.dat"; EvRead 3 0 4; EvRead 3 4 4].
Proof.
  apply (header_size_mismatch Sample.cosmo Sample.boot "size.dat" Sample.bad_size_sheet
           (zero_GotetraHeader Sample.cosmo) LittleEndian).
  - vm_compute. reflexivity.
  - vm_compute. lia.
  - vm_compute. reflexivity.
  - vm_compute. reflexivity.
  - vm_compute. discriminate.
Defined.

(** C8, counterexample: "odd.dat" declares a header size of 161, which is
    not 160 in either byte order, but its flag is 1. The decoder panics on
    the flag after the first read: no format error is returned, and the
    size field is never read. *)
Lemma bad_flag_precedes_size_check :
  let c := Sample.cosmo in
  let nd := Sample3.odd_sheet in
  let r := readSheetHeaderAt c "odd.dat" (zero_GotetraHeader c) Sample3.odd_boot in
  files Sample3.odd_boot !! "odd.dat" = Some nd /\
  int32 (uint_of_bytes LittleEndian (take 4 (contents nd))) = 1 /\
  declared_size LittleEndian nd = 161 /\
  declared_size BigEndian nd = -1593835520 /\
  Z.of_nat (sizeofRawGotetraHeader c) = 160 /\
  fst r = Panics (PanicString "Unrecognized endianness flag.") /\
  trace (snd r) = [EvOpen 3 "odd.dat"; EvRead 3 0 4].
Proof. repeat split; vm_compute; reflexivity. Qed.

(** ** Failures of the payload reader and of [Read] *)

Section Failures.
Variable c : nat.

(** Whatever error the header decoder reports, the payload reader returns
    nil and leaves the target array as it was. *)
Lemma readSheetPositionsAt_drops_header_error (w w' : world) (file : string)
    (xs : list vec3) (h : GotetraHeader) (f : File) (order : ByteOrder) (e : error) :
  readSheetHeaderAt c file (zero_GotetraHeader c) w = (Returns (h, (f, order, Some e)), w') ->
  readSheetPositionsAt c file xs w = (Returns (xs, None), w').
Proof.
  intros Hhd. unfold readSheetPositionsAt.
  erewrite bind_Returns by eassumption. reflexivity.
Qed.

(** A [Read] on a closed buffer that returns an error leaves the buffer
    open. *)
Lemma Read_error_leaves_open (fname : string) (w w' : world) (b b' : GotetraBuffer)
    (o : option (list vec3)) (e : error) :
  open b = false ->
  Read c fname (w, b) = (Returns (o, Some e), (w', b')) ->
  open b' = true.
Proof.
  intros Hcl. unfold Read, bind, get_buf. cbn [snd fst]. rewrite Hcl.
  unfold set_open at 1. cbn [snd fst].
  unfold in_world. cbn [snd fst].
  destruct (readSheetPositionsAt c fname (sheet b) w) as [[[xs err]|p] w1];
    [|discriminate].
  unfold set_sheet at 1. cbn [snd fst].
  destruct err as [e'|].
  - unfold ret. intros [= <- <- <- <-]. reflexivity.
  - destruct (extract _) as [[[]|p] s2]; [|discriminate].
    unfold ret. discriminate.
Qed.

End Failures.

(** C1, at the failing inputs: for a path that cannot be opened, and for a
    file whose declared header size is wrong, the header decoder reports an
    error while the payload reader returns nil, the target array untouched. *)
Theorem positions_reader_hides_header_failure :
  let hd0 := zero_GotetraHeader Sample.cosmo in
  let xs := replicate 64 zero_vec3 in
  fst (readSheetHeaderAt Sample.cosmo "none.dat" hd0 Sample.boot)
    = Returns (hd0, (None, LittleEndian, Some (ErrNotExist "none.dat"))) /\
  is_IOError (ErrNotExist "none.dat") = true /\
  fst (readSheetPositionsAt Sample.cosmo "none.dat" xs Sample.boot) = Returns (xs, None) /\
  fst (ReadSheetHeaderAt Sample.cosmo "size.dat" hd0 Sample.boot)
    = Returns (hd0, Some (ErrHeaderSize 160 161)) /\
  is_FormatError (ErrHeaderSize 160 161) = true /\
  fst (readSheetPositionsAt Sample.cosmo "size.dat" xs Sample.boot) = Returns (xs, None).
Proof. repeat split; vm_compute; reflexivity. Qed.

(** C2, at the failing input: a closed buffer for a grid of side 4 reads a
    sheet that stores 8 vectors. [Read] returns the length error, and the
    buffer is open afterwards. *)
Theorem failed_Read_leaves_buffer_open :
  let b := Sample.fresh_buffer 2 4 in
  let r := Read Sample.cosmo "small.dat" (Sample.boot, b) in
  IsOpen b = false /\
  fst r = Returns (None, Some (ErrPositionBuffer 64 "small.dat" 8)) /\
  IsOpen (snd (snd r)) = true.
Proof. repeat split; vm_compute; reflexivity. Qed.

(** C5, at the failing inputs: the header probe on a file with a wrong
    declared size, and the payload reader on a target array of the wrong
    length, return their format errors with the descriptor still open and no
    close in the trace; on a well-formed sheet both close it once. *)
Theorem error_exits_leak_descriptor :
  let hd0 := zero_GotetraHeader Sample.cosmo in
  let r1 := ReadSheetHeaderAt Sample.cosmo "size.dat" hd0 Sample.boot in
  let r2 := readSheetPositionsAt Sample.cosmo "small.dat" (replicate 64 zero_vec3)
              Sample.boot in
  let r3 := ReadSheetHeaderAt Sample.cosmo "small.dat" hd0 Sample.boot in
  let r4 := readSheetPositionsAt Sample.cosmo "small.dat" (replicate 8 zero_vec3)
              Sample.boot in
  (fst r1 = Returns (hd0, Some (ErrHeaderSize 160 161)) /\
   trace (snd r1) = [EvOpen 3 "size.dat"; EvRead 3 0 4; EvRead 3 4 4] /\
   closes 3 (trace (snd r1)) = 0%nat /\
   d_pos <$> fdtab (snd r1) !! 3%nat = Some 8%nat) /\
  (fst r2 = Returns (replicate 64 zero_vec3, Some (ErrPositionBuffer 64 "small.dat" 8)) /\
   closes 3 (trace (snd r2)) = 0%nat /\
   d_pos <$> fdtab (snd r2) !! 3%nat = Some 168%nat) /\
  (closes 3 (trace (snd r3)) = 1%nat /\ fdtab (snd r3) !! 3%nat = None) /\
  (closes 3 (trace (snd r4)) = 1%nat /\ fdtab (snd r4) !! 3%nat = None).
Proof. repeat split; vm_compute; reflexivity. Qed.

(** ** Cell bounds *)

(** C7 (as amended). [CellBounds] checks nothing and has no failure exit: for
    every header and every [cells], also zero or negative, it returns the
    bounds given per axis by the specification's formulas, evaluated in IEEE
    arithmetic. For [totalWidth = 100], [cells = 10], origin [(5,5,5)] and
    width [(12,12,12)] these are origin [(0,0,0)] and width [(2,2,2)]. *)
Theorem CellBounds_formula (hd : GotetraHeader) (cells : Z) :
  GotetraHeader_CellBounds hd cells =
    {| cb_Origin := (spec_originIdx hd cells 0, spec_originIdx hd cells 1,
                     spec_originIdx hd cells 2);
       cb_Width := (spec_widthIdx hd cells 0, spec_widthIdx hd cells 1,
                    spec_widthIdx hd cells 2) |}
  /\ GotetraHeader_CellBounds Sample.sample_hd 10 =
       {| cb_Origin := (0, 0, 0); cb_Width := (2, 2, 2) |}.
Proof.
  split; [|vm_compute; reflexivity].
  unfold GotetraHeader_CellBounds, spec_widthIdx, spec_farIdx, spec_originIdx,
    spec_cellWidth.
  cbn [fold_left cb_Origin cb_Width set3 get3]. reflexivity.
Qed.

(** C7, counterexample: with [cells = 0] (and with [cells = -3]) the call
    returns bounds; nothing is rejected. *)
Lemma CellBounds_zero_cells_returns :
  GotetraHeader_CellBounds Sample.sample_hd 0 =
    {| cb_Origin := (0, 0, 0); cb_Width := (1, 1, 1) |} /\
  GotetraHeader_CellBounds Sample.sample_hd (-3) =
    {| cb_Origin := (-1, -1, -1); cb_Width := (1, 1, 1) |}.
Proof. split; vm_compute; reflexivity. Qed.

(** ** Loops, slices and index arithmetic *)

Lemma for_loop_preserves {St} (P : St -> Prop) (body : Z -> Go St unit) :
  (forall k s, P s -> P (snd (body k s))) ->
  forall n i s, P s -> P (snd (for_loop n i body s)).
Proof.
  intros Hbody. induction n as [|n IH]; intros i s Hs; [exact Hs|].
  cbn [for_loop]. unfold bind.
  specialize (Hbody i s Hs).
  destruct (body i s) as [[[]|p] s1]; cbn [snd] in *; auto.
Qed.

Lemma for_loop_success {St} (I : Z -> St -> Prop) (body : Z -> Go St unit) :
  forall n i s s',
    (forall k t t', i <= k < i + Z.of_nat n -> I k t ->
                    body k t = (Returns tt, t') -> I (k + 1) t') ->
    I i s ->
    for_loop n i body s = (Returns tt, s') ->
    I (i + Z.of_nat n) s'.
Proof.
  induction n as [|n IH]; intros i s s' Hbody Hi Hrun.
  - cbn in Hrun. injection Hrun as <-. by rewrite Z.add_0_r.
  - cbn [for_loop] in Hrun. unfold bind in Hrun.
    destruct (body i s) as [[[]|p] s1] eqn:E; [|discriminate].
    replace (i + Z.of_nat (S n)) with (i + 1 + Z.of_nat n) by lia.
    apply (IH (i + 1) s1 s'); [|apply (Hbody i s s1); [lia|done..]|done].
    intros k t t' Hk. apply Hbody. lia.
Qed.

Lemma for_loop_total {St} (I : Z -> St -> Prop) (body : Z -> Go St unit) :
  forall n i s,
    (forall k t, i <= k < i + Z.of_nat n -> I k t ->
                 exists t', body k t = (Returns tt, t') /\ I (k + 1) t') ->
    I i s ->
    exists s', for_loop n i body s = (Returns tt, s') /\ I (i + Z.of_nat n) s'.
Proof.
  induction n as [|n IH]; intros i s Hbody Hi.
  - exists s. split; [reflexivity|]. by rewrite Z.add_0_r.
  - destruct (Hbody i s ltac:(lia) Hi) as (s1 & E & H1).
    destruct (IH (i + 1) s1) as (s' & Hrun & H'); [|done|].
    { intros k t Hk. apply Hbody. lia. }
    exists s'. split.
    + cbn [for_loop]. unfold bind. rewrite E. exact Hrun.
    + replace (i + Z.of_nat (S n)) with (i + 1 + Z.of_nat n) by lia. exact H'.
Qed.

Lemma index_Returns {St A} (l : list A) (i : Z) (s s' : St) (v : A) :
  index l i s = (Returns v, s') -> s' = s /\ 0 <= i /\ l !! Z.to_nat i = Some v.
Proof.
  unfold index. destruct (Z.leb_spec 0 i); [|discriminate].
  destruct (l !! Z.to_nat i) eqn:E; [|discriminate].
  unfold ret. intros [= <- <-]. done.
Qed.

Lemma index_in_range {St A} (l : list A) (i : Z) (s : St) :
  0 <= i < Z.of_nat (length l) ->
  exists v, index l i s = (Returns v, s) /\ l !! Z.to_nat i = Some v.
Proof.
  intros Hi. unfold index. destruct (Z.leb_spec 0 i); [|lia].
  destruct (lookup_lt_is_Some_2 l (Z.to_nat i)) as [v Hv]; [lia|].
  exists v. by rewrite Hv.
Qed.

Lemma store_Returns {St A} (l l' : list A) (i : Z) (v : A) (s s' : St) :
  store l i v s = (Returns l', s') ->
  s' = s /\ 0 <= i /\ (Z.to_nat i < length l)%nat /\ l' = <[Z.to_nat i := v]> l.
Proof.
  unfold store. destruct (Z.leb_spec 0 i); cbn [andb]; [|discriminate].
  destruct (Nat.ltb_spec (Z.to_nat i) (length l)); [|discriminate].
  unfold ret. intros [= <- <-]. done.
Qed.

Lemma store_in_range {St A} (l : list A) (i : Z) (v : A) (s : St) :
  0 <= i < Z.of_nat (length l) ->
  store l i v s = (Returns (<[Z.to_nat i := v]> l), s).
Proof.
  intros Hi. unfold store. destruct (Z.leb_spec 0 i); [|lia]. cbn [andb].
  destruct (Nat.ltb_spec (Z.to_nat i) (length l)); [reflexivity|lia].
Qed.

(** [int] is the identity up to a multiple of [2 ^ 64]. *)
Lemma int_eqm (a : Z) : exists q, int a = a + q * 2 ^ 64.
Proof.
  exists (- ((a + 2 ^ 63) / 2 ^ 64)). unfold int, wrap.
  rewrite Z.mod_eq by lia. change (2 ^ (64 - 1)) with (2 ^ 63). lia.
Qed.

Lemma int_add_mul (a q : Z) : int (a + q * 2 ^ 64) = int a.
Proof.
  unfold int, wrap.
  replace (a + q * 2 ^ 64 + 2 ^ (64 - 1)) with (a + 2 ^ (64 - 1) + q * 2 ^ 64) by lia.
  by rewrite Z.mod_add by lia.
Qed.

(** The index expression of the loop is the plain polynomial, wrapped once. *)
Lemma cell_index_int (w x y z : Z) : cell_index w x y z = int (x + y * w + z * w * w).
Proof.
  unfold cell_index.
  destruct (int_eqm (y * w)) as [q1 ->].
  destruct (int_eqm (z * w)) as [q3 ->].
  replace ((z * w + q3 * 2 ^ 64) * w) with (z * w * w + (q3 * w) * 2 ^ 64) by lia.
  rewrite int_add_mul.
  replace (x + (y * w + q1 * 2 ^ 64)) with (x + y * w + q1 * 2 ^ 64) by lia.
  rewrite int_add_mul.
  destruct (int_eqm (x + y * w)) as [q2 ->].
  destruct (int_eqm (z * w * w)) as [q4 ->].
  replace (x + y * w + q2 * 2 ^ 64 + (z * w * w + q4 * 2 ^ 64))
    with (x + y * w + z * w * w + (q2 + q4) * 2 ^ 64) by lia.
  apply int_add_mul.
Qed.

(** A cell of the cube has one pair of coordinates. *)
Lemma cell_unique (w x y z x' y' z' : Z) :
  0 <= x < w -> 0 <= y < w -> 0 <= x' < w -> 0 <= y' < w ->
  x + y * w + z * w * w = x' + y' * w + z' * w * w ->
  x = x' /\ y = y' /\ z = z'.
Proof.
  intros Hx Hy Hx' Hy' E.
  assert (Hmul : forall a d, - w < a < w -> a = w * d -> a = 0).
  { intros a d Ha Hd. destruct (Z.eq_dec d 0) as [->|Hd0]; [lia|].
    assert (d <= -1 \/ 1 <= d) as [?|?] by lia; nia. }
  assert (Ex : x = x').
  { assert (x - x' = 0); [|lia].
    apply (Hmul _ (y' - y + (z' - z) * w)); lia. }
  subst x'. assert (Ey : y = y').
  { assert (y - y' = 0); [|lia]. apply (Hmul _ (z' - z)); [lia|nia]. }
  subst y'. split; [done|]. split; [done|]. nia.
Qed.

(** The last cell of a cube of side [w] has index [w^3 - 1]. *)
Lemma cell_below_cube (w x y z : Z) :
  0 <= x < w -> 0 <= y < w -> 0 <= z < w -> 0 <= x + y * w + z * w * w < w * w * w.
Proof. intros. nia. Qed.

(** ** The extraction loop *)

Lemma extract_frame_refl (s : world * GotetraBuffer) : extract_frame s s.
Proof. by repeat split. Qed.

Lemma extract_frame_trans (s0 s1 s2 : world * GotetraBuffer) :
  extract_frame s0 s1 -> extract_frame s1 s2 -> extract_frame s0 s2.
Proof.
  unfold extract_frame. intros (? & ? & ? & ? & ? & ? & ?) (? & ? & ? & ? & ? & ? & ?).
  repeat split; congruence.
Qed.

(** One assignment [buf.out[si] = buf.sheet[gi]] changes nothing but the
    contents of [out], whether it returns or panics. *)
Lemma copy_cell_frame (x y z : Z) (s : world * GotetraBuffer) :
  extract_frame s (snd (copy_cell x y z s)).
Proof.
  unfold copy_cell, bind, get_buf, index, store, set_out, ret, panic.
  repeat case_match; simplify_eq/=; try apply extract_frame_refl.
  repeat split. cbn. by rewrite length_insert.
Qed.

Lemma for_range_frame (s0 : world * GotetraBuffer) (hi : Z)
    (body : Z -> Go (world * GotetraBuffer) unit) :
  (forall k s, extract_frame s (snd (body k s))) ->
  forall s, extract_frame s0 s -> extract_frame s0 (snd (for_range hi body s)).
Proof.
  intros Hbody. unfold for_range.
  apply (for_loop_preserves (extract_frame s0)).
  intros k s Hs. eapply extract_frame_trans; [exact Hs|apply Hbody].
Qed.

Lemma extract_keeps_frame (s : world * GotetraBuffer) :
  extract_frame s (snd (extract s)).
Proof.
  unfold extract, bind, get_buf. cbn [snd].
  match goal with |- context [for_range ?hi ?body s] =>
    pose proof (for_range_frame s hi body) as H end.
  lapply H; [clear H; intros H|].
  - specialize (H s (extract_frame_refl s)).
    destruct (for_range _ _ s) as [[[]|p] s']; exact H.
  - intros z t. apply for_range_frame; [|apply extract_frame_refl].
    intros y t'. apply for_range_frame; [|apply extract_frame_refl].
    intros x t''. apply copy_cell_frame.
Qed.

(** One successful assignment extends the filled prefix of [out] by a cell. *)
Lemma copy_cell_success (s0 st st' : world * GotetraBuffer) (x y z : Z) :
  let w := sw (snd s0) in
  0 <= x < w -> 0 <= y < w -> 0 <= z < w ->
  cells_done s0 (x + y * w + z * w * w) st ->
  copy_cell x y z st = (Returns tt, st') ->
  cells_done s0 (x + y * w + z * w * w + 1) st'.
Proof.
  intros w Hx Hy Hz (Hfr & Hk & Hdone) Hrun.
  destruct Hfr as (Hw & Hop & Hsh & Hsw & Hgw & Hhd & Hlen).
  unfold copy_cell, bind, get_buf in Hrun. cbn [snd] in Hrun.
  rewrite Hsw, Hgw, Hsh in Hrun. fold w in Hrun.
  destruct (index _ _ _) as [[v|p] s1] eqn:Eidx; [|discriminate].
  apply index_Returns in Eidx as (-> & Hgi0 & Hgi).
  destruct (store _ _ _ _) as [[o'|p] s2] eqn:Est; [|discriminate].
  apply store_Returns in Est as (-> & Hsi0 & Hsi & ->).
  unfold set_out in Hrun. injection Hrun as <-.
  set (k := x + y * w + z * w * w) in *.
  assert (Hk0 : 0 <= k) by (apply (cell_below_cube w x y z); done).
  rewrite cell_index_int in Hsi0, Hsi. fold k in Hsi0, Hsi.
  assert (Hk63 : k < 2 ^ 63).
  { destruct (Z.eq_dec k (2 ^ 63)) as [E|]; [|lia].
    rewrite E in Hsi0. vm_compute in Hsi0. contradiction. }
  rewrite int_id in Hsi, Hsi0 by lia.
  split; [|split].
  - repeat split; cbn [fst snd with_out open sheet out sw gw hd]; try done.
    rewrite length_insert. done.
  - lia.
  - intros x0 y0 z0 Hx0 Hy0 Hz0 Hlt. cbn [snd with_out out].
    fold w in Hx0, Hy0, Hz0, Hlt |- *.
    rewrite (cell_index_int w x y z). fold k. rewrite (int_id k) by lia.
    pose proof (cell_below_cube w x0 y0 z0 Hx0 Hy0 Hz0) as Hk0'.
    destruct (Z.eq_dec (x0 + y0 * w + z0 * w * w) k) as [E|N].
    + destruct (cell_unique w x0 y0 z0 x y z) as (-> & -> & ->); [done..|].
      split; [done|]. exists v. split; [done|]. fold k.
      apply list_lookup_insert_eq. done.
    + destruct (Hdone x0 y0 z0) as [Hg (v' & Hv1 & Hv2)]; [done..|fold w; lia|].
      split; [done|]. exists v'. split; [done|].
      fold w in Hv2. rewrite list_lookup_insert_ne; [done|]. lia.
Qed.

(** The three loops, when they return, have filled all [sw^3] cells. *)
Lemma extract_success (s0 s' : world * GotetraBuffer) :
  let w := sw (snd s0) in
  0 < w ->
  extract s0 = (Returns tt, s') ->
  cells_done s0 (w * w * w) s'.
Proof.
  intros w Hw Hrun.
  unfold extract, bind, get_buf in Hrun. cbn [snd] in Hrun. fold w in Hrun.
  unfold for_range in Hrun at 1.
  replace (w * w * w) with ((0 + Z.of_nat (Z.to_nat w)) * w * w)
    by (rewrite Z2Nat.id by lia; lia).
  revert Hrun.
  apply (for_loop_success (fun z st => cells_done s0 (z * w * w) st)).
  2:{ split; [apply extract_frame_refl|]. split; [lia|].
      intros x y z Hx Hy Hz Hlt. fold w in Hx, Hy, Hz, Hlt.
      pose proof (cell_below_cube w x y z Hx Hy Hz). lia. }
  intros z t t' Hz Hinv Hmid. rewrite Z2Nat.id in Hz by lia.
  unfold for_range in Hmid at 1.
  replace ((z + 1) * w * w) with ((0 + Z.of_nat (Z.to_nat w)) * w + z * w * w)
    by (rewrite Z2Nat.id by lia; lia).
  revert Hmid.
  apply (for_loop_success (fun y st => cells_done s0 (y * w + z * w * w) st)).
  2:{ replace (0 * w + z * w * w) with (z * w * w) by lia. exact Hinv. }
  intros y u u' Hy Hinv' Hin. rewrite Z2Nat.id in Hy by lia.
  unfold for_range in Hin.
  replace ((y + 1) * w + z * w * w)
    with ((0 + Z.of_nat (Z.to_nat w)) + y * w + z * w * w)
    by (rewrite Z2Nat.id by lia; lia).
  revert Hin.
  apply (for_loop_success (fun x st => cells_done s0 (x + y * w + z * w * w) st)).
  2:{ replace (0 + y * w + z * w * w) with (y * w + z * w * w) by lia. exact Hinv'. }
  intros x v v' Hx Hinv'' Hcell. rewrite Z2Nat.id in Hx by lia.
  replace (x + 1 + y * w + z * w * w) with (x + y * w + z * w * w + 1) by lia.
  apply (copy_cell_success s0 v v' x y z); try done; lia.
Qed.

(** When every index is in bounds, the three loops return. *)
Lemma extract_total (s0 : world * GotetraBuffer) :
  in_bounds (snd s0) ->
  exists s', extract s0 = (Returns tt, s') /\ extract_frame s0 s'.
Proof.
  intros Hb. unfold extract, bind, get_buf. cbn [snd].
  set (w := sw (snd s0)).
  assert (Hloop : exists s', for_range w (fun z => for_range w (fun y =>
                    for_range w (fun x => copy_cell x y z))) s0 = (Returns tt, s')
                  /\ extract_frame s0 s').
  { unfold for_range at 1.
    apply (for_loop_total (fun _ st => extract_frame s0 st));
      [|apply extract_frame_refl].
    intros z t Hz Ht. unfold for_range at 1.
    apply (for_loop_total (fun _ st => extract_frame s0 st)); [|exact Ht].
    intros y u Hy Hu. unfold for_range.
    apply (for_loop_total (fun _ st => extract_frame s0 st)); [|exact Hu].
    intros x v Hx Hv.
    assert (Hw : 0 < w) by lia. rewrite Z2Nat.id in Hx, Hy, Hz by lia.
    destruct Hv as (Hw1 & Hop & Hsh & Hsw & Hgw & Hhd & Hlen).
    destruct (Hb x y z) as [Hgi Hsi]; [fold w; lia..|].
    unfold copy_cell, bind, get_buf. cbn [snd].
    rewrite Hsw, Hgw, Hsh.
    destruct (index_in_range (sheet (snd s0)) (cell_index (gw (snd s0)) x y z) v Hgi)
      as (val & -> & _).
    rewrite store_in_range by (rewrite Hlen; exact Hsi).
    eexists. split; [reflexivity|].
    repeat split; cbn [fst snd with_out open sheet out sw gw hd]; try done.
    rewrite length_insert. done. }
  destruct Hloop as (s' & -> & Hfr). eauto.
Qed.

(** ** [Read] and [Close] *)

Section Methods.
Variable c : nat.

Lemma decode_vecs_length (order : ByteOrder) (n : nat) (bs : list byte) :
  length (decode_vecs order n bs) = n.
Proof. revert bs. induction n as [|n IH]; intros bs; cbn; [done|]. by rewrite IH. Qed.

(** The payload reader never changes the length of the target array. *)
Lemma readSheetPositionsAt_length (file : string) (xs ys : list vec3)
    (e : option error) (w w' : world) :
  readSheetPositionsAt c file xs w = (Returns (ys, e), w') ->
  length ys = length xs.
Proof.
  unfold readSheetPositionsAt, bind.
  destruct (readSheetHeaderAt _ _ _ _) as [[[h [[f o] e1]]|p] w1]; [|discriminate].
  destruct e1 as [e1|].
  { unfold ret. intros [= <- _ _]. done. }
  destruct (negb _).
  { unfold ret. intros [= <- _ _]. done. }
  destruct (Seek _ _ _) as [[r|p] w2]; [|discriminate].
  unfold readVecAsByte, bind.
  destruct (ReadFull _ _ _) as [[[bs e2]|p] w3]; [|discriminate].
  destruct e2 as [e2|].
  { unfold ret. intros [= <- _ _]. done. }
  unfold ret at 1.
  destruct (File_Close _ _) as [[e3|p] w4]; [|discriminate].
  destruct e3; unfold ret; intros [= <- _ _]; apply decode_vecs_length.
Qed.

(** [Read] on an open buffer panics before it touches anything. *)
Lemma Read_open (fname : string) (s : world * GotetraBuffer) :
  open (snd s) = true ->
  Read c fname s = (Panics (PanicString "Buffer already open."), s).
Proof. intros Hop. unfold Read, bind, get_buf. by rewrite Hop. Qed.

(** [Read] on a closed buffer, step by step. *)
Lemma Read_closed (fname : string) (w : world) (b : GotetraBuffer) :
  open b = false ->
  Read c fname (w, b) =
    match readSheetPositionsAt c fname (sheet b) w with
    | (Panics p, w1) => (Panics p, (w1, with_open true b))
    | (Returns (xs, Some e), w1) =>
        (Returns (None, Some e), (w1, with_sheet xs (with_open true b)))
    | (Returns (xs, None), w1) =>
        match extract (w1, with_sheet xs (with_open true b)) with
        | (Returns _, s3) => (Returns (Some (out (snd s3)), None), s3)
        | (Panics p, s3) => (Panics p, s3)
        end
    end.
Proof.
  intros Hcl. unfold Read, bind, get_buf. cbn [snd fst]. rewrite Hcl.
  unfold set_open at 1, in_world. cbn [snd fst].
  destruct (readSheetPositionsAt c fname (sheet b) w) as [[[xs [e|]]|p] w1];
    try reflexivity.
  all: unfold set_sheet; cbn [snd fst].
  all: destruct (extract _) as [[[]|p] s3]; reflexivity.
Qed.

Lemma same_shape_refl (b : GotetraBuffer) : same_shape b b.
Proof. by repeat split. Qed.

Lemma same_shape_trans (b1 b2 b3 : GotetraBuffer) :
  same_shape b1 b2 -> same_shape b2 b3 -> same_shape b1 b3.
Proof.
  unfold same_shape. intros (? & ? & ? & ? & ?) (? & ? & ? & ? & ?).
  repeat split; congruence.
Qed.

Lemma extract_frame_shape (s0 s : world * GotetraBuffer) :
  extract_frame s0 s -> same_shape (snd s0) (snd s).
Proof.
  intros (? & ? & Hsh & ? & ? & ? & ?). repeat split; try done. by rewrite Hsh.
Qed.

Lemma Read_keeps_shape (fname : string) (s : world * GotetraBuffer) :
  same_shape (snd s) (snd (snd (Read c fname s))).
Proof.
  destruct s as [w b]. destruct (open b) eqn:Hop.
  - rewrite Read_open by done. apply same_shape_refl.
  - rewrite Read_closed by done.
    destruct (readSheetPositionsAt c fname (sheet b) w) as [[[xs [e|]]|p] w1] eqn:E;
      cbn [snd]; try (by repeat split).
    + apply readSheetPositionsAt_length in E. by repeat split.
    + apply readSheetPositionsAt_length in E.
      pose proof (extract_keeps_frame (w1, with_sheet xs (with_open true b))) as Hfr.
      apply extract_frame_shape in Hfr.
      assert (Hs : same_shape b (with_sheet xs (with_open true b))) by (by repeat split).
      destruct (extract _) as [[[]|p] s3]; cbn [snd] in *;
        eapply same_shape_trans; eauto.
Qed.

Lemma Close_cases (s : world * GotetraBuffer) :
  Close s = if open (snd s) then (Returns tt, (fst s, with_open false (snd s)))
            else (Panics (PanicString "Buffer already closed."), s).
Proof. unfold Close, bind, get_buf. cbn [snd]. by destruct (open (snd s)). Qed.

Lemma Close_keeps_arrays (s : world * GotetraBuffer) :
  let s' := snd (Close s) in
  fst s' = fst s /\ sheet (snd s') = sheet (snd s) /\ out (snd s') = out (snd s) /\
  same_shape (snd s) (snd s').
Proof.
  rewrite Close_cases. destruct (open (snd s)); cbn; by repeat split.
Qed.

Lemma run_calls_keeps_shape (calls : list method) (s : world * GotetraBuffer) :
  same_shape (snd s) (snd (run_calls c calls s)).
Proof.
  revert s. induction calls as [|[fname|] rest IH]; intros s; cbn [run_calls].
  - apply same_shape_refl.
  - pose proof (Read_keeps_shape fname s) as H.
    destruct (Read c fname s) as [[r|p] s']; cbn [snd] in H; [|done].
    eapply same_shape_trans; [exact H|apply IH].
  - destruct (Close_keeps_arrays s) as (_ & _ & _ & H).
    destruct (Close s) as [[r|p] s']; cbn [snd] in H; [|done].
    eapply same_shape_trans; [exact H|apply IH].
Qed.

(** C10. A call of [Read], however it ends, leaves [sw], [gw], [hd] and the
    lengths of [sheet] and [out] as they were; a call of [Close] moreover
    leaves the operating system and the contents of both arrays alone. The
    same holds after any sequence of such calls, so the index expressions of
    the extraction loop are the same in every cycle. *)
Theorem methods_keep_shape (fname : string) (calls : list method)
    (s : world * GotetraBuffer) :
  same_shape (snd s) (snd (snd (Read c fname s))) /\
  (fst (snd (Close s)) = fst s /\
   sheet (snd (snd (Close s))) = sheet (snd s) /\
   out (snd (snd (Close s))) = out (snd s) /\
   same_shape (snd s) (snd (snd (Close s)))) /\
  same_shape (snd s) (snd (run_calls c calls s)) /\
  (forall x y z,
     cell_index (sw (snd (run_calls c calls s))) x y z = cell_index (sw (snd s)) x y z /\
     cell_index (gw (snd (run_calls c calls s))) x y z = cell_index (gw (snd s)) x y z).
Proof.
  split; [apply Read_keeps_shape|]. split; [apply Close_keeps_arrays|].
  pose proof (run_calls_keeps_shape calls s) as H.
  split; [exact H|]. destruct H as (Hsw & Hgw & _).
  intros x y z. by rewrite Hsw, Hgw.
Qed.

End Methods.

(** ** The extracted sub-cube *)

(** Below [2 ^ 63] the index expression is the plain polynomial. *)
Lemma cell_index_exact (w x y z : Z) :
  0 <= x < w -> 0 <= y < w -> 0 <= z < w -> w * w * w <= 2 ^ 63 ->
  cell_index w x y z = x + y * w + z * w * w.
Proof.
  intros Hx Hy Hz Hw. rewrite cell_index_int.
  pose proof (cell_below_cube w x y z Hx Hy Hz). apply int_id. lia.
Qed.

Lemma cell_index_exact_wider (w g x y z : Z) :
  0 <= x < w -> 0 <= y < w -> 0 <= z < w -> w <= g -> g * g * g <= 2 ^ 63 ->
  cell_index g x y z = x + y * g + z * g * g /\ 0 <= x + y * g + z * g * g < g * g * g.
Proof.
  intros Hx Hy Hz Hwg Hg.
  assert (H : 0 <= x + y * g + z * g * g < g * g * g)
    by (apply cell_below_cube; lia).
  split; [|exact H]. rewrite cell_index_int. apply int_id. lia.
Qed.

Lemma cube_int64 (g : Z) :
  0 < g -> g * g * g < 2 ^ 63 -> int64 (int64 (g * g) * g) = g * g * g.
Proof.
  intros Hg Hc. assert (g * g <= g * g * g) by nia.
  rewrite (int64_id (g * g)) by nia. apply int64_id. nia.
Qed.

Lemma cube_mono (w g : Z) : 0 < w <= g -> w * w * w <= g * g * g.
Proof.
  intros H. assert (w * w <= g * g) by nia.
  assert (w * w * w <= g * g * w) by nia. nia.
Qed.

(** A buffer sized by [NewGotetraBuffer] whose grid cube fits an [int64]
    keeps every index of the loop inside its array. *)
Lemma sized_in_bounds (b : GotetraBuffer) :
  sized b -> sw b <= gw b -> gw b * gw b * gw b < 2 ^ 63 -> in_bounds b.
Proof.
  intros [Hsh Hout] Hle Hcube x y z Hx Hy Hz.
  assert (Hw : 0 < sw b <= gw b) by lia.
  pose proof (cube_mono _ _ Hw) as Hmono.
  rewrite Hsh, Hout, !cube_int64 by lia.
  destruct (cell_index_exact_wider (sw b) (gw b) x y z) as [-> ?]; [lia..|].
  rewrite (cell_index_exact (sw b)) by lia.
  pose proof (cell_below_cube (sw b) x y z Hx Hy Hz). lia.
Qed.

Lemma in_bounds_shape (b b' : GotetraBuffer) :
  same_shape b b' -> in_bounds b -> in_bounds b'.
Proof.
  intros (Hsw & Hgw & _ & Hsh & Hout) Hb x y z.
  rewrite Hsw, Hgw, Hsh, Hout. apply Hb.
Qed.

Lemma int_int64 (z : Z) : int (int64 z) = int64 z.
Proof. apply int_id. apply (wrap_range 64). lia. Qed.

(** The widths of a decoded header are [int64] values. *)
Lemma readSheetHeaderAt_widths (c : nat) (file : string) (hd0 h : GotetraHeader)
    (f : File) (o : ByteOrder) (w w' : world) :
  readSheetHeaderAt c file hd0 w = (Returns (h, (f, o, None)), w') ->
  int (GridWidth (Raw h)) = GridWidth (Raw h) /\
  int (SegmentWidth (Raw h)) = SegmentWidth (Raw h).
Proof.
  unfold readSheetHeaderAt, bind.
  destruct (os_OpenFile _ _) as [[[f1 e1]|p] w1]; [|discriminate].
  destruct e1 as [e1|]; [discriminate|].
  destruct (readInt32 _ _ _) as [[flag|p] w2]; [|discriminate].
  destruct (call _ _) as [[order|p] w3]; [|discriminate].
  destruct (readInt32 _ _ _) as [[hs|p] w4]; [|discriminate].
  destruct (negb _); [discriminate|].
  destruct (Seek _ _ _) as [[[pos e2]|p] w5]; [|discriminate].
  destruct e2 as [e2|]; [discriminate|].
  unfold binary_Read_RawGotetraHeader, bind.
  destruct (ReadFull _ _ _) as [[[bs e3]|p] w6]; [|discriminate].
  destruct e3 as [e3|]; [discriminate|].
  unfold ret. intros [= <- _ _ _].
  cbn. split; apply int_int64.
Qed.

(** What [NewGotetraBuffer] returns is closed and sized from its widths. *)
Lemma NewGotetraBuffer_sized (c : nat) (fname : string) (w w' : world)
    (b : GotetraBuffer) (e : option error) :
  NewGotetraBuffer c fname w = (Returns (Some b, e), w') ->
  e = None /\ open b = false /\ sized b.
Proof.
  unfold NewGotetraBuffer, ReadSheetHeaderAt, bind.
  destruct (readSheetHeaderAt _ _ _ _) as [[[h [[f o] e1]]|p] w1] eqn:Ehd;
    [|discriminate].
  destruct e1 as [e1|]; [discriminate|].
  apply readSheetHeaderAt_widths in Ehd as [Hg Hs].
  destruct (File_Close _ _) as [[e2|p] w2]; [|discriminate].
  destruct e2 as [e2|]; [discriminate|]. unfold ret at 1.
  unfold make_vecs.
  destruct (make_refused (int64 (int64 (GridWidth (Raw h) * GridWidth (Raw h)) *
                                   GridWidth (Raw h)))); [discriminate|].
  unfold ret at 1.
  destruct (make_refused (int64 (int64 (SegmentWidth (Raw h) * SegmentWidth (Raw h)) *
                                   SegmentWidth (Raw h)))); [discriminate|].
  unfold ret. intros [= <- <- <-]. split; [done|]. split; [done|].
  unfold sized. cbn [sheet out sw gw]. rewrite !length_replicate, Hg, Hs. done.
Qed.

(** C3 (as amended). After a successful [Read], every cell [(x, y, z)] of
    the segment cube holds in [out], at index [x + y*sw + z*sw^2], the vector
    of [sheet] at the index the loop computes from [gw] in wrapping [int]
    arithmetic; under the preconditions [sw <= gw] and [gw^3 < 2 ^ 63] that
    index is [x + y*gw + z*gw^2]. On the sample
    sheet of side 4 whose [i]-th vector is [(i, 0, 0)], a buffer with segment
    width 2 receives [(0,0,0)], [(1,0,0)], [(4,0,0)], [(5,0,0)] in its first
    four cells (and 16, 17, 20, 21 in the others). *)
Theorem Read_extracts_corner_subcube :
  (forall (c : nat) (fname : string) (w w' : world) (b b' : GotetraBuffer)
          (o : list vec3),
     Read c fname (w, b) = (Returns (Some o, None), (w', b')) ->
     o = out b' /\ sw b' = sw b /\ gw b' = gw b /\
     forall x y z, 0 <= x < sw b -> 0 <= y < sw b -> 0 <= z < sw b ->
       cell_index (sw b) x y z = x + y * sw b + z * sw b * sw b /\
       (sw b <= gw b -> gw b * gw b * gw b < 2 ^ 63 ->
        cell_index (gw b) x y z = x + y * gw b + z * gw b * gw b) /\
       0 <= cell_index (gw b) x y z /\
       exists v, sheet b' !! Z.to_nat (cell_index (gw b) x y z) = Some v /\
                 o !! Z.to_nat (x + y * sw b + z * sw b * sw b) = Some v) /\
  (let b := Sample.fresh_buffer 2 4 in
   let r := Read Sample.cosmo "le.dat" (Sample.boot, b) in
   let v i := (Sample.fl i, S754_zero false, S754_zero false) in
   fst (NewGotetraBuffer Sample.cosmo "le.dat" Sample.boot) = Returns (Some b, None) /\
   sheet (snd (snd r)) = Sample.ramp 64 /\
   fst r = Returns (Some [v 0; v 1; v 4; v 5; v 16; v 17; v 20; v 21], None)).
Proof.
  split; [|repeat split; vm_compute; reflexivity].
  intros c fname w w' b b' o Hrun.
  destruct (open b) eqn:Hop; [rewrite Read_open in Hrun by done; discriminate|].
  rewrite Read_closed in Hrun by done.
  destruct (readSheetPositionsAt c fname (sheet b) w) as [[[xs [e|]]|p] w1];
    try discriminate.
  destruct (extract _) as [[[]|p] s3] eqn:Eex; [|discriminate].
  injection Hrun as <- ->.
  pose proof (extract_keeps_frame (w1, with_sheet xs (with_open true b))) as Hfr.
  rewrite Eex in Hfr. destruct Hfr as (_ & _ & Hsh & Hsw & Hgw & _ & _).
  cbn [snd fst with_sheet with_open sheet sw gw] in Hsh, Hsw, Hgw.
  split; [done|]. split; [done|]. split; [done|].
  intros x y z Hx Hy Hz.
  assert (Hw : 0 < sw b) by lia.
  apply extract_success in Eex; [|cbn; lia].
  destruct Eex as (_ & Hk & Hdone).
  cbn [snd fst with_sheet with_open sheet sw gw] in Hk, Hdone.
  pose proof (cell_below_cube (sw b) x y z Hx Hy Hz) as Hcell.
  destruct (Hdone x y z Hx Hy Hz ltac:(lia)) as [Hg0 (v & Hv1 & Hv2)].
  split; [apply cell_index_exact; done|].
  split; [intros Hle Hc; apply (cell_index_exact_wider (sw b)); lia|].
  split; [done|]. exists v. by rewrite Hsh.
Qed.

Lemma sized_shape (b b' : GotetraBuffer) :
  same_shape b b' -> sized b -> sized b'.
Proof.
  intros (Hsw & Hgw & _ & Hsh & Hout) [H1 H2]. unfold sized.
  by rewrite Hsw, Hgw, Hsh, Hout.
Qed.

(** C4 (as amended). Let [b] be a buffer that [NewGotetraBuffer] returned, at
    any later time (its shape is kept by every method), with [sw <= gw] and
    with a grid cube [gw^3] below [2 ^ 63], so that the [int64] product did
    not wrap and [sheet] really has [gw^3] elements. Then for all
    [0 <= x, y, z < sw] the source index is [x + y*gw + z*gw^2], below
    [gw^3 = len(sheet)], and the destination index is [x + y*sw + z*sw^2],
    below [sw^3 = len(out)]; the extraction loop returns without a panic,
    and so does every [Read] whose payload read returns without an error. *)
Theorem extraction_in_bounds (c : nat) (fname0 : string) (w0 w1 : world)
    (b0 b : GotetraBuffer) (e0 : option error) :
  NewGotetraBuffer c fname0 w0 = (Returns (Some b0, e0), w1) ->
  same_shape b0 b ->
  sw b <= gw b -> gw b * gw b * gw b < 2 ^ 63 ->
  (forall x y z, 0 <= x < sw b -> 0 <= y < sw b -> 0 <= z < sw b ->
     cell_index (gw b) x y z = x + y * gw b + z * gw b * gw b /\
     0 <= x + y * gw b + z * gw b * gw b < gw b * gw b * gw b /\
     Z.of_nat (length (sheet b)) = gw b * gw b * gw b /\
     cell_index (sw b) x y z = x + y * sw b + z * sw b * sw b /\
     0 <= x + y * sw b + z * sw b * sw b < sw b * sw b * sw b /\
     Z.of_nat (length (out b)) = sw b * sw b * sw b) /\
  (forall w, exists s', extract (w, b) = (Returns tt, s')) /\
  (forall fname w xs w',
     open b = false ->
     readSheetPositionsAt c fname (sheet b) w = (Returns (xs, None), w') ->
     exists o s', Read c fname (w, b) = (Returns (Some o, None), s')).
Proof.
  intros Hnew Hshape Hle Hcube.
  apply NewGotetraBuffer_sized in Hnew as (_ & _ & Hsz0).
  pose proof (sized_shape b0 b Hshape Hsz0) as Hsz.
  pose proof (sized_in_bounds b Hsz Hle Hcube) as Hb.
  split; [|split].
  - intros x y z Hx Hy Hz. destruct Hsz as [Hsh Hout].
    assert (Hw : 0 < sw b <= gw b) by lia.
    pose proof (cube_mono _ _ Hw) as Hmono.
    rewrite Hsh, Hout, !cube_int64, !Z2Nat.id by nia.
    destruct (cell_index_exact_wider (sw b) (gw b) x y z) as [-> ?]; [lia..|].
    rewrite (cell_index_exact (sw b)) by lia.
    pose proof (cell_below_cube (sw b) x y z Hx Hy Hz). done.
  - intros w. destruct (extract_total (w, b) Hb) as (s' & E & _). eauto.
  - intros fname w xs w' Hcl Hread. rewrite Read_closed by done. rewrite Hread.
    apply readSheetPositionsAt_length in Hread.
    destruct (extract_total (w', with_sheet xs (with_open true b))) as (s' & -> & _).
    + apply (in_bounds_shape b); [by repeat split|done].
    + eauto.
Qed.

(** The bounds theorem on the buffer that [NewGotetraBuffer] returns for the
    sample sheet of grid width 4 and segment width 2. *)
Lemma extraction_in_bounds_witness :
  let b := Sample.fresh_buffer 2 4 in
  (forall x y z, 0 <= x < sw b -> 0 <= y < sw b -> 0 <= z < sw b ->
     cell_index (gw b) x y z = x + y * gw b + z * gw b * gw b /\
     0 <= x + y * gw b + z * gw b * gw b < gw b * gw b * gw b /\
     Z.of_nat (length (sheet b)) = gw b * gw b * gw b /\
     cell_index (sw b) x y z = x + y * sw b + z * sw b * sw b /\
     0 <= x + y * sw b + z * sw b * sw b < sw b * sw b * sw b /\
     Z.of_nat (length (out b)) = sw b * sw b * sw b) /\
  (forall w, exists s', extract (w, b) = (Returns tt, s')) /\
  (forall fname w xs w',
     open b = false ->
     readSheetPositionsAt Sample.cosmo fname (sheet b) w = (Returns (xs, None), w') ->
     exists o s', Read Sample.cosmo fname (w, b) = (Returns (Some o, None), s')).
Proof.
  apply (extraction_in_bounds Sample.cosmo "le.dat" Sample.boot
           (snd (NewGotetraBuffer Sample.cosmo "le.dat" Sample.boot))
           (Sample.fresh_buffer 2 4) (Sample.fresh_buffer 2 4) None).
  - vm_compute. reflexivity.
  - by repeat split.
  - vm_compute. discriminate.
  - vm_compute. reflexivity.
Defined.

(** C4, counterexample: the header of "huge.dat" declares segment width 1
    and grid width [2 ^ 22]. [NewGotetraBuffer] computes the length of
    [sheet] as [int64(2 ^ 66) = 0], and the first step of the loop reads
    [sheet[0]] out of bounds although [sw <= gw]. *)
Lemma huge_grid_reads_out_of_bounds :
  exists b,
    fst (NewGotetraBuffer Sample.cosmo "huge.dat" Sample.boot) = Returns (Some b, None) /\
    sw b = 1 /\ gw b = 2 ^ 22 /\ (sw b <=? gw b) = true /\
    length (sheet b) = 0%nat /\ length (out b) = 1%nat /\
    cell_index (gw b) 0 0 0 = 0 /\
    fst (Read Sample.cosmo "huge.dat" (Sample.boot, b)) = Panics (IndexOutOfRange 0 0).
Proof.
  eexists. split; [vm_compute; reflexivity|]. repeat split; vm_compute; reflexivity.
Qed.

(** ** The decoder depends on the file alone *)

Lemma agree_bind {A B} (V : world -> world -> A -> A -> Prop)
    (V2 : world -> world -> B -> B -> Prop)
    (m m' : Go world A) (k k' : A -> Go world B) (w w' : world) :
  agree V (m w) (m' w') ->
  (forall a a' w1 w1', V w1 w1' a a' -> agree V2 (k a w1) (k' a' w1')) ->
  agree V2 (bind m k w) (bind m' k' w').
Proof.
  unfold agree at 1, bind. intros Hm Hk.
  destruct (m w) as [[a|p] w1], (m' w') as [[a'|p'] w1']; try done.
  by apply Hk.
Qed.

Lemma os_OpenFile_agree (name : string) (w w' : world) :
  files w !! name = files w' !! name ->
  agree (fun w1 w1' r r' => snd r = snd r' /\ same_file w1 w1' (fst r) (fst r'))
    (os_OpenFile name w) (os_OpenFile name w').
Proof.
  intros Hf. unfold os_OpenFile. rewrite Hf.
  destruct (files w' !! name); cbn; [|done].
  split; [done|]. by rewrite !lookup_insert_eq.
Qed.

Lemma ReadFull_agree (f f' : File) (n : nat) (w w' : world) :
  same_file w w' f f' ->
  agree (fun w1 w1' r r' => r = r' /\ same_file w1 w1' f f')
    (ReadFull f n w) (ReadFull f' n w').
Proof.
  destruct f as [fd|], f' as [fd'|]; cbn; try done.
  intros E. rewrite E. destruct (fdtab w' !! fd') eqn:E'; cbn.
  - split; [done|]. by rewrite !lookup_insert_eq.
  - split; [done|]. congruence.
Qed.

Lemma Seek_agree (f f' : File) (offset : Z) (w w' : world) :
  same_file w w' f f' ->
  agree (fun w1 w1' r r' => r = r' /\ same_file w1 w1' f f')
    (Seek f offset w) (Seek f' offset w').
Proof.
  destruct f as [fd|], f' as [fd'|]; cbn; try done.
  intros E. rewrite E. destruct (fdtab w' !! fd') eqn:E'; cbn;
    [|split; [done|congruence]].
  destruct (seekable (d_file d) && (0 <=? offset)); cbn.
  - split; [done|]. by rewrite !lookup_insert_eq.
  - split; [done|]. congruence.
Qed.

Lemma File_Close_agree (f f' : File) (w w' : world) :
  same_file w w' f f' ->
  agree (fun _ _ r r' => r = r') (File_Close f w) (File_Close f' w').
Proof.
  destruct f as [fd|], f' as [fd'|]; cbn; try done.
  intros ->. by destruct (fdtab w' !! fd').
Qed.

Lemma readInt32_agree (f f' : File) (order : ByteOrder) (w w' : world) :
  same_file w w' f f' ->
  agree (fun w1 w1' r r' => r = r' /\ same_file w1 w1' f f')
    (readInt32 f order w) (readInt32 f' order w').
Proof.
  intros Hf. unfold readInt32.
  eapply agree_bind; [apply ReadFull_agree, Hf|].
  intros [bs e] [bs' e'] w1 w1' [[= <- <-] Hf1].
  destruct e; cbn; done.
Qed.

Section Independence.
Variable c : nat.

Lemma binary_Read_RawGotetraHeader_agree (f f' : File) (order : ByteOrder)
    (h : GotetraHeader) (w w' : world) :
  same_file w w' f f' ->
  agree (fun w1 w1' r r' => r = r' /\ same_file w1 w1' f f')
    (binary_Read_RawGotetraHeader c f order h w)
    (binary_Read_RawGotetraHeader c f' order h w').
Proof.
  intros Hf. unfold binary_Read_RawGotetraHeader.
  eapply agree_bind; [apply ReadFull_agree, Hf|].
  intros [bs e] [bs' e'] w1 w1' [[= <- <-] Hf1].
  destruct e; cbn; done.
Qed.

Lemma readVecAsByte_agree (f f' : File) (order : ByteOrder) (xs xs' : list vec3)
    (w w' : world) :
  same_file w w' f f' -> length xs = length xs' ->
  agree (fun w1 w1' r r' =>
           snd r = snd r' /\ same_file w1 w1' f f' /\
           ((fst r = xs /\ fst r' = xs' /\ snd r <> None) \/
            (fst r = fst r' /\ snd r = None)))
    (readVecAsByte f order xs w) (readVecAsByte f' order xs' w').
Proof.
  intros Hf Hlen. unfold readVecAsByte. rewrite Hlen.
  eapply agree_bind; [apply ReadFull_agree, Hf|].
  intros [bs e] [bs' e'] w1 w1' [[= <- <-] Hf1].
  destruct e; cbn; (split; [done|]); (split; [done|]); [left|right]; done.
Qed.

(** The header decoder returns the same header, byte order and error, and
    the same file at the same offset, whatever the descriptor number. *)
Lemma readSheetHeaderAt_agree (file : string) (h : GotetraHeader) (w w' : world) :
  files w !! file = files w' !! file ->
  agree (fun w1 w1' r r' =>
           fst r = fst r' /\ snd (fst (snd r)) = snd (fst (snd r')) /\
           snd (snd r) = snd (snd r') /\
           same_file w1 w1' (fst (fst (snd r))) (fst (fst (snd r'))))
    (readSheetHeaderAt c file h w) (readSheetHeaderAt c file h w').
Proof.
  intros Hfile. unfold readSheetHeaderAt.
  eapply agree_bind; [apply os_OpenFile_agree, Hfile|].
  intros [f e] [f' e'] w1 w1' [E Hf]. cbn [fst snd] in E, Hf. subst e'.
  destruct e; [by cbn|].
  eapply agree_bind; [apply readInt32_agree, Hf|].
  intros flag ? w2 w2' [<- Hf2].
  eapply agree_bind.
  { instantiate (1 := fun w1 w1' r r' => r = r' /\ same_file w1 w1' f f').
    unfold call. destruct (endianness flag); cbn; done. }
  intros order ? w3 w3' [<- Hf3].
  eapply agree_bind; [apply readInt32_agree, Hf3|].
  intros hs ? w4 w4' [<- Hf4].
  destruct (negb _); [by cbn|].
  eapply agree_bind; [apply Seek_agree, Hf4|].
  intros [pos e] [pos' e'] w5 w5' [[= <- <-] Hf5].
  destruct e; [by cbn|].
  eapply agree_bind; [apply binary_Read_RawGotetraHeader_agree, Hf5|].
  intros [h1 e] [h1' e'] w6 w6' [[= <- <-] Hf6].
  destruct e; by cbn.
Qed.

(** The payload reader returns the same error, and either fills both target
    arrays with the same vectors or leaves both as they were. *)
Lemma readSheetPositionsAt_agree (file : string) (xs xs' : list vec3) (w w' : world) :
  files w !! file = files w' !! file ->
  length xs = length xs' ->
  agree (fun _ _ r r' =>
           snd r = snd r' /\ ((fst r = xs /\ fst r' = xs') \/ fst r = fst r'))
    (readSheetPositionsAt c file xs w) (readSheetPositionsAt c file xs' w').
Proof.
  intros Hfile Hlen. unfold readSheetPositionsAt.
  eapply agree_bind; [apply readSheetHeaderAt_agree, Hfile|].
  intros [h [[f o] e]] [h' [[f' o'] e']] w1 w1' (E1 & E2 & E3 & Hf).
  cbn [fst snd] in E1, E2, E3, Hf. subst h' o' e'.
  destruct e; [cbn; auto|].
  rewrite Hlen. destruct (negb _); [cbn; auto|].
  eapply agree_bind; [apply Seek_agree, Hf|].
  intros r r' w2 w2' [_ Hf2].
  eapply agree_bind; [apply (readVecAsByte_agree _ _ _ xs xs'); done|].
  intros [ys e] [ys' e'] w3 w3' (E & Hf3 & Hys). cbn [fst snd] in E, Hys. subst e'.
  destruct e as [e|]; [cbn; destruct Hys as [(-> & -> & _)|[_ ?]]; [auto|done]|].
  destruct Hys as [(_ & _ & ?)|[-> _]]; [done|].
  eapply agree_bind; [apply File_Close_agree, Hf3|].
  intros e ? w4 w4' <-. destruct e; cbn; auto.
Qed.

End Independence.

(** ** The file system is only read *)

Lemma keeps_files_bind {A B} (m : Go world A) (k : A -> Go world B) :
  keeps_files m -> (forall a, keeps_files (k a)) -> keeps_files (bind m k).
Proof.
  intros Hm Hk w. unfold bind. specialize (Hm w).
  destruct (m w) as [[a|p] w1]; cbn [snd] in *; [|done].
  by rewrite Hk.
Qed.

Lemma keeps_files_ret {A} (a : A) : keeps_files (ret a).
Proof. done. Qed.

Lemma keeps_files_panic {A} (p : panic_value) : keeps_files (@panic world A p).
Proof. done. Qed.

Lemma keeps_files_call {A} (o : outcome A) : keeps_files (call o).
Proof. done. Qed.

Lemma keeps_files_os_OpenFile (name : string) : keeps_files (os_OpenFile name).
Proof. intros w. unfold os_OpenFile. by destruct (files w !! name). Qed.

Lemma keeps_files_ReadFull (f : File) (n : nat) : keeps_files (ReadFull f n).
Proof. intros w. unfold ReadFull. destruct f; [|done]. by destruct (fdtab w !! _). Qed.

Lemma keeps_files_Seek (f : File) (offset : Z) : keeps_files (Seek f offset).
Proof.
  intros w. unfold Seek. destruct f; [|done].
  destruct (fdtab w !! _); [|done]. by destruct (_ && _).
Qed.

Lemma keeps_files_File_Close (f : File) : keeps_files (File_Close f).
Proof. intros w. unfold File_Close. destruct f; [|done]. by destruct (fdtab w !! _). Qed.

(** Splits a computation along its binds and branches. *)
Ltac keeps_files_tac :=
  repeat first
    [ apply keeps_files_ret | apply keeps_files_panic | apply keeps_files_call
    | apply keeps_files_os_OpenFile | apply keeps_files_ReadFull
    | apply keeps_files_Seek | apply keeps_files_File_Close
    | apply keeps_files_bind
    | match goal with
      | |- forall _, keeps_files _ => intro
      | |- keeps_files (match ?x with _ => _ end) => destruct x
      end
    | progress cbn beta iota ].

Lemma keeps_files_readInt32 (f : File) (order : ByteOrder) :
  keeps_files (readInt32 f order).
Proof. unfold readInt32. keeps_files_tac. Qed.

Lemma keeps_files_readSheetHeaderAt (c : nat) (file : string) (h : GotetraHeader) :
  keeps_files (readSheetHeaderAt c file h).
Proof.
  unfold readSheetHeaderAt, binary_Read_RawGotetraHeader.
  repeat first [ apply keeps_files_readInt32 | progress keeps_files_tac ].
Qed.

Lemma keeps_files_readSheetPositionsAt (c : nat) (file : string) (xs : list vec3) :
  keeps_files (readSheetPositionsAt c file xs).
Proof.
  unfold readSheetPositionsAt, readVecAsByte.
  repeat first [ apply keeps_files_readSheetHeaderAt | progress keeps_files_tac ].
Qed.

(** ** The life cycle of the buffer *)

(** A returned extraction shows that every index was in bounds. *)
Lemma extract_success_in_bounds (s0 s' : world * GotetraBuffer) :
  extract s0 = (Returns tt, s') -> in_bounds (snd s0).
Proof.
  intros Hrun x y z Hx Hy Hz.
  assert (Hw : 0 < sw (snd s0)) by lia.
  apply extract_success in Hrun; [|done].
  destruct Hrun as ((_ & _ & _ & _ & _ & _ & Hlen) & Hk & Hdone).
  pose proof (cell_below_cube _ x y z Hx Hy Hz) as Hcell.
  destruct (Hdone x y z Hx Hy Hz ltac:(lia)) as [Hg0 (v & Hv1 & Hv2)].
  apply lookup_lt_Some in Hv1, Hv2. cbn zeta in Hk.
  rewrite (cell_index_exact (sw (snd s0)) x y z Hx Hy Hz Hk). lia.
Qed.

Section Lifecycle.
Variable c : nat.

(** C9. The buffer is a two-state automaton. [Read] on an open buffer and
    [Close] on a closed buffer panic and change nothing; a successful [Read]
    starts from a closed buffer and leaves it open; [Close] on an open buffer
    closes it. After a successful [Read], [Close] followed by a [Read] of
    the same file succeeds again, on the same arrays: their lengths are
    unchanged and [sheet] holds the same vectors. *)
Theorem buffer_lifecycle (fname : string) (w : world) (b : GotetraBuffer) :
  (open b = true ->
   Read c fname (w, b) = (Panics (PanicString "Buffer already open."), (w, b))) /\
  (open b = false ->
   Close (w, b) = (Panics (PanicString "Buffer already closed."), (w, b))) /\
  (open b = true ->
   Close (w, b) = (Returns tt, (w, with_open false b)) /\
   IsOpen (with_open false b) = false) /\
  (forall o w1 b1,
     Read c fname (w, b) = (Returns (Some o, None), (w1, b1)) ->
     IsOpen b = false /\ IsOpen b1 = true /\
     exists b2 o3 w3 b3,
       Close (w1, b1) = (Returns tt, (w1, b2)) /\ IsOpen b2 = false /\
       Read c fname (w1, b2) = (Returns (Some o3, None), (w3, b3)) /\
       IsOpen b3 = true /\ sheet b3 = sheet b1 /\
       length o3 = length o /\ length (out b3) = length (out b) /\
       length (sheet b3) = length (sheet b)).
Proof.
  split; [intros Hop; by apply Read_open|].
  split; [intros Hcl; rewrite Close_cases; cbn [snd]; by rewrite Hcl|].
  split; [intros Hop; rewrite Close_cases; cbn [snd fst]; by rewrite Hop|].
  intros o w1 b1 Hrun. unfold IsOpen.
  destruct (open b) eqn:Hop; [rewrite Read_open in Hrun by done; discriminate|].
  rewrite Read_closed in Hrun by done.
  destruct (readSheetPositionsAt c fname (sheet b) w) as [[[xs [e|]]|p] w1'] eqn:Eread;
    try discriminate.
  destruct (extract _) as [[[]|p] s3] eqn:Eex; [|discriminate].
  injection Hrun as <- ->.
  pose proof (extract_keeps_frame (w1', with_sheet xs (with_open true b))) as Hfr.
  rewrite Eex in Hfr. cbn [snd] in Hfr.
  destruct Hfr as (Hw1 & Hopen1 & Hsh1 & Hsw1 & Hgw1 & Hhd1 & Hlen1).
  cbn [fst snd with_sheet with_open open sheet out sw gw hd] in *.
  pose proof (readSheetPositionsAt_length c _ _ _ _ _ _ Eread) as Hxs.
  pose proof (keeps_files_readSheetPositionsAt c fname (sheet b) w) as Hfiles.
  rewrite Eread in Hfiles. cbn [snd] in Hfiles.
  split; [done|]. split; [done|].
  exists (with_open false b1).
  (* the second payload read agrees with the first *)
  pose proof (readSheetPositionsAt_agree c fname (sheet b) (sheet b1) w w1) as Hag.
  rewrite Eread in Hag.
  lapply Hag; [clear Hag; intros Hag|by rewrite Hw1, Hfiles].
  lapply Hag; [clear Hag; intros Hag|by rewrite Hsh1].
  destruct (readSheetPositionsAt c fname (sheet b1) w1) as [[[ys e']|p] w3'] eqn:Eread2;
    [|done].
  cbn [agree fst snd] in Hag. destruct Hag as [<- Hys].
  assert (Eys : ys = xs) by (destruct Hys as [[_ ->]| <-]; done). subst ys.
  (* the second extraction has the same bounds as the first *)
  pose proof (extract_success_in_bounds _ _ Eex) as Hb. cbn [snd] in Hb.
  destruct (extract_total (w3', with_sheet xs (with_open true (with_open false b1))))
    as (s4 & Eex2 & Hfr2).
  { cbn [snd]. revert Hb. apply in_bounds_shape. repeat split; cbn; congruence. }
  destruct Hfr2 as (Hw4 & Hopen4 & Hsh4 & Hsw4 & Hgw4 & Hhd4 & Hlen4).
  cbn [fst snd with_sheet with_open open sheet out sw gw hd] in *.
  exists (out (snd s4)), (fst s4), (snd s4).
  split; [rewrite Close_cases; cbn [snd fst]; by rewrite Hopen1|].
  split; [done|].
  split.
  { rewrite Read_closed by done. cbn [sheet with_open]. rewrite Eread2, Eex2.
    by destruct s4. }
  repeat split; congruence.
Qed.

End Lifecycle.

(** A read, close, read cycle on the little-endian sample sheet. *)
Lemma buffer_lifecycle_witness :
  let b := Sample.fresh_buffer 2 4 in
  let r := Read Sample.cosmo "le.dat" (Sample.boot, b) in
  let o := out (snd (snd r)) in
  let w1 := fst (snd r) in
  let b1 := snd (snd r) in
  IsOpen b = false /\ IsOpen b1 = true /\
  exists b2 o3 w3 b3,
    Close (w1, b1) = (Returns tt, (w1, b2)) /\ IsOpen b2 = false /\
    Read Sample.cosmo "le.dat" (w1, b2) = (Returns (Some o3, None), (w3, b3)) /\
    IsOpen b3 = true /\ sheet b3 = sheet b1 /\
    length o3 = length o /\ length (out b3) = length (out b) /\
    length (sheet b3) = length (sheet b).
Proof.
  cbv zeta.
  apply (proj2 (proj2 (proj2
           (buffer_lifecycle Sample.cosmo "le.dat" Sample.boot
              (Sample.fresh_buffer 2 4))))).
  vm_compute. reflexivity.
Defined.

(** * Further properties *)

(** ** The header decoder, path by path *)

Lemma short_read_None (got n : nat) : short_read got n = None -> got = n.
Proof.
  unfold short_read. destruct (Nat.eqb_spec got n); [done|].
  by destruct (got =? 0)%nat.
Qed.

Lemma short_read_Some (got n : nat) (e : error) :
  short_read got n = Some e -> got <> n /\ (e = EOF \/ e = ErrUnexpectedEOF).
Proof.
  unfold short_read. destruct (Nat.eqb_spec got n); [done|].
  destruct (got =? 0)%nat; intros [= <-]; auto.
Qed.

Lemma length_take_drop {A} (l : list A) (n k : nat) :
  length (take n (drop k l)) = n <-> (n = 0 \/ k + n <= length l)%nat.
Proof. rewrite length_take, length_drop. lia. Qed.

Lemma Seek_Some (w : world) (fd : nat) (d : desc) (offset : Z) :
  fdtab w !! fd = Some d ->
  Seek (Some fd) offset w =
    if seekable (d_file d) && (0 <=? offset) then
      (Returns (offset, None),
       log (EvSeek fd offset)
         (set_fd fd {| d_file := d_file d; d_pos := Z.to_nat offset |} w))
    else (Returns (0, Some ErrSeek), log (EvSeek fd offset) w).
Proof. unfold Seek. intros ->. reflexivity. Qed.

Lemma File_Close_Some (w : world) (fd : nat) (d : desc) :
  fdtab w !! fd = Some d ->
  File_Close (Some fd) w =
    (Returns (if close_ok (d_file d) then None else Some ErrClose),
     log (EvClose fd) (free_fd fd w)).
Proof. unfold File_Close. intros ->. reflexivity. Qed.

Section Paths.
Variable c : nat.

Local Abbreviation H := (sizeofRawGotetraHeader c).

Lemma binary_Read_RawGotetraHeader_Some (w : world) (fd : nat) (d : desc)
    (order : ByteOrder) (h : GotetraHeader) :
  fdtab w !! fd = Some d ->
  binary_Read_RawGotetraHeader c (Some fd) order h w =
    (let got := take H (drop (d_pos d) (contents (d_file d))) in
     (Returns (match short_read (length got) H with
               | Some e => (h, Some e)
               | None => ({| Raw := decodeRaw c order got; N := N h; guard := guard h |},
                          None)
               end),
      log (EvRead fd (d_pos d) H)
        (set_fd fd {| d_file := d_file d; d_pos := (d_pos d + length got)%nat |} w))).
Proof.
  intros Hfd. unfold binary_Read_RawGotetraHeader.
  erewrite bind_Returns by (apply ReadFull_Some; eassumption).
  cbn zeta. destruct (short_read _ _); reflexivity.
Qed.

(** The decoder from the size field on, started behind the flag. *)
Lemma readSheetHeaderAt_size (w : world) (file : string) (nd : inode)
    (hdBuf : GotetraHeader) (order : ByteOrder) :
  files w !! file = Some nd ->
  (8 <= length (contents nd))%nat ->
  flag_order nd = Returns order ->
  let fd := nextfd w in
  let w2 := log (EvRead fd 4 4)
              (set_fd fd {| d_file := nd; d_pos := 8 |}
                 (log (EvRead fd 0 4)
                    (set_fd fd {| d_file := nd; d_pos := 4 |}
                       (log (EvOpen fd file)
                          (set_fd fd {| d_file := nd; d_pos := 0 |} (alloc_fd w)))))) in
  readSheetHeaderAt c file hdBuf w =
    if negb (declared_size order nd =? int32 (Z.of_nat H)) then
      (Returns (hdBuf, (None, LittleEndian,
                        Some (ErrHeaderSize (Z.of_nat H) (declared_size order nd)))), w2)
    else if negb (seekable nd) then
      (Returns (hdBuf, (None, LittleEndian, Some ErrSeek)), log (EvSeek fd 8) w2)
    else
      let got := header_bytes c nd in
      let w4 := log (EvRead fd 8 H)
                  (set_fd fd {| d_file := nd; d_pos := (8 + length got)%nat |}
                     (log (EvSeek fd 8)
                        (set_fd fd {| d_file := nd; d_pos := 8 |} w2))) in
      match short_read (length got) H with
      | Some e => (Returns (hdBuf, (None, LittleEndian, Some e)), w4)
      | None => (Returns (decoded_header c order nd hdBuf, (Some fd, order, None)), w4)
      end.
Proof.
  intros Hf Hlen Hord fd w2.
  pose proof (readSheetHeaderAt_flag c w file nd hdBuf Hf ltac:(lia)) as Hflag.
  cbn zeta in Hflag. unfold flag_order in Hord. rewrite Hord in Hflag.
  rewrite Hflag. clear Hflag.
  erewrite bind_Returns.
  2:{ erewrite readInt32_Some; [reflexivity | apply fdtab_log_set_fd | cbn; lia]. }
  cbn [d_pos d_file]. change (4 + 4)%nat with 8%nat. fold fd. fold w2.
  fold (declared_size order nd).
  destruct (negb (declared_size order nd =? _)); [reflexivity|].
  unfold bind at 1. erewrite Seek_Some by apply fdtab_log_set_fd.
  cbn [d_file]. destruct (seekable nd); cbn [andb negb]; [|reflexivity].
  change (0 <=? 4 + 4) with true. cbn iota beta.
  erewrite bind_Returns
    by (apply binary_Read_RawGotetraHeader_Some, fdtab_log_set_fd).
  cbn zeta. cbn [d_pos d_file]. change (Z.to_nat (4 + 4)) with 8%nat.
  fold (header_bytes c nd).
  destruct (short_read _ _); reflexivity.
Qed.

(** The world of the last case, written out. *)
Lemma after_header_eq (w : world) (file : string) (nd : inode) :
  let fd := nextfd w in
  log (EvRead fd 8 H)
    (set_fd fd {| d_file := nd; d_pos := (8 + H)%nat |}
       (log (EvSeek fd 8)
          (set_fd fd {| d_file := nd; d_pos := 8 |}
             (log (EvRead fd 4 4)
                (set_fd fd {| d_file := nd; d_pos := 8 |}
                   (log (EvRead fd 0 4)
                      (set_fd fd {| d_file := nd; d_pos := 4 |}
                         (log (EvOpen fd file)
                            (set_fd fd {| d_file := nd; d_pos := 0 |}
                               (alloc_fd w))))))))))
  = after_header c w file nd.
Proof.
  unfold after_header, log, set_fd, alloc_fd. cbn.
  rewrite !insert_insert_eq, <- !app_assoc. reflexivity.
Qed.

(** A well-formed file is decoded: the header is the one its bytes encode,
    the byte order the one its flag selects, and the file comes back open,
    positioned behind the header. *)
Lemma readSheetHeaderAt_well_formed (w : world) (file : string) (nd : inode)
    (hdBuf : GotetraHeader) (order : ByteOrder) :
  files w !! file = Some nd ->
  well_formed c nd order ->
  readSheetHeaderAt c file hdBuf w =
    (Returns (decoded_header c order nd hdBuf, (Some (nextfd w), order, None)),
     after_header c w file nd).
Proof.
  intros Hf (Hseek & Hlen & Hord & Hsize).
  rewrite (readSheetHeaderAt_size w file nd hdBuf order Hf ltac:(lia) Hord).
  cbn zeta. rewrite Hsize, Z.eqb_refl, Hseek. cbn [negb].
  assert (E : length (header_bytes c nd) = H).
  { unfold header_bytes. apply length_take_drop. lia. }
  rewrite E, short_read_full, after_header_eq. reflexivity.
Qed.

(** Conversely, a decode that returns no error has met a well-formed file. *)
Lemma readSheetHeaderAt_success (w w' : world) (file : string)
    (hdBuf h : GotetraHeader) (f : File) (order : ByteOrder) :
  readSheetHeaderAt c file hdBuf w = (Returns (h, (f, order, None)), w') ->
  exists nd, files w !! file = Some nd /\ well_formed c nd order.
Proof.
  intros Hrun.
  destruct (files w !! file) as [nd|] eqn:Hf.
  2:{ unfold readSheetHeaderAt in Hrun.
      erewrite bind_Returns in Hrun by (unfold os_OpenFile; rewrite Hf; reflexivity).
      discriminate. }
  exists nd. split; [done|].
  (* the flag *)
  assert (Hlen4 : (4 <= length (contents nd))%nat).
  { destruct (le_lt_dec 4 (length (contents nd))) as [|Hshort]; [done|exfalso].
    unfold readSheetHeaderAt in Hrun.
    erewrite bind_Returns in Hrun by (apply os_OpenFile_Some; eassumption).
    cbn iota beta in Hrun. unfold readInt32 in Hrun at 1.
    unfold bind at 1 in Hrun. unfold bind at 1 in Hrun.
    erewrite ReadFull_Some in Hrun by apply fdtab_log_set_fd.
    cbn zeta in Hrun. cbn [d_pos d_file] in Hrun.
    destruct (short_read _ 4) as [e|] eqn:Esr; [discriminate|].
    apply short_read_None, length_take_drop in Esr. lia. }
  pose proof (readSheetHeaderAt_order c _ _ _ _ _ _ _ _ Hf Hlen4 Hrun) as Hord.
  fold (flag_order nd) in Hord.
  (* the size field *)
  assert (Hlen8 : (8 <= length (contents nd))%nat).
  { destruct (le_lt_dec 8 (length (contents nd))) as [|Hshort]; [done|exfalso].
    pose proof (readSheetHeaderAt_flag c w file nd hdBuf Hf Hlen4) as Hflag.
    cbn zeta in Hflag. unfold flag_order in Hord. rewrite Hord in Hflag.
    rewrite Hflag in Hrun. unfold readInt32 in Hrun at 1.
    unfold bind at 1 in Hrun. unfold bind at 1 in Hrun.
    erewrite ReadFull_Some in Hrun by apply fdtab_log_set_fd.
    cbn zeta in Hrun. cbn [d_pos d_file] in Hrun.
    destruct (short_read _ 4) as [e|] eqn:Esr; [discriminate|].
    apply short_read_None, length_take_drop in Esr. lia. }
  rewrite (readSheetHeaderAt_size w file nd hdBuf order Hf Hlen8 Hord) in Hrun.
  cbn zeta in Hrun.
  destruct (Z.eqb_spec (declared_size order nd) (int32 (Z.of_nat H))) as [Hsize|];
    cbn [negb] in Hrun; [|discriminate].
  destruct (seekable nd) eqn:Hseek; cbn [negb] in Hrun; [|discriminate].
  destruct (short_read _ _) as [e|] eqn:Esr; [discriminate|].
  apply short_read_None in Esr. unfold header_bytes in Esr.
  apply length_take_drop in Esr.
  repeat split; try done. unfold sizeofRawGotetraHeader in *. lia.
Qed.

(** All that a successful decode determines. *)
Lemma readSheetHeaderAt_result (w w' : world) (file : string)
    (hdBuf h : GotetraHeader) (f : File) (order : ByteOrder) :
  readSheetHeaderAt c file hdBuf w = (Returns (h, (f, order, None)), w') ->
  exists nd,
    files w !! file = Some nd /\ well_formed c nd order /\
    h = decoded_header c order nd hdBuf /\ f = Some (nextfd w) /\
    w' = after_header c w file nd.
Proof.
  intros Hrun.
  destruct (readSheetHeaderAt_success _ _ _ _ _ _ _ Hrun) as (nd & Hf & Hwf).
  rewrite (readSheetHeaderAt_well_formed w file nd hdBuf order Hf Hwf) in Hrun.
  injection Hrun as <- <- <-. exists nd. done.
Qed.

End Paths.

(** ** What the header decoder returns *)

Section HeaderResults.
Variable c : nat.

Local Abbreviation H := (sizeofRawGotetraHeader c).

(** X1. The header decoder returns without an error exactly for the files
    that exist, can be repositioned, hold at least [8 + sizeof] bytes, start
    with the flag 0 or -1, and declare the size of [RawGotetraHeader] in the
    detected byte order. *)
Theorem header_decode_succeeds_iff (w : world) (file : string)
    (hdBuf : GotetraHeader) (order : ByteOrder) :
  (exists h f w', readSheetHeaderAt c file hdBuf w = (Returns (h, (f, order, None)), w'))
  <-> (exists nd, files w !! file = Some nd /\ well_formed c nd order).
Proof.
  split.
  - intros (h & f & w' & Hrun). eapply readSheetHeaderAt_success, Hrun.
  - intros (nd & Hf & Hwf). do 3 eexists.
    apply (readSheetHeaderAt_well_formed c w file nd hdBuf order Hf Hwf).
Qed.

(** X2. When the header decoder returns without an error, the header it
    stored is the one encoded by the bytes from offset 8 (with [Count] and
    [N] recomputed), the file it returns is the descriptor it just opened,
    still open and positioned at offset [8 + sizeof], right behind the
    header, and it issued exactly five system calls: open, two reads of 4
    bytes, a seek to 8, and one read of the whole header. *)
Theorem header_decode_postcondition (w w' : world) (file : string)
    (hdBuf h : GotetraHeader) (f : File) (order : ByteOrder) :
  readSheetHeaderAt c file hdBuf w = (Returns (h, (f, order, None)), w') ->
  exists nd,
    files w !! file = Some nd /\
    flag_order nd = Returns order /\
    h = decoded_header c order nd hdBuf /\
    f = Some (nextfd w) /\
    fdtab w' !! nextfd w = Some {| d_file := nd; d_pos := 8 + H |} /\
    files w' = files w /\
    trace w' = trace w ++ [EvOpen (nextfd w) file; EvRead (nextfd w) 0 4;
                           EvRead (nextfd w) 4 4; EvSeek (nextfd w) 8;
                           EvRead (nextfd w) 8 H].
Proof.
  intros Hrun.
  destruct (readSheetHeaderAt_result c _ _ _ _ _ _ _ Hrun)
    as (nd & Hf & Hwf & -> & -> & ->).
  exists nd. destruct Hwf as (_ & _ & Hord & _).
  repeat split; try done. cbn. apply lookup_insert_eq.
Qed.

(** Files too short for the flag or for the size field make the decoder
    panic: no result comes back. *)
Lemma readSheetHeaderAt_short (w : world) (file : string) (nd : inode)
    (hdBuf : GotetraHeader) :
  files w !! file = Some nd ->
  (length (contents nd) < 8)%nat ->
  exists p w', readSheetHeaderAt c file hdBuf w = (Panics p, w').
Proof.
  intros Hf Hshort.
  destruct (le_lt_dec 4 (length (contents nd))) as [Hlen4|Hlen4].
  - pose proof (readSheetHeaderAt_flag c w file nd hdBuf Hf Hlen4) as Hflag.
    cbn zeta in Hflag. destruct (endianness _) as [order|p]; [|eauto].
    rewrite Hflag. unfold readInt32 at 1. unfold bind at 1. unfold bind at 1.
    erewrite ReadFull_Some by apply fdtab_log_set_fd.
    cbn zeta. cbn [d_pos d_file].
    destruct (short_read _ 4) as [e|] eqn:Esr; [unfold panic; eauto|].
    apply short_read_None, length_take_drop in Esr. lia.
  - unfold readSheetHeaderAt.
    erewrite bind_Returns by (apply os_OpenFile_Some; eassumption).
    cbn iota beta. unfold readInt32 at 1. unfold bind at 1. unfold bind at 1.
    erewrite ReadFull_Some by apply fdtab_log_set_fd.
    cbn zeta. cbn [d_pos d_file].
    destruct (short_read _ 4) as [e|] eqn:Esr; [unfold panic; eauto|].
    apply short_read_None, length_take_drop in Esr. lia.
Qed.

(** X3. Every error exit of the header decoder hands back a nil file and
    the little-endian order and leaves the header buffer as it was. The
    error is one of: the file cannot be opened, the declared header size is
    wrong, the seek failed, or the header is cut short. *)
Theorem header_decode_error_exits (w w' : world) (file : string)
    (hdBuf h : GotetraHeader) (f : File) (order : ByteOrder) (e : error) :
  readSheetHeaderAt c file hdBuf w = (Returns (h, (f, order, Some e)), w') ->
  h = hdBuf /\ f = None /\ order = LittleEndian /\
  (e = ErrNotExist file \/
   (exists found, found <> int32 (Z.of_nat H) /\ e = ErrHeaderSize (Z.of_nat H) found) \/
   e = ErrSeek \/ e = EOF \/ e = ErrUnexpectedEOF).
Proof.
  intros Hrun.
  destruct (files w !! file) as [nd|] eqn:Hf.
  2:{ unfold readSheetHeaderAt in Hrun.
      erewrite bind_Returns in Hrun by (unfold os_OpenFile; rewrite Hf; reflexivity).
      injection Hrun as <- <- <- <- <-. auto. }
  destruct (le_lt_dec 8 (length (contents nd))) as [Hlen|Hlen].
  2:{ destruct (readSheetHeaderAt_short w file nd hdBuf Hf Hlen) as (p & w1 & E).
      congruence. }
  destruct (flag_order nd) as [o|p] eqn:Hord.
  2:{ pose proof (readSheetHeaderAt_flag c w file nd hdBuf Hf ltac:(lia)) as Hflag.
      cbn zeta in Hflag. unfold flag_order in Hord. rewrite Hord in Hflag.
      congruence. }
  rewrite (readSheetHeaderAt_size c w file nd hdBuf o Hf Hlen Hord) in Hrun.
  cbn zeta in Hrun.
  destruct (Z.eqb_spec (declared_size o nd) (int32 (Z.of_nat H))) as [Hsize|Hsize];
    cbn [negb] in Hrun.
  2:{ injection Hrun as <- <- <- <- <-. repeat split; try done. right. left. eauto. }
  destruct (seekable nd); cbn [negb] in Hrun.
  2:{ injection Hrun as <- <- <- <- <-. auto 10. }
  destruct (short_read _ _) as [e'|] eqn:Esr; [|discriminate].
  injection Hrun as <- <- <- <- <-.
  apply short_read_Some in Esr as [_ [->| ->]]; auto 10.
Qed.

(** X4. A header that [ReadSheetHeaderAt] hands out has [N] and [Count]
    recomputed from the widths in [int64] arithmetic, whatever the file
    stores as [Count]; its widths are [int64] values. *)
Theorem decoded_header_counts (w w' : world) (file : string)
    (hdBuf h : GotetraHeader) :
  ReadSheetHeaderAt c file hdBuf w = (Returns (h, None), w') ->
  let s := SegmentWidth (Raw h) in
  let cw := CountWidth (Raw h) in
  N h = int64 (int64 (s * s) * s) /\
  Count (Raw h) = int64 (int64 (cw * cw) * cw) /\
  (- 2 ^ 63 <= s < 2 ^ 63) /\ (- 2 ^ 63 <= cw < 2 ^ 63) /\
  (- 2 ^ 63 <= GridWidth (Raw h) < 2 ^ 63) /\
  guard h = guard hdBuf.
Proof.
  unfold ReadSheetHeaderAt, bind.
  destruct (readSheetHeaderAt _ _ _ _) as [[[h1 [[f o] e1]]|p] w1] eqn:Ehd;
    [|discriminate].
  destruct e1 as [e1|]; [discriminate|].
  destruct (File_Close _ _) as [[e2|p] w2]; [|discriminate].
  destruct e2 as [e2|]; [discriminate|]. unfold ret. intros [= <- _].
  apply readSheetHeaderAt_result in Ehd as (nd & _ & _ & -> & _ & _).
  cbn. repeat split; try reflexivity; try apply (wrap_range 64); lia.
Qed.

End HeaderResults.

(** ** The header probe, the length check and the constructor *)

Lemma closes_app (fd : nat) (t l : list event) :
  closes fd (t ++ l) = (closes fd t + closes fd l)%nat.
Proof. unfold closes. by rewrite filter_app, length_app. Qed.

Section Probe.
Variable c : nat.

Local Abbreviation H := (sizeofRawGotetraHeader c).

Lemma ReadSheetHeaderAt_well_formed (w : world) (file : string) (nd : inode)
    (hdBuf : GotetraHeader) (order : ByteOrder) :
  files w !! file = Some nd ->
  well_formed c nd order ->
  ReadSheetHeaderAt c file hdBuf w =
    (Returns (decoded_header c order nd hdBuf,
              if close_ok nd then None else Some ErrClose),
     after_probe c w file).
Proof.
  intros Hf Hwf. unfold ReadSheetHeaderAt.
  erewrite bind_Returns by (apply readSheetHeaderAt_well_formed; eassumption).
  cbn iota beta.
  erewrite bind_Returns.
  2:{ apply File_Close_Some. cbn. apply lookup_insert_eq. }
  cbn [d_file].
  assert (E : log (EvClose (nextfd w)) (free_fd (nextfd w) (after_header c w file nd))
              = after_probe c w file).
  { unfold after_probe, after_header, log, free_fd. cbn.
    rewrite delete_insert_eq, <- app_assoc. reflexivity. }
  rewrite E. by destruct (close_ok nd).
Qed.

(** X5. On a well-formed file [ReadSheetHeaderAt] stores the decoded header
    and closes the descriptor it opened, exactly once: the descriptor table
    is as before the call. When the close itself reports an error, that
    error is returned although the header has been stored. *)
Theorem header_probe_releases_descriptor (w : world) (file : string) (nd : inode)
    (hdBuf : GotetraHeader) (order : ByteOrder) :
  files w !! file = Some nd ->
  well_formed c nd order ->
  fdtab w !! nextfd w = None ->
  exists w',
    ReadSheetHeaderAt c file hdBuf w =
      (Returns (decoded_header c order nd hdBuf,
                if close_ok nd then None else Some ErrClose), w') /\
    fdtab w' = fdtab w /\
    closes (nextfd w) (trace w') = S (closes (nextfd w) (trace w)) /\
    trace w' = trace w ++ [EvOpen (nextfd w) file; EvRead (nextfd w) 0 4;
                           EvRead (nextfd w) 4 4; EvSeek (nextfd w) 8;
                           EvRead (nextfd w) 8 H; EvClose (nextfd w)].
Proof.
  intros Hf Hwf Hfresh. exists (after_probe c w file).
  split; [by apply ReadSheetHeaderAt_well_formed|].
  split; [cbn; by apply delete_id|]. split; [|reflexivity].
  cbn [after_probe trace]. rewrite closes_app. unfold closes at 2.
  rewrite !filter_cons, filter_nil.
  repeat (destruct (decide _) as [?|?]; try discriminate); cbn; try lia.
  congruence.
Qed.

(** X6. When the header of a well-formed file declares another number of
    vectors than the target array holds, the payload reader returns the
    format error that names both numbers and the file; the array is left as
    it was and nothing behind the header is read. *)
Theorem count_mismatch_rejected (w : world) (file : string) (nd : inode)
    (xs : list vec3) (order : ByteOrder) :
  files w !! file = Some nd ->
  well_formed c nd order ->
  let count := GridCount (Raw (decoded_header c order nd (zero_GotetraHeader c))) in
  Z.of_nat (length xs) < 2 ^ 63 ->
  count <> Z.of_nat (length xs) ->
  readSheetPositionsAt c file xs w =
    (Returns (xs, Some (ErrPositionBuffer (Z.of_nat (length xs)) file count)),
     after_header c w file nd)
  /\ is_FormatError (ErrPositionBuffer (Z.of_nat (length xs)) file count) = true.
Proof.
  intros Hf Hwf count Hlen Hne. split; [|reflexivity].
  unfold readSheetPositionsAt.
  erewrite bind_Returns by (apply readSheetHeaderAt_well_formed; eassumption).
  cbn iota beta. fold count. rewrite int64_id by lia.
  destruct (Z.eqb_spec count (Z.of_nat (length xs))); [contradiction|].
  reflexivity.
Qed.

(** The widths that the constructor reads from a well-formed file. *)
Lemma decoded_widths (order : ByteOrder) (nd : inode) (hdBuf : GotetraHeader) :
  let h := decoded_header c order nd hdBuf in
  int (SegmentWidth (Raw h)) = SegmentWidth (Raw h) /\
  int (GridWidth (Raw h)) = GridWidth (Raw h).
Proof. cbn. split; apply int_int64. Qed.

Lemma NewGotetraBuffer_well_formed (w : world) (fname : string) (nd : inode)
    (order : ByteOrder) :
  files w !! fname = Some nd ->
  well_formed c nd order ->
  close_ok nd = true ->
  let h := decoded_header c order nd (zero_GotetraHeader c) in
  let g := GridWidth (Raw h) in
  let s := SegmentWidth (Raw h) in
  NewGotetraBuffer c fname w =
    if make_refused (int64 (int64 (g * g) * g))
       || make_refused (int64 (int64 (s * s) * s))
    then (Panics MakeSliceLen, after_probe c w fname)
    else
      (Returns (Some {| open := false;
                        sheet := replicate (Z.to_nat (int64 (int64 (g * g) * g))) zero_vec3;
                        out := replicate (Z.to_nat (int64 (int64 (s * s) * s))) zero_vec3;
                        sw := s; gw := g; hd := zero_GotetraHeader c |}, None),
       after_probe c w fname).
Proof.
  intros Hf Hwf Hclose h g s. unfold NewGotetraBuffer.
  erewrite bind_Returns by (apply ReadSheetHeaderAt_well_formed; eassumption).
  rewrite Hclose. cbn iota beta. fold h. fold g. fold s.
  unfold make_vecs, bind.
  destruct (make_refused (int64 (int64 (g * g) * g))); [reflexivity|].
  destruct (make_refused (int64 (int64 (s * s) * s))); [reflexivity|].
  unfold ret. cbn [orb].
  destruct (decoded_widths order nd (zero_GotetraHeader c)) as [Es Eg].
  cbn zeta in Es, Eg. fold h in Es, Eg. fold g in Eg. fold s in Es.
  by rewrite Es, Eg.
Qed.

(** A length that [make] accepts. *)
Lemma make_refused_false (n : Z) :
  0 <= 12 * n <= maxAlloc -> make_refused n = false.
Proof.
  intros Hn. unfold make_refused.
  destruct (Z.ltb_spec n 0), (Z.ltb_spec maxAlloc (12 * n)); lia || reflexivity.
Qed.

(** X7. On a well-formed file whose close succeeds and whose two cubes
    [gw*gw*gw] and [sw*sw*sw], computed in [int64], are lengths that [make]
    accepts (not negative, and at most [maxAlloc] bytes of vectors),
    [NewGotetraBuffer] returns a closed buffer with the widths of the header,
    two zero-filled arrays of those lengths, and a zero header field; the
    descriptor it used is closed again. *)
Theorem NewGotetraBuffer_result (w : world) (fname : string) (nd : inode)
    (order : ByteOrder) :
  files w !! fname = Some nd ->
  well_formed c nd order ->
  close_ok nd = true ->
  let h := decoded_header c order nd (zero_GotetraHeader c) in
  let g := GridWidth (Raw h) in
  let s := SegmentWidth (Raw h) in
  0 <= 12 * int64 (int64 (g * g) * g) <= maxAlloc ->
  0 <= 12 * int64 (int64 (s * s) * s) <= maxAlloc ->
  NewGotetraBuffer c fname w =
    (Returns (Some {| open := false;
                      sheet := replicate (Z.to_nat (int64 (int64 (g * g) * g))) zero_vec3;
                      out := replicate (Z.to_nat (int64 (int64 (s * s) * s))) zero_vec3;
                      sw := s; gw := g; hd := zero_GotetraHeader c |}, None),
     after_probe c w fname).
Proof.
  intros Hf Hwf Hclose h g s Hg Hs.
  rewrite (NewGotetraBuffer_well_formed w fname nd order Hf Hwf Hclose).
  cbn zeta. fold h. fold g. fold s.
  by rewrite !make_refused_false.
Qed.

(** X8. When one of the two cubes is negative in [int64] (a grid width of
    -2, say), [NewGotetraBuffer] does not return an error: it panics in
    [make], after the descriptor has been closed. *)
Theorem NewGotetraBuffer_negative_cube_panics (w : world) (fname : string)
    (nd : inode) (order : ByteOrder) :
  files w !! fname = Some nd ->
  well_formed c nd order ->
  close_ok nd = true ->
  let h := decoded_header c order nd (zero_GotetraHeader c) in
  let g := GridWidth (Raw h) in
  let s := SegmentWidth (Raw h) in
  int64 (int64 (g * g) * g) < 0 \/ int64 (int64 (s * s) * s) < 0 ->
  NewGotetraBuffer c fname w = (Panics MakeSliceLen, after_probe c w fname).
Proof.
  intros Hf Hwf Hclose h g s Hneg.
  rewrite (NewGotetraBuffer_well_formed w fname nd order Hf Hwf Hclose).
  cbn zeta. fold h. fold g. fold s. unfold make_refused.
  destruct (Z.ltb_spec (int64 (int64 (g * g) * g)) 0); [reflexivity|].
  destruct (Z.ltb_spec (int64 (int64 (s * s) * s)) 0); [|lia].
  by rewrite orb_true_r.
Qed.

End Probe.

(** ** More on [Read] and [Close] *)

Lemma for_loop_panics {St} (P : panic_value -> Prop) (body : Z -> Go St unit) :
  (forall k s p s', body k s = (Panics p, s') -> P p) ->
  forall n i s p s', for_loop n i body s = (Panics p, s') -> P p.
Proof.
  intros Hbody. induction n as [|n IH]; intros i s p s' Hrun; [discriminate|].
  cbn [for_loop] in Hrun. unfold bind in Hrun.
  destruct (body i s) as [[[]|q] s1] eqn:E.
  - eapply IH, Hrun.
  - injection Hrun as <- <-. eapply Hbody, E.
Qed.

Lemma copy_cell_panics (x y z : Z) (s s' : world * GotetraBuffer) (p : panic_value) :
  copy_cell x y z s = (Panics p, s') -> is_index_panic p = true.
Proof.
  unfold copy_cell, bind, get_buf, index, store, set_out, ret, panic.
  repeat case_match; intros; simplify_eq/=; done.
Qed.

(** The extraction loop panics with an index out of range or not at all. *)
Lemma extract_panics (s s' : world * GotetraBuffer) (p : panic_value) :
  extract s = (Panics p, s') -> is_index_panic p = true.
Proof.
  unfold extract, bind, get_buf. cbn [snd]. unfold for_range.
  apply (for_loop_panics (fun p => is_index_panic p = true)).
  intros z t q t'. apply (for_loop_panics (fun p => is_index_panic p = true)).
  intros y u q' u'. apply (for_loop_panics (fun p => is_index_panic p = true)).
  intros x v q'' v'. apply copy_cell_panics.
Qed.

Lemma extract_outcome (s : world * GotetraBuffer) :
  (exists s', extract s = (Returns tt, s')) \/
  (exists i n s', extract s = (Panics (IndexOutOfRange i n), s')).
Proof.
  destruct (extract s) as [[[]|p] s'] eqn:E; [eauto|right].
  apply extract_panics in E as Hp. destruct p; try discriminate. eauto.
Qed.

Section MoreMethods.
Variable c : nat.

(** X9. For a buffer that [NewGotetraBuffer] returned, with a segment wider
    than the grid ([0 <= gw < sw]) and a grid cube below [2 ^ 63], the
    extraction loop never completes: it panics with an index out of range,
    and so does every [Read] whose payload read returns without an error. *)
Theorem segment_wider_than_grid_panics (fname0 : string) (w0 w1 : world)
    (b0 b : GotetraBuffer) (e0 : option error) :
  NewGotetraBuffer c fname0 w0 = (Returns (Some b0, e0), w1) ->
  same_shape b0 b ->
  0 <= gw b < sw b -> gw b * gw b * gw b < 2 ^ 63 ->
  (forall w, exists i n s', extract (w, b) = (Panics (IndexOutOfRange i n), s')) /\
  (forall fname w xs w',
     open b = false ->
     readSheetPositionsAt c fname (sheet b) w = (Returns (xs, None), w') ->
     exists i n s', Read c fname (w, b) = (Panics (IndexOutOfRange i n), s')).
Proof.
  intros Hnew Hshape Hgw Hcube.
  apply NewGotetraBuffer_sized in Hnew as (_ & _ & Hsz0).
  destruct (sized_shape b0 b Hshape Hsz0) as [Hsh _].
  assert (Hlen : Z.of_nat (length (sheet b)) = gw b * gw b * gw b).
  { rewrite Hsh. destruct (Z.eq_dec (gw b) 0) as [->|]; [reflexivity|].
    rewrite cube_int64 by lia. rewrite Z2Nat.id; nia. }
  assert (Hout : forall b', same_shape b b' -> ~ in_bounds b').
  { intros b' (Hsw' & Hgw' & _ & Hsh' & _) Hb.
    destruct (Hb 0 0 (gw b)) as [[_ Hlt] _]; [lia..|].
    rewrite Hgw', Hsh', cell_index_int, int_id in Hlt by nia. lia. }
  assert (Hex : forall s, same_shape b (snd s) ->
                  exists i n s', extract s = (Panics (IndexOutOfRange i n), s')).
  { intros s Hs. destruct (extract_outcome s) as [[s' E]|?]; [|done].
    apply extract_success_in_bounds in E. by apply Hout in E. }
  split.
  - intros w. apply Hex. apply same_shape_refl.
  - intros fname w xs w' Hcl Hread. rewrite Read_closed by done. rewrite Hread.
    apply readSheetPositionsAt_length in Hread.
    destruct (Hex (w', with_sheet xs (with_open true b))) as (i & n & s' & ->);
      [by repeat split|]. eauto.
Qed.

Lemma Read_leaves_open (fname : string) (s : world * GotetraBuffer) :
  open (snd (snd (Read c fname s))) = true.
Proof.
  destruct s as [w b]. destruct (open b) eqn:Hop.
  - by rewrite Read_open.
  - rewrite Read_closed by done.
    destruct (readSheetPositionsAt c fname (sheet b) w) as [[[xs [e|]]|p] w1];
      try reflexivity.
    pose proof (extract_keeps_frame (w1, with_sheet xs (with_open true b)))
      as (_ & Hopen & _).
    by destruct (extract _) as [[[]|p] s3].
Qed.

Lemma Close_leaves_closed (s : world * GotetraBuffer) :
  open (snd (snd (Close s))) = false.
Proof. rewrite Close_cases. by destruct (open (snd s)) eqn:E. Qed.

(** X10. After every call of [Read], however it ends, the buffer is open,
    and after every call of [Close] it is closed. So a second [Read] right
    after a [Read] always panics, also when the first one returned an error,
    and so does a second [Close] right after a [Close]. *)
Theorem calls_set_the_flag (f1 f2 : string) (s : world * GotetraBuffer) :
  IsOpen (snd (snd (Read c f1 s))) = true /\
  IsOpen (snd (snd (Close s))) = false /\
  Read c f2 (snd (Read c f1 s)) =
    (Panics (PanicString "Buffer already open."), snd (Read c f1 s)) /\
  Close (snd (Close s)) =
    (Panics (PanicString "Buffer already closed."), snd (Close s)).
Proof.
  split; [apply Read_leaves_open|]. split; [apply Close_leaves_closed|]. split.
  - apply Read_open, Read_leaves_open.
  - rewrite (Close_cases (snd (Close s))). by rewrite Close_leaves_closed.
Qed.

(** X11. A [Read] that returns hands back the error of the payload reader
    as it got it. With an error the slice is nil; without one the slice is
    [buf.out]. The arrays of the buffer are the target array as the payload
    reader left it and an [out] of unchanged length, and the operating
    system is as the payload reader left it: the extraction does no I/O. *)
Theorem Read_results (fname : string) (s s' : world * GotetraBuffer)
    (o : option (list vec3)) (e : option error) :
  Read c fname s = (Returns (o, e), s') ->
  IsOpen (snd s) = false /\
  readSheetPositionsAt c fname (sheet (snd s)) (fst s) = (Returns (sheet (snd s'), e), fst s') /\
  length (out (snd s')) = length (out (snd s)) /\
  ((o = None /\ is_Some e /\ out (snd s') = out (snd s)) \/
   (o = Some (out (snd s')) /\ e = None)).
Proof.
  destruct s as [w b]. unfold IsOpen. cbn [fst snd]. intros Hrun.
  destruct (open b) eqn:Hop; [rewrite Read_open in Hrun by done; discriminate|].
  rewrite Read_closed in Hrun by done.
  destruct (readSheetPositionsAt c fname (sheet b) w) as [[[xs [err|]]|p] w1];
    try discriminate.
  - injection Hrun as <- <- <-. cbn. eauto 10.
  - pose proof (extract_keeps_frame (w1, with_sheet xs (with_open true b)))
      as (Hw & _ & Hsh & _ & _ & _ & Hlen).
    destruct (extract _) as [[[]|p] s3]; [|discriminate].
    injection Hrun as <- <- <-. cbn [fst snd with_sheet with_open sheet out] in *.
    rewrite Hw, Hsh. repeat split; [done|]. by right.
Qed.

(** [NewGotetraBuffer] leaves the header field at its zero value. *)
Lemma NewGotetraBuffer_hd (fname : string) (w w' : world) (b : GotetraBuffer)
    (e : option error) :
  NewGotetraBuffer c fname w = (Returns (Some b, e), w') ->
  hd b = zero_GotetraHeader c.
Proof.
  unfold NewGotetraBuffer, bind.
  destruct (ReadSheetHeaderAt _ _ _ _) as [[[h [e1|]]|p] w1]; try discriminate.
  destruct (make_vecs _ _) as [[sh|p] w2]; [|discriminate].
  destruct (make_vecs _ _) as [[ou|p] w3]; [|discriminate].
  unfold ret. by intros [= <- _ _].
Qed.

(** X12. The header field [hd] of a buffer never holds a header: it is the
    zero value when [NewGotetraBuffer] returns the buffer, and no sequence
    of [Read] and [Close] calls stores anything in it. *)
Theorem buffer_never_holds_header (fname : string) (w0 w1 w : world)
    (b : GotetraBuffer) (e : option error) (calls : list method) :
  NewGotetraBuffer c fname w0 = (Returns (Some b, e), w1) ->
  hd b = zero_GotetraHeader c /\
  hd (snd (run_calls c calls (w, b))) = zero_GotetraHeader c /\
  N (hd (snd (run_calls c calls (w, b)))) = 0.
Proof.
  intros Hnew. apply NewGotetraBuffer_hd in Hnew.
  destruct (run_calls_keeps_shape c calls (w, b)) as (_ & _ & Hhd & _).
  cbn [snd] in Hhd. rewrite Hhd, Hnew. done.
Qed.

End MoreMethods.

(** ** The extraction loop, once more *)

Lemma buffer_only_bind {A B} (m : Go (world * GotetraBuffer) A)
    (k : A -> Go (world * GotetraBuffer) B) :
  buffer_only m -> (forall a, buffer_only (k a)) -> buffer_only (bind m k).
Proof.
  intros Hm Hk w w' b. unfold bind. rewrite (Hm w w' b).
  destruct (m (w, b)) as [[a|p] [w1 b1]]; cbn [fst snd]; [|reflexivity].
  apply Hk.
Qed.

Lemma buffer_only_for_loop (body : Z -> Go (world * GotetraBuffer) unit) :
  (forall k, buffer_only (body k)) ->
  forall n i, buffer_only (for_loop n i body).
Proof.
  intros Hbody. induction n as [|n IH]; intros i; [done|].
  cbn [for_loop]. apply buffer_only_bind; [apply Hbody|]. intros _. apply IH.
Qed.

Lemma buffer_only_copy_cell (x y z : Z) : buffer_only (copy_cell x y z).
Proof.
  intros w w' b.
  unfold copy_cell, bind, get_buf, index, store, set_out, ret, panic.
  cbn [snd fst]. repeat case_match; simplify_eq/=; reflexivity.
Qed.

(** The extraction loop works on the buffer alone. *)
Lemma buffer_only_extract : buffer_only extract.
Proof.
  unfold extract. apply buffer_only_bind; [by intros w w' b|].
  intros buf. unfold for_range. apply buffer_only_for_loop. intros z.
  apply buffer_only_for_loop. intros y.
  apply buffer_only_for_loop. intros x. apply buffer_only_copy_cell.
Qed.

(** One assignment writes one cell. *)
Lemma copy_cell_kept (s0 st st' : world * GotetraBuffer) (x y z : Z) :
  let w := sw (snd s0) in
  0 <= x < w -> 0 <= y < w -> 0 <= z < w ->
  cells_done s0 (x + y * w + z * w * w) st ->
  cells_kept s0 (x + y * w + z * w * w) st ->
  copy_cell x y z st = (Returns tt, st') ->
  cells_kept s0 (x + y * w + z * w * w + 1) st'.
Proof.
  intros w Hx Hy Hz (Hfr & Hk & _) Hkept Hrun.
  destruct Hfr as (Hw & Hop & Hsh & Hsw & Hgw & Hhd & Hlen).
  unfold copy_cell, bind, get_buf in Hrun. cbn [snd] in Hrun.
  rewrite Hsw, Hgw, Hsh in Hrun. fold w in Hrun.
  destruct (index _ _ _) as [[v|p] s1] eqn:Eidx; [|discriminate].
  apply index_Returns in Eidx as (-> & Hgi0 & Hgi).
  destruct (store _ _ _ _) as [[o'|p] s2] eqn:Est; [|discriminate].
  apply store_Returns in Est as (-> & Hsi0 & Hsi & ->).
  unfold set_out in Hrun. injection Hrun as <-.
  set (k := x + y * w + z * w * w) in *.
  assert (Hk0 : 0 <= k) by (apply (cell_below_cube w x y z); done).
  rewrite cell_index_int in Hsi0 |- *. fold k in Hsi0 |- *.
  assert (Hk63 : k < 2 ^ 63).
  { destruct (Z.eq_dec k (2 ^ 63)) as [E|]; [|lia].
    rewrite E in Hsi0. vm_compute in Hsi0. contradiction. }
  rewrite int_id by lia.
  intros i Hi. cbn [snd with_out out].
  rewrite list_lookup_insert_ne by lia. apply Hkept. lia.
Qed.

(** The three loops write the first [sw^3] cells of [out] and no other. *)
Lemma extract_kept (s0 s' : world * GotetraBuffer) :
  let w := sw (snd s0) in
  0 < w ->
  extract s0 = (Returns tt, s') ->
  cells_kept s0 (w * w * w) s'.
Proof.
  intros w Hw Hrun.
  enough (cells_done s0 (w * w * w) s' /\ cells_kept s0 (w * w * w) s') by tauto.
  unfold extract, bind, get_buf in Hrun. cbn [snd] in Hrun. fold w in Hrun.
  unfold for_range in Hrun at 1.
  replace (w * w * w) with ((0 + Z.of_nat (Z.to_nat w)) * w * w)
    by (rewrite Z2Nat.id by lia; lia).
  revert Hrun.
  apply (for_loop_success
           (fun z st => cells_done s0 (z * w * w) st /\ cells_kept s0 (z * w * w) st)).
  2:{ split; [|by intros i _].
      split; [apply extract_frame_refl|]. split; [lia|].
      intros x y z Hx Hy Hz Hlt. fold w in Hx, Hy, Hz, Hlt.
      pose proof (cell_below_cube w x y z Hx Hy Hz). lia. }
  intros z t t' Hz Hinv Hmid. rewrite Z2Nat.id in Hz by lia.
  unfold for_range in Hmid at 1.
  replace ((z + 1) * w * w) with ((0 + Z.of_nat (Z.to_nat w)) * w + z * w * w)
    by (rewrite Z2Nat.id by lia; lia).
  revert Hmid.
  apply (for_loop_success
           (fun y st => cells_done s0 (y * w + z * w * w) st /\
                        cells_kept s0 (y * w + z * w * w) st)).
  2:{ replace (0 * w + z * w * w) with (z * w * w) by lia. exact Hinv. }
  intros y u u' Hy Hinv' Hin. rewrite Z2Nat.id in Hy by lia.
  unfold for_range in Hin.
  replace ((y + 1) * w + z * w * w)
    with ((0 + Z.of_nat (Z.to_nat w)) + y * w + z * w * w)
    by (rewrite Z2Nat.id by lia; lia).
  revert Hin.
  apply (for_loop_success
           (fun x st => cells_done s0 (x + y * w + z * w * w) st /\
                        cells_kept s0 (x + y * w + z * w * w) st)).
  2:{ replace (0 + y * w + z * w * w) with (y * w + z * w * w) by lia. exact Hinv'. }
  intros x v v' Hx [Hd Hkp] Hcell. rewrite Z2Nat.id in Hx by lia.
  replace (x + 1 + y * w + z * w * w) with (x + y * w + z * w * w + 1) by lia.
  split.
  - apply (copy_cell_success s0 v v' x y z); try done; lia.
  - apply (copy_cell_kept s0 v v' x y z); try done; lia.
Qed.

(** With no cells to copy the loops return at once. *)
Lemma extract_empty (s : world * GotetraBuffer) :
  sw (snd s) <= 0 -> extract s = (Returns tt, s).
Proof.
  intros Hw. unfold extract, bind, get_buf, for_range. cbn [snd].
  replace (Z.to_nat (sw (snd s))) with 0%nat by lia. reflexivity.
Qed.

(** Every index below [s^3] is the index of one cell of the cube. *)
Lemma cell_decode (s i : Z) :
  0 < s -> 0 <= i < s * s * s ->
  exists x y z, 0 <= x < s /\ 0 <= y < s /\ 0 <= z < s /\ i = x + y * s + z * s * s.
Proof.
  intros Hs Hi. exists (i mod s), ((i / s) mod s), (i / s / s).
  pose proof (Z.mod_pos_bound i s Hs).
  pose proof (Z.mod_pos_bound (i / s) s Hs).
  pose proof (Z.div_mod i s ltac:(lia)) as E1.
  pose proof (Z.div_mod (i / s) s ltac:(lia)) as E2.
  assert (0 <= i / s) by (apply Z.div_pos; lia).
  assert (0 <= i / s / s) by (apply Z.div_pos; lia).
  assert (i / s < s * s) by (apply Z.div_lt_upper_bound; nia).
  assert (i / s / s < s) by (apply Z.div_lt_upper_bound; nia).
  repeat split; lia.
Qed.

(** Running the loops again on their own result changes nothing. *)
Lemma extract_idempotent (s0 s1 : world * GotetraBuffer) :
  extract s0 = (Returns tt, s1) -> extract s1 = (Returns tt, s1).
Proof.
  intros Hrun.
  pose proof (extract_keeps_frame s0) as Hfr. rewrite Hrun in Hfr. cbn [snd] in Hfr.
  destruct (Z_le_gt_dec (sw (snd s0)) 0) as [Hle|Hgt].
  { apply extract_empty. destruct Hfr as (_ & _ & _ & -> & _). exact Hle. }
  pose proof (extract_success_in_bounds _ _ Hrun) as Hb.
  destruct (extract_total s1) as (s2 & Hrun2 & Hfr2).
  { revert Hb. apply in_bounds_shape.
    destruct Hfr as (_ & _ & Hsh & Hsw & Hgw & Hhd & Hlen).
    repeat split; congruence. }
  rewrite Hrun2. f_equal.
  pose proof (extract_success s0 s1 ltac:(lia) Hrun) as (_ & _ & Hd1).
  destruct Hfr as (Hw & Hop & Hsh & Hsw & Hgw & Hhd & Hlen).
  assert (Hw1 : 0 < sw (snd s1)) by lia.
  pose proof (extract_success s1 s2 Hw1 Hrun2) as (_ & _ & Hd2).
  pose proof (extract_kept s1 s2 Hw1 Hrun2) as Hk2.
  cbn zeta in Hd1, Hd2, Hk2. rewrite Hsw in Hd2, Hk2. rewrite Hgw, Hsh in Hd2.
  destruct Hfr2 as (Hw2 & Hop2 & Hsh2 & Hsw2 & Hgw2 & Hhd2 & Hlen2).
  assert (Hout : out (snd s2) = out (snd s1)).
  { apply list_eq. intros i. set (w := sw (snd s0)) in *.
    destruct (Z_lt_ge_dec (Z.of_nat i) (w * w * w)) as [Hlt|Hge].
    - destruct (cell_decode w (Z.of_nat i)) as (x & y & z & Hx & Hy & Hz & E);
        [lia..|].
      destruct (Hd1 x y z) as [_ (v & Hv & Ho)]; [done..|lia|].
      destruct (Hd2 x y z) as [_ (v' & Hv' & Ho')]; [done..|lia|].
      rewrite <- E, Nat2Z.id in Ho, Ho'. congruence.
    - apply Hk2. lia. }
  destruct s1 as [w1 [o1 sh1 ou1 sw1 gw1 hd1]], s2 as [w2 [o2 sh2 ou2 sw2 gw2 hd2]].
  cbn in *. congruence.
Qed.

Section Repeat.
Variable c : nat.

(** X13. What [Read] returns and what it does to the buffer depend on the
    operating system only through the bytes of the named file: from two
    states of the system in which the file is the same (other descriptors
    open or not, whatever was called before), [Read] on the same buffer
    returns the same or panics alike, and leaves the same buffer. *)
Theorem Read_sees_only_the_file (fname : string) (w w' : world) (b : GotetraBuffer) :
  files w !! fname = files w' !! fname ->
  fst (Read c fname (w, b)) = fst (Read c fname (w', b)) /\
  snd (snd (Read c fname (w, b))) = snd (snd (Read c fname (w', b))).
Proof.
  intros Hfile. destruct (open b) eqn:Hop; [by rewrite !Read_open|].
  rewrite !Read_closed by done.
  pose proof (readSheetPositionsAt_agree c fname (sheet b) (sheet b) w w' Hfile eq_refl)
    as Hag.
  destruct (readSheetPositionsAt c fname (sheet b) w) as [[[xs e]|p] w1],
           (readSheetPositionsAt c fname (sheet b) w') as [[[xs' e']|p'] w1'];
    cbn [agree fst snd] in Hag; try contradiction.
  - destruct Hag as [<- Hxs].
    assert (xs' = xs) as -> by (destruct Hxs as [[-> ->]|]; done).
    destruct e as [e|]; [done|].
    rewrite (buffer_only_extract w1 w1' (with_sheet xs (with_open true b))).
    by destruct (extract (w1, _)) as [[[]|p] [w3 b3]].
  - by subst p'.
Qed.

(** X14. Reading the same file again gives the same again: after a [Read]
    that returned the vectors [o] and a [Close], a second [Read] of that
    file returns [o] too, and leaves the buffer exactly as the first one
    left it. *)
Theorem Read_again_returns_the_same (fname : string) (w w1 : world)
    (b b1 : GotetraBuffer) (o : list vec3) :
  Read c fname (w, b) = (Returns (Some o, None), (w1, b1)) ->
  exists w3,
    Read c fname (snd (Close (w1, b1))) = (Returns (Some o, None), (w3, b1)).
Proof.
  intros Hrun.
  destruct (open b) eqn:Hop; [rewrite Read_open in Hrun by done; discriminate|].
  rewrite Read_closed in Hrun by done.
  destruct (readSheetPositionsAt c fname (sheet b) w) as [[[xs [e|]]|p] w1'] eqn:Eread;
    try discriminate.
  destruct (extract _) as [[[]|p] s3] eqn:Eex; [|discriminate].
  injection Hrun as <- ->.
  pose proof (extract_keeps_frame (w1', with_sheet xs (with_open true b))) as Hfr.
  rewrite Eex in Hfr. cbn [snd] in Hfr.
  destruct Hfr as (Hw1 & Hopen1 & Hsh1 & _).
  cbn [fst snd with_sheet with_open open sheet] in *.
  pose proof (keeps_files_readSheetPositionsAt c fname (sheet b) w) as Hfiles.
  rewrite Eread in Hfiles. cbn [snd] in Hfiles.
  rewrite Close_cases. cbn [fst snd]. rewrite Hopen1. cbn [snd].
  rewrite Read_closed by done. cbn [sheet with_open].
  pose proof (readSheetPositionsAt_agree c fname (sheet b) (sheet b1) w w1) as Hag.
  rewrite Eread in Hag.
  lapply Hag; [clear Hag; intros Hag|by rewrite Hw1, Hfiles].
  lapply Hag; [clear Hag; intros Hag|
    rewrite Hsh1; symmetry; eapply readSheetPositionsAt_length, Eread].
  destruct (readSheetPositionsAt c fname (sheet b1) w1) as [[[ys e']|p] w3'];
    [|done].
  cbn [agree fst snd] in Hag. destruct Hag as [<- Hys].
  assert (Eys : ys = xs) by (destruct Hys as [[_ ->]| <-]; done). subst ys.
  assert (Eb : with_sheet xs (with_open true (with_open false b1)) = b1).
  { destruct b1; cbn in *. by subst. }
  rewrite Eb. apply extract_idempotent in Eex. subst w1'.
  rewrite (buffer_only_extract w1 w3' b1), Eex. cbn [fst snd]. eauto.
Qed.

End Repeat.

(** ** The payload reader on a well-formed sheet *)

Lemma decode_vecs_lookup (order : ByteOrder) (n : nat) (bs : list byte) (i : nat) :
  (i < n)%nat ->
  decode_vecs order n bs !! i = Some (decode_vec order (take 12 (drop (12 * i) bs))).
Proof.
  revert bs i. induction n as [|n IH]; intros bs i Hi; [lia|].
  destruct i as [|i]; [reflexivity|].
  cbn [decode_vecs]. rewrite lookup_cons, IH by lia.
  rewrite drop_drop. by replace (12 * S i)%nat with (12 + 12 * i)%nat by lia.
Qed.

(** A vector of the payload, cut out of the payload or out of the file. *)
Lemma payload_vector (c : nat) (nd : inode) (n i : nat) :
  (i < n)%nat ->
  take 12 (drop (12 * i) (payload_bytes c nd n))
  = take 12 (drop (8 + sizeofRawGotetraHeader c + 12 * i) (contents nd)).
Proof.
  intros Hi. unfold payload_bytes.
  rewrite skipn_firstn_comm, take_take, drop_drop. f_equal. lia.
Qed.

Section PayloadPaths.
Variable c : nat.

Local Abbreviation H := (sizeofRawGotetraHeader c).

(** The payload reader behind a decoded header and a passed length check. *)
Lemma readSheetPositionsAt_payload (w : world) (file : string) (nd : inode)
    (xs : list vec3) (order : ByteOrder) :
  files w !! file = Some nd ->
  well_formed c nd order ->
  GridCount (Raw (decoded_header c order nd (zero_GotetraHeader c)))
    = int64 (Z.of_nat (length xs)) ->
  Z.of_nat H + 8 < 2 ^ 63 ->
  let fd := nextfd w in
  let got := payload_bytes c nd (length xs) in
  let w2 := log (EvRead fd (8 + H) (12 * length xs))
              (set_fd fd {| d_file := nd; d_pos := (8 + H + length got)%nat |}
                 (log (EvSeek fd (Z.of_nat (8 + H)))
                    (set_fd fd {| d_file := nd; d_pos := (8 + H)%nat |}
                       (after_header c w file nd)))) in
  readSheetPositionsAt c file xs w =
    match short_read (length got) (12 * length xs) with
    | Some e => (Returns (xs, Some e), w2)
    | None =>
        (Returns (decode_vecs order (length xs) got,
                  if close_ok nd then None else Some ErrClose),
         log (EvClose fd) (free_fd fd w2))
    end.
Proof.
  intros Hf Hwf Hcount Hbound fd got w2. unfold readSheetPositionsAt.
  erewrite bind_Returns by (apply readSheetHeaderAt_well_formed; eassumption).
  cbn iota beta. rewrite Hcount, Z.eqb_refl. cbn [negb].
  assert (Eoff : int64 (int (4 + 4 + int (Z.of_nat H))) = Z.of_nat (8 + H)).
  { rewrite (int_id (Z.of_nat H)) by lia.
    rewrite (int_id (4 + 4 + Z.of_nat H)) by lia.
    rewrite int64_id by lia. lia. }
  rewrite Eoff. unfold bind at 1.
  erewrite Seek_Some by (cbn; apply lookup_insert_eq).
  cbn [d_file]. destruct Hwf as (Hseek & _). rewrite Hseek.
  replace (0 <=? Z.of_nat (8 + H)) with true by (symmetry; apply Z.leb_le; lia).
  cbn [andb]. rewrite Nat2Z.id.
  unfold readVecAsByte, bind.
  erewrite ReadFull_Some by apply fdtab_log_set_fd.
  cbn zeta. cbn [d_pos d_file]. fold fd. fold (payload_bytes c nd (length xs)).
  fold got. fold w2.
  destruct (short_read _ _) as [e|]; [reflexivity|]. unfold ret. cbn iota beta.
  erewrite File_Close_Some by apply fdtab_log_set_fd.
  cbn [d_file]. by destruct (close_ok nd).
Qed.

Lemma after_payload_eq (w : world) (file : string) (nd : inode) (n : nat) (pos : nat) :
  let fd := nextfd w in
  log (EvClose fd)
    (free_fd fd
       (log (EvRead fd (8 + H) (12 * n))
          (set_fd fd {| d_file := nd; d_pos := pos |}
             (log (EvSeek fd (Z.of_nat (8 + H)))
                (set_fd fd {| d_file := nd; d_pos := (8 + H)%nat |}
                   (after_header c w file nd))))))
  = after_payload c w file n.
Proof.
  unfold after_payload, after_header, log, set_fd, free_fd. cbn.
  rewrite !insert_insert_eq, delete_insert_eq, <- !app_assoc. reflexivity.
Qed.

Lemma readSheetPositionsAt_complete (w : world) (file : string) (nd : inode)
    (xs : list vec3) (order : ByteOrder) :
  files w !! file = Some nd ->
  well_formed c nd order ->
  GridCount (Raw (decoded_header c order nd (zero_GotetraHeader c)))
    = int64 (Z.of_nat (length xs)) ->
  Z.of_nat H + 8 < 2 ^ 63 ->
  (8 + H + 12 * length xs <= length (contents nd))%nat ->
  readSheetPositionsAt c file xs w =
    (Returns (decode_vecs order (length xs) (payload_bytes c nd (length xs)),
              if close_ok nd then None else Some ErrClose),
     after_payload c w file (length xs)).
Proof.
  intros Hf Hwf Hcount Hbound Hlen.
  rewrite (readSheetPositionsAt_payload w file nd xs order Hf Hwf Hcount Hbound).
  cbn zeta.
  assert (E : length (payload_bytes c nd (length xs)) = (12 * length xs)%nat).
  { unfold payload_bytes. apply length_take_drop. lia. }
  rewrite E, short_read_full, after_payload_eq. reflexivity.
Qed.

(** X15. The payload reader on a well-formed sheet whose header declares as
    many vectors as the target array holds and whose payload is complete:
    it seeks behind the header, reads [12 * len] bytes in one read, and
    closes the file. The array then holds, at every index [i], the three
    floats decoded from the twelve bytes at offset [8 + H + 12 * i] of the
    file, in the byte order of the flag. The error is that of the close. *)
Theorem payload_read_fills_target (w : world) (file : string) (nd : inode)
    (xs : list vec3) (order : ByteOrder) :
  files w !! file = Some nd ->
  well_formed c nd order ->
  GridCount (Raw (decoded_header c order nd (zero_GotetraHeader c)))
    = int64 (Z.of_nat (length xs)) ->
  Z.of_nat H + 8 < 2 ^ 63 ->
  (8 + H + 12 * length xs <= length (contents nd))%nat ->
  exists ys,
    readSheetPositionsAt c file xs w =
      (Returns (ys, if close_ok nd then None else Some ErrClose),
       after_payload c w file (length xs)) /\
    length ys = length xs /\
    forall i, (i < length xs)%nat ->
      ys !! i = Some (decode_vec order (take 12 (drop (8 + H + 12 * i) (contents nd)))).
Proof.
  intros Hf Hwf Hcount Hbound Hlen.
  exists (decode_vecs order (length xs) (payload_bytes c nd (length xs))).
  split; [|split].
  - by apply readSheetPositionsAt_complete.
  - apply decode_vecs_length.
  - intros i Hi. rewrite decode_vecs_lookup by done.
    by rewrite payload_vector.
Qed.

(** X16. When the payload of such a sheet is cut short, the payload reader
    returns [EOF] (nothing behind the header) or [ErrUnexpectedEOF], leaves
    the target array as it was, and does not close the file: the descriptor
    stays in the table and the trace has no further close. *)
Theorem short_payload_keeps_target (w : world) (file : string) (nd : inode)
    (xs : list vec3) (order : ByteOrder) :
  files w !! file = Some nd ->
  well_formed c nd order ->
  GridCount (Raw (decoded_header c order nd (zero_GotetraHeader c)))
    = int64 (Z.of_nat (length xs)) ->
  Z.of_nat H + 8 < 2 ^ 63 ->
  (length (contents nd) < 8 + H + 12 * length xs)%nat ->
  exists w',
    readSheetPositionsAt c file xs w =
      (Returns (xs, Some (if (length (contents nd) =? 8 + H)%nat
                          then EOF else ErrUnexpectedEOF)), w') /\
    fdtab w' !! nextfd w = Some {| d_file := nd; d_pos := length (contents nd) |} /\
    closes (nextfd w) (trace w') = closes (nextfd w) (trace w).
Proof.
  intros Hf Hwf Hcount Hbound Hlen.
  rewrite (readSheetPositionsAt_payload w file nd xs order Hf Hwf Hcount Hbound).
  cbn zeta. destruct Hwf as (_ & Hhd & _).
  assert (E : length (payload_bytes c nd (length xs))
              = (length (contents nd) - (8 + H))%nat).
  { unfold payload_bytes. rewrite length_take, length_drop. lia. }
  rewrite E. unfold short_read.
  destruct (Nat.eqb_spec (length (contents nd) - (8 + H)) (12 * length xs)); [lia|].
  eexists. split; [|split].
  - destruct (Nat.eqb_spec (length (contents nd) - (8 + H)) 0),
             (Nat.eqb_spec (length (contents nd)) (8 + H)); try lia; reflexivity.
  - rewrite fdtab_log_set_fd. do 2 f_equal. lia.
  - cbn [log set_fd after_header trace]. rewrite <- !app_assoc, closes_app.
    unfold closes at 2. cbn [app]. rewrite !filter_cons, filter_nil.
    repeat (destruct (decide _) as [?|?]; try discriminate). cbn. lia.
Qed.

(** X17. Every error exit of the header decoder behind the open leaves the
    descriptor in the table, with no close in the trace, and so do its
    callers: [ReadSheetHeaderAt] and [NewGotetraBuffer] return that error,
    and the payload reader returns nil, all in the same state of the
    operating system. *)
Theorem header_error_exits_keep_descriptor (w w' : world) (file : string)
    (nd : inode) (hdBuf h : GotetraHeader) (f : File) (order : ByteOrder) (e : error) :
  files w !! file = Some nd ->
  readSheetHeaderAt c file hdBuf w = (Returns (h, (f, order, Some e)), w') ->
  (exists pos, fdtab w' !! nextfd w = Some {| d_file := nd; d_pos := pos |}) /\
  closes (nextfd w) (trace w') = closes (nextfd w) (trace w) /\
  ReadSheetHeaderAt c file hdBuf w = (Returns (hdBuf, Some e), w') /\
  (hdBuf = zero_GotetraHeader c ->
   NewGotetraBuffer c file w = (Returns (None, Some e), w') /\
   forall xs, readSheetPositionsAt c file xs w = (Returns (xs, None), w')).
Proof.
  intros Hf Hrun.
  assert (Hcallers : ReadSheetHeaderAt c file hdBuf w = (Returns (h, Some e), w')).
  { unfold ReadSheetHeaderAt. erewrite bind_Returns by eassumption. reflexivity. }
  assert (Hworld : h = hdBuf /\
            (exists pos, fdtab w' !! nextfd w = Some {| d_file := nd; d_pos := pos |}) /\
            closes (nextfd w) (trace w') = closes (nextfd w) (trace w)).
  { destruct (le_lt_dec 8 (length (contents nd))) as [Hlen|Hlen].
    2:{ destruct (readSheetHeaderAt_short c w file nd hdBuf Hf Hlen) as (p & w1 & E).
        congruence. }
    destruct (flag_order nd) as [o|p] eqn:Hord.
    2:{ pose proof (readSheetHeaderAt_flag c w file nd hdBuf Hf ltac:(lia)) as Hflag.
        cbn zeta in Hflag. unfold flag_order in Hord. rewrite Hord in Hflag.
        congruence. }
    rewrite (readSheetHeaderAt_size c w file nd hdBuf o Hf Hlen Hord) in Hrun.
    cbn zeta in Hrun.
    assert (Hcl : forall t l, closes (nextfd w) l = 0%nat ->
                    closes (nextfd w) (t ++ l) = closes (nextfd w) t)
      by (intros t l El; rewrite closes_app, El; lia).
    destruct (negb (declared_size o nd =? _)).
    { injection Hrun as <- _ _ _ <-. split; [done|]. split.
      - eexists. apply fdtab_log_set_fd.
      - cbn [log set_fd alloc_fd trace]. rewrite <- !app_assoc. apply Hcl.
        unfold closes. cbn [app]. rewrite !filter_cons, filter_nil.
        by repeat (destruct (decide _) as [?|?]; try discriminate). }
    destruct (negb (seekable nd)).
    { injection Hrun as <- _ _ _ <-. split; [done|]. split.
      - eexists. cbn [log set_fd fdtab]. apply lookup_insert_eq.
      - cbn [log set_fd alloc_fd trace]. rewrite <- !app_assoc. apply Hcl.
        unfold closes. cbn [app]. rewrite !filter_cons, filter_nil.
        by repeat (destruct (decide _) as [?|?]; try discriminate). }
    destruct (short_read _ _) as [e'|]; [|discriminate].
    injection Hrun as <- _ _ _ <-. split; [done|]. split.
    - eexists. apply fdtab_log_set_fd.
    - cbn [log set_fd alloc_fd trace]. rewrite <- !app_assoc. apply Hcl.
      unfold closes. cbn [app]. rewrite !filter_cons, filter_nil.
      by repeat (destruct (decide _) as [?|?]; try discriminate). }
  destruct Hworld as (-> & Hfd & Hclose).
  split; [done|]. split; [done|]. split; [done|].
  intros ->. split.
  - unfold NewGotetraBuffer. erewrite bind_Returns by eassumption. reflexivity.
  - intros xs. eapply readSheetPositionsAt_drops_header_error, Hrun.
Qed.

End PayloadPaths.

(** ** From the file to the returned vectors *)

Section EndToEnd.
Variable c : nat.

Local Abbreviation H := (sizeofRawGotetraHeader c).

(** X18. The whole path on a well-formed sheet with a complete payload, a
    segment no wider than the grid, a grid cube that [make] accepts
    ([12 * gw^3] bytes are at most [maxAlloc]) and [GridCount = gw^3]:
    [NewGotetraBuffer] returns a buffer, and [Read] on
    that buffer returns [sw^3] vectors, of which the one at index
    [x + y*sw + z*sw^2] is decoded from the twelve bytes of the file at
    offset [8 + H + 12 * (x + y*gw + z*gw^2)]: the corner sub-cube of the
    stored grid. The file has been closed again. *)
Theorem Read_returns_file_subcube (w0 w : world) (fname : string) (nd : inode)
    (order : ByteOrder) :
  files w0 !! fname = Some nd ->
  files w !! fname = Some nd ->
  well_formed c nd order ->
  close_ok nd = true ->
  let h := decoded_header c order nd (zero_GotetraHeader c) in
  let g := GridWidth (Raw h) in
  let s := SegmentWidth (Raw h) in
  0 < s <= g ->
  12 * (g * g * g) <= maxAlloc ->
  GridCount (Raw h) = g * g * g ->
  Z.of_nat H + 8 < 2 ^ 63 ->
  (8 + H + 12 * Z.to_nat (g * g * g) <= length (contents nd))%nat ->
  exists b w1 o b',
    NewGotetraBuffer c fname w0 = (Returns (Some b, None), w1) /\
    Read c fname (w, b)
      = (Returns (Some o, None), (after_payload c w fname (Z.to_nat (g * g * g)), b')) /\
    length o = Z.to_nat (s * s * s) /\
    forall x y z, 0 <= x < s -> 0 <= y < s -> 0 <= z < s ->
      o !! Z.to_nat (x + y * s + z * s * s)
      = Some (decode_vec order
                (take 12 (drop (8 + H + 12 * Z.to_nat (x + y * g + z * g * g))
                            (contents nd)))).
Proof.
  intros Hf0 Hf Hwf Hclose h g s Hs Halloc Hcount Hbound Hlen.
  assert (Hg : g * g * g < 2 ^ 63) by (unfold maxAlloc in Halloc; lia).
  assert (Hs3 : s * s * s <= g * g * g) by (apply cube_mono; lia).
  assert (Hs3' : 0 < s * s * s) by nia.
  assert (Eg : int64 (int64 (g * g) * g) = g * g * g) by (apply cube_int64; lia).
  assert (Es : int64 (int64 (s * s) * s) = s * s * s) by (apply cube_int64; lia).
  pose proof (NewGotetraBuffer_well_formed c w0 fname nd order Hf0 Hwf Hclose) as Hnew.
  cbn zeta in Hnew. fold h in Hnew. fold g in Hnew. fold s in Hnew.
  rewrite Eg, Es in Hnew.
  rewrite (make_refused_false (g * g * g)), (make_refused_false (s * s * s)) in Hnew
    by lia.
  cbn [orb] in Hnew.
  set (n := Z.to_nat (g * g * g)) in *.
  set (b := {| open := false; sheet := replicate n zero_vec3;
               out := replicate (Z.to_nat (s * s * s)) zero_vec3;
               sw := s; gw := g; hd := zero_GotetraHeader c |}) in *.
  set (ys := decode_vecs order n (payload_bytes c nd n)).
  assert (Hread : readSheetPositionsAt c fname (sheet b) w
                  = (Returns (ys, None), after_payload c w fname n)).
  { pose proof (readSheetPositionsAt_complete c w fname nd (sheet b) order Hf Hwf)
      as Hr.
    cbn [sheet b] in Hr |- *. rewrite length_replicate, Hclose in Hr.
    apply Hr; [|done..]. fold h. rewrite Hcount. unfold n.
    rewrite Z2Nat.id by lia. symmetry. apply int64_id. lia. }
  set (w1 := after_payload c w fname n) in *.
  set (b1 := with_sheet ys (with_open true b)).
  assert (Hb : in_bounds b1).
  { apply sized_in_bounds; [|change (s <= g); lia|exact Hg].
    unfold sized, b1, b. cbn [with_sheet with_open sheet out sw gw].
    rewrite Eg, Es. split; [apply decode_vecs_length|apply length_replicate]. }
  destruct (extract_total (w1, b1) Hb) as ([w3 b3] & Hex & Hfr).
  assert (Hsw : 0 < sw (snd (w1, b1))) by (change (0 < s); lia).
  pose proof (extract_success (w1, b1) (w3, b3) Hsw Hex) as (_ & _ & Hdone).
  destruct Hfr as (Hw3 & _ & _ & _ & _ & _ & Hlen3).
  cbn [fst snd b1 b with_sheet with_open sw gw sheet out] in Hw3, Hlen3, Hdone.
  subst w3.
  exists b, (after_probe c w0 fname), (out b3), b3.
  split; [exact Hnew|]. split; [|split].
  - rewrite Read_closed by done. rewrite Hread. fold b1. by rewrite Hex.
  - by rewrite Hlen3, length_replicate.
  - intros x y z Hx Hy Hz.
    destruct (Hdone x y z Hx Hy Hz) as [_ (v & Hv & Ho)].
    { pose proof (cell_below_cube s x y z Hx Hy Hz). lia. }
    destruct (cell_index_exact_wider s g x y z) as [Ei Hi]; [lia..|].
    rewrite Ei in Hv. unfold ys in Hv.
    rewrite decode_vecs_lookup, payload_vector in Hv by (unfold n; lia).
    congruence.
Qed.

End EndToEnd.

(** ** What the decoded header depends on *)

Section HeaderDependence.
Variable c : nat.

Lemma decoded_header_any_buffer (order : ByteOrder) (nd : inode)
    (hd1 hd2 : GotetraHeader) :
  decoded_header c order nd hd1 = decoded_header c order nd hd2.
Proof.
  unfold decoded_header, Postprocess. cbn.
  by destruct (guard hd1), (guard hd2).
Qed.

(** X19. The header that the decoder hands out is a function of the bytes
    of the file: a decode of the same file into another header buffer, in
    another state of the operating system, succeeds too and stores the same
    header, with the same byte order. Nothing of what the buffer held
    before survives. *)
Theorem header_decode_ignores_buffer (file : string) (w w' w1 : world)
    (hd1 hd2 h : GotetraHeader) (f : File) (order : ByteOrder) :
  files w !! file = files w' !! file ->
  readSheetHeaderAt c file hd1 w = (Returns (h, (f, order, None)), w1) ->
  exists w1',
    readSheetHeaderAt c file hd2 w' = (Returns (h, (Some (nextfd w'), order, None)), w1').
Proof.
  intros Hfile Hrun.
  apply readSheetHeaderAt_result in Hrun as (nd & Hf & Hwf & -> & _).
  rewrite Hfile in Hf. eexists.
  rewrite (readSheetHeaderAt_well_formed c w' file nd hd2 order Hf Hwf).
  by rewrite (decoded_header_any_buffer order nd hd1 hd2).
Qed.

End HeaderDependence.

(** * Sample runs

    Each property above that has a premise is run here once, on a file of
    the sample disk. *)

Ltac sample :=
  repeat split; vm_compute; first [reflexivity | lia | discriminate].

(** A decode of the big-endian sheet, with descriptor 3 already in use. *)
Lemma header_decode_postcondition_witness :
  let c := Sample.cosmo in
  let w := Sample2.busy in
  let hdBuf := zero_GotetraHeader c in
  let w' := snd (readSheetHeaderAt c "flaky.dat" hdBuf w) in
  exists nd,
    files w !! "flaky.dat" = Some nd /\
    flag_order nd = Returns BigEndian /\
    decoded_header c BigEndian Sample2.flaky_sheet hdBuf
      = decoded_header c BigEndian nd hdBuf /\
    Some 7%nat = Some (nextfd w) /\
    fdtab w' !! nextfd w = Some {| d_file := nd; d_pos := 8 + sizeofRawGotetraHeader c |} /\
    files w' = files w /\
    trace w' = trace w ++ [EvOpen (nextfd w) "flaky.dat"; EvRead (nextfd w) 0 4;
                           EvRead (nextfd w) 4 4; EvSeek (nextfd w) 8;
                           EvRead (nextfd w) 8 (sizeofRawGotetraHeader c)].
Proof.
  cbv zeta.
  apply (header_decode_postcondition Sample.cosmo Sample2.busy _ "flaky.dat"
           (zero_GotetraHeader Sample.cosmo) _ (Some 7%nat) BigEndian).
  vm_compute. reflexivity.
Defined.

(** The sheet behind a pipe: the seek fails. *)
Lemma header_decode_error_exits_witness :
  let c := Sample.cosmo in
  let hdBuf := zero_GotetraHeader c in
  hdBuf = hdBuf /\ @None nat = None /\ LittleEndian = LittleEndian /\
  (ErrSeek = ErrNotExist "pipe.dat" \/
   (exists found, found <> int32 (Z.of_nat (sizeofRawGotetraHeader c)) /\
                  ErrSeek = ErrHeaderSize (Z.of_nat (sizeofRawGotetraHeader c)) found) \/
   ErrSeek = ErrSeek \/ ErrSeek = EOF \/ ErrSeek = ErrUnexpectedEOF).
Proof.
  cbv zeta.
  apply (header_decode_error_exits Sample.cosmo Sample2.boot
           (snd (readSheetHeaderAt Sample.cosmo "pipe.dat"
                   (zero_GotetraHeader Sample.cosmo) Sample2.boot))
           "pipe.dat" (zero_GotetraHeader Sample.cosmo) _ None LittleEndian ErrSeek).
  vm_compute. reflexivity.
Defined.

(** The header of the little-endian sheet: [N = 8], [Count = 27]. *)
Lemma decoded_header_counts_witness :
  let c := Sample.cosmo in
  let hdBuf := zero_GotetraHeader c in
  let h := decoded_header c LittleEndian (Sample.good_sheet LittleEndian) hdBuf in
  let s := SegmentWidth (Raw h) in
  let cw := CountWidth (Raw h) in
  N h = int64 (int64 (s * s) * s) /\
  Count (Raw h) = int64 (int64 (cw * cw) * cw) /\
  (- 2 ^ 63 <= s < 2 ^ 63) /\ (- 2 ^ 63 <= cw < 2 ^ 63) /\
  (- 2 ^ 63 <= GridWidth (Raw h) < 2 ^ 63) /\
  guard h = guard hdBuf.
Proof.
  cbv zeta.
  apply (decoded_header_counts Sample.cosmo Sample2.boot
           (snd (ReadSheetHeaderAt Sample.cosmo "le.dat"
                   (zero_GotetraHeader Sample.cosmo) Sample2.boot)) "le.dat").
  vm_compute. reflexivity.
Defined.

(** The probe of a sheet whose close fails. *)
Lemma header_probe_releases_descriptor_witness :
  let c := Sample.cosmo in
  let w := Sample2.busy in
  let nd := Sample2.flaky_sheet in
  let hdBuf := zero_GotetraHeader c in
  exists w',
    ReadSheetHeaderAt c "flaky.dat" hdBuf w =
      (Returns (decoded_header c BigEndian nd hdBuf,
                if close_ok nd then None else Some ErrClose), w') /\
    fdtab w' = fdtab w /\
    closes (nextfd w) (trace w') = S (closes (nextfd w) (trace w)) /\
    trace w' = trace w ++ [EvOpen (nextfd w) "flaky.dat"; EvRead (nextfd w) 0 4;
                           EvRead (nextfd w) 4 4; EvSeek (nextfd w) 8;
                           EvRead (nextfd w) 8 (sizeofRawGotetraHeader c);
                           EvClose (nextfd w)].
Proof.
  cbv zeta.
  apply (header_probe_releases_descriptor Sample.cosmo Sample2.busy "flaky.dat"
           Sample2.flaky_sheet (zero_GotetraHeader Sample.cosmo) BigEndian); sample.
Defined.

(** A target array of 64 vectors for the sheet that stores 8. *)
Lemma count_mismatch_rejected_witness :
  let c := Sample.cosmo in
  let w := Sample2.boot in
  let xs := replicate 64 zero_vec3 in
  let count := GridCount (Raw (decoded_header c LittleEndian Sample.small_sheet
                                 (zero_GotetraHeader c))) in
  readSheetPositionsAt c "small.dat" xs w =
    (Returns (xs, Some (ErrPositionBuffer (Z.of_nat (length xs)) "small.dat" count)),
     after_header c w "small.dat" Sample.small_sheet)
  /\ is_FormatError (ErrPositionBuffer (Z.of_nat (length xs)) "small.dat" count) = true.
Proof.
  cbv zeta.
  apply (count_mismatch_rejected Sample.cosmo Sample2.boot "small.dat" Sample.small_sheet
           (replicate 64 zero_vec3) LittleEndian); sample.
Defined.

(** The buffer for the little-endian sheet of side 4 with a segment of
    side 2. *)
Lemma NewGotetraBuffer_result_witness :
  let c := Sample.cosmo in
  let w := Sample2.busy in
  let h := decoded_header c LittleEndian (Sample.good_sheet LittleEndian)
             (zero_GotetraHeader c) in
  let g := GridWidth (Raw h) in
  let s := SegmentWidth (Raw h) in
  NewGotetraBuffer c "le.dat" w =
    (Returns (Some {| open := false;
                      sheet := replicate (Z.to_nat (int64 (int64 (g * g) * g))) zero_vec3;
                      out := replicate (Z.to_nat (int64 (int64 (s * s) * s))) zero_vec3;
                      sw := s; gw := g; hd := zero_GotetraHeader c |}, None),
     after_probe c w "le.dat").
Proof.
  cbv zeta.
  apply (NewGotetraBuffer_result Sample.cosmo Sample2.busy "le.dat"
           (Sample.good_sheet LittleEndian) LittleEndian); sample.
Defined.

(** A header with grid width -2. *)
Lemma NewGotetraBuffer_negative_cube_panics_witness :
  NewGotetraBuffer Sample.cosmo "negative.dat" Sample2.boot =
    (Panics MakeSliceLen, after_probe Sample.cosmo Sample2.boot "negative.dat").
Proof.
  apply (NewGotetraBuffer_negative_cube_panics Sample.cosmo Sample2.boot "negative.dat"
           Sample2.negative_sheet LittleEndian); [sample..|].
  left. vm_compute. reflexivity.
Defined.

(** A segment of side 3 on a grid of side 2. *)
Lemma segment_wider_than_grid_panics_witness :
  let c := Sample.cosmo in
  let b := Sample.fresh_buffer 3 2 in
  (forall w, exists i n s', extract (w, b) = (Panics (IndexOutOfRange i n), s')) /\
  (forall fname w xs w',
     open b = false ->
     readSheetPositionsAt c fname (sheet b) w = (Returns (xs, None), w') ->
     exists i n s', Read c fname (w, b) = (Panics (IndexOutOfRange i n), s')).
Proof.
  cbv zeta.
  apply (segment_wider_than_grid_panics Sample.cosmo "wide.dat" Sample2.boot
           (snd (NewGotetraBuffer Sample.cosmo "wide.dat" Sample2.boot))
           (Sample.fresh_buffer 3 2) (Sample.fresh_buffer 3 2) None).
  - vm_compute. reflexivity.
  - by repeat split.
  - vm_compute. split; [discriminate|reflexivity].
  - vm_compute. reflexivity.
Defined.

(** A read of the little-endian sheet. *)
Lemma Read_results_witness :
  let c := Sample.cosmo in
  let s := (Sample2.busy, Sample.fresh_buffer 2 4) in
  let s' := snd (Read c "le.dat" s) in
  IsOpen (snd s) = false /\
  readSheetPositionsAt c "le.dat" (sheet (snd s)) (fst s)
    = (Returns (sheet (snd s'), None), fst s') /\
  length (out (snd s')) = length (out (snd s)) /\
  ((Some (out (snd s')) = None /\ is_Some (@None error) /\ out (snd s') = out (snd s)) \/
   (Some (out (snd s')) = Some (out (snd s')) /\ @None error = None)).
Proof.
  cbv zeta.
  apply (Read_results Sample.cosmo "le.dat" (Sample2.busy, Sample.fresh_buffer 2 4)).
  vm_compute. reflexivity.
Defined.

(** The buffer of the little-endian sheet through a read, a close and a
    read. *)
Lemma buffer_never_holds_header_witness :
  let c := Sample.cosmo in
  let b := Sample.fresh_buffer 2 4 in
  let calls := [CallRead "le.dat"; CallClose; CallRead "le.dat"] in
  hd b = zero_GotetraHeader c /\
  hd (snd (run_calls c calls (Sample2.busy, b))) = zero_GotetraHeader c /\
  N (hd (snd (run_calls c calls (Sample2.busy, b)))) = 0.
Proof.
  cbv zeta.
  apply (buffer_never_holds_header Sample.cosmo "le.dat" Sample2.boot
           (snd (NewGotetraBuffer Sample.cosmo "le.dat" Sample2.boot)) Sample2.busy
           (Sample.fresh_buffer 2 4) None).
  vm_compute. reflexivity.
Defined.

(** The same read from two states of the system. *)
Lemma Read_sees_only_the_file_witness :
  let c := Sample.cosmo in
  let b := Sample.fresh_buffer 2 4 in
  fst (Read c "le.dat" (Sample2.boot, b)) = fst (Read c "le.dat" (Sample2.busy, b)) /\
  snd (snd (Read c "le.dat" (Sample2.boot, b)))
    = snd (snd (Read c "le.dat" (Sample2.busy, b))).
Proof.
  cbv zeta.
  apply (Read_sees_only_the_file Sample.cosmo "le.dat" Sample2.boot Sample2.busy).
  vm_compute. reflexivity.
Defined.

(** Read, close, read. *)
Lemma Read_again_returns_the_same_witness :
  let c := Sample.cosmo in
  let r := snd (Read c "le.dat" (Sample2.busy, Sample.fresh_buffer 2 4)) in
  exists w3,
    Read c "le.dat" (snd (Close (fst r, snd r)))
      = (Returns (Some (out (snd r)), None), (w3, snd r)).
Proof.
  cbv zeta.
  apply (Read_again_returns_the_same Sample.cosmo "le.dat" Sample2.busy _
           (Sample.fresh_buffer 2 4)).
  vm_compute. reflexivity.
Defined.

(** The payload of the little-endian sheet. *)
Lemma payload_read_fills_target_witness :
  let c := Sample.cosmo in
  let w := Sample2.busy in
  let nd := Sample.good_sheet LittleEndian in
  let xs := replicate 64 zero_vec3 in
  exists ys,
    readSheetPositionsAt c "le.dat" xs w =
      (Returns (ys, if close_ok nd then None else Some ErrClose),
       after_payload c w "le.dat" (length xs)) /\
    length ys = length xs /\
    forall i, (i < length xs)%nat ->
      ys !! i = Some (decode_vec LittleEndian
                        (take 12 (drop (8 + sizeofRawGotetraHeader c + 12 * i)
                                    (contents nd)))).
Proof.
  cbv zeta.
  apply (payload_read_fills_target Sample.cosmo Sample2.busy "le.dat"
           (Sample.good_sheet LittleEndian) (replicate 64 zero_vec3) LittleEndian);
    sample.
Defined.

(** The sheet cut off after 300 bytes. *)
Lemma short_payload_keeps_target_witness :
  let c := Sample.cosmo in
  let w := Sample2.boot in
  let nd := Sample2.short_sheet in
  let xs := replicate 64 zero_vec3 in
  exists w',
    readSheetPositionsAt c "short.dat" xs w =
      (Returns (xs, Some (if (length (contents nd) =? 8 + sizeofRawGotetraHeader c)%nat
                          then EOF else ErrUnexpectedEOF)), w') /\
    fdtab w' !! nextfd w = Some {| d_file := nd; d_pos := length (contents nd) |} /\
    closes (nextfd w) (trace w') = closes (nextfd w) (trace w).
Proof.
  cbv zeta.
  apply (short_payload_keeps_target Sample.cosmo Sample2.boot "short.dat"
           Sample2.short_sheet (replicate 64 zero_vec3) LittleEndian); sample.
Defined.

(** The sheet behind a pipe, through all four functions. *)
Lemma header_error_exits_keep_descriptor_witness :
  let c := Sample.cosmo in
  let w := Sample2.busy in
  let hdBuf := zero_GotetraHeader c in
  let w' := snd (readSheetHeaderAt c "pipe.dat" hdBuf w) in
  (exists pos, fdtab w' !! nextfd w = Some {| d_file := Sample2.piped_sheet; d_pos := pos |}) /\
  closes (nextfd w) (trace w') = closes (nextfd w) (trace w) /\
  ReadSheetHeaderAt c "pipe.dat" hdBuf w = (Returns (hdBuf, Some ErrSeek), w') /\
  (hdBuf = zero_GotetraHeader c ->
   NewGotetraBuffer c "pipe.dat" w = (Returns (None, Some ErrSeek), w') /\
   forall xs, readSheetPositionsAt c "pipe.dat" xs w = (Returns (xs, None), w')).
Proof.
  cbv zeta.
  apply (header_error_exits_keep_descriptor Sample.cosmo Sample2.busy _ "pipe.dat"
           Sample2.piped_sheet (zero_GotetraHeader Sample.cosmo)
           (zero_GotetraHeader Sample.cosmo) None LittleEndian ErrSeek).
  - vm_compute. reflexivity.
  - vm_compute. reflexivity.
Defined.

(** The little-endian sheet, from the constructor to the returned vectors. *)
Lemma Read_returns_file_subcube_witness :
  let c := Sample.cosmo in
  let w := Sample2.busy in
  let nd := Sample.good_sheet LittleEndian in
  let h := decoded_header c LittleEndian nd (zero_GotetraHeader c) in
  let g := GridWidth (Raw h) in
  let s := SegmentWidth (Raw h) in
  exists b w1 o b',
    NewGotetraBuffer c "le.dat" Sample2.boot = (Returns (Some b, None), w1) /\
    Read c "le.dat" (w, b)
      = (Returns (Some o, None), (after_payload c w "le.dat" (Z.to_nat (g * g * g)), b')) /\
    length o = Z.to_nat (s * s * s) /\
    forall x y z, 0 <= x < s -> 0 <= y < s -> 0 <= z < s ->
      o !! Z.to_nat (x + y * s + z * s * s)
      = Some (decode_vec LittleEndian
                (take 12 (drop (8 + sizeofRawGotetraHeader c
                                + 12 * Z.to_nat (x + y * g + z * g * g))
                            (contents nd)))).
Proof.
  cbv zeta.
  apply (Read_returns_file_subcube Sample.cosmo Sample2.boot Sample2.busy "le.dat"
           (Sample.good_sheet LittleEndian) LittleEndian); sample.
Defined.

(** The big-endian sheet decoded into a zero header and into a used one. *)
Lemma header_decode_ignores_buffer_witness :
  let c := Sample.cosmo in
  let h := decoded_header c BigEndian Sample2.flaky_sheet (zero_GotetraHeader c) in
  exists w1',
    readSheetHeaderAt c "flaky.dat" Sample.sample_hd Sample2.busy
      = (Returns (h, (Some (nextfd Sample2.busy), BigEndian, None)), w1').
Proof.
  cbv zeta.
  apply (header_decode_ignores_buffer Sample.cosmo "flaky.dat" Sample2.boot Sample2.busy
           (snd (readSheetHeaderAt Sample.cosmo "flaky.dat"
                   (zero_GotetraHeader Sample.cosmo) Sample2.boot))
           (zero_GotetraHeader Sample.cosmo) Sample.sample_hd _ (Some 3%nat) BigEndian).
  - vm_compute. reflexivity.
  - vm_compute. reflexivity.
Defined.

(** ** Index arithmetic that wraps *)

Lemma length_le_bytes (n : nat) (z : Z) : length (le_bytes n z) = n.
Proof. revert z. induction n as [|n IH]; intros z; cbn; [done|by rewrite IH]. Qed.

Lemma length_bytes_of_uint (order : ByteOrder) (n : nat) (z : Z) :
  length (bytes_of_uint order n z) = n.
Proof. destruct order; cbn; rewrite ?length_rev; apply length_le_bytes. Qed.

Lemma length_encode_vec (order : ByteOrder) (v : vec3) :
  length (Sample.encode_vec order v) = 12%nat.
Proof.
  destruct v as [[a b] d]. unfold Sample.encode_vec.
  by rewrite !length_app, !length_bytes_of_uint.
Qed.

Lemma length_encoded_payload (order : ByteOrder) (vs : list vec3) :
  length (concat (map (Sample.encode_vec order) vs)) = (12 * length vs)%nat.
Proof.
  induction vs as [|v vs IH]; [done|].
  cbn [map concat length]. rewrite length_app, length_encode_vec, IH. lia.
Qed.

(** The sheet of side [2^32 + 2] is well formed, whatever it stores, and its
    header carries the widths 2 and [2^32 + 2] and the wrapped cube. *)
Lemma wrapped_sheet_header (vs : list vec3) :
  let c := Sample.cosmo in
  let nd := Sample3.wrapped_sheet_of vs in
  let h := decoded_header c LittleEndian nd (zero_GotetraHeader c) in
  well_formed c nd LittleEndian /\ close_ok nd = true /\
  SegmentWidth (Raw h) = 2 /\ GridWidth (Raw h) = Sample3.wrapped_side /\
  GridCount (Raw h) = Sample3.wrapped_cube /\
  length (contents nd) = (8 + sizeofRawGotetraHeader c + 12 * length vs)%nat.
Proof.
  cbv zeta. pose proof (length_encoded_payload LittleEndian vs) as Hlen.
  unfold Sample3.wrapped_sheet_of, Sample.encode_sheet, Sample.regular,
    well_formed, decoded_header, header_bytes, flag_order, declared_size.
  cbn [contents seekable close_ok].
  revert Hlen. generalize (concat (map (Sample.encode_vec LittleEndian) vs)).
  intros P Hlen.
  assert (Hpre : forall pre : list byte, length (pre ++ P) = (length pre + 12 * length vs)%nat)
    by (intros pre; rewrite length_app; lia).
  rewrite !app_assoc, (Hpre _).
  repeat split; try (vm_compute; reflexivity).
  vm_compute. lia.
Qed.

Section Wrapped.

Local Abbreviation g := Sample3.wrapped_side.

(** The eight source indices of a segment of side 2 on that grid. *)
Lemma wrapped_cells (x y z : Z) :
  0 <= x < 2 -> 0 <= y < 2 -> 0 <= z < 2 ->
  cell_index g x y z = x + y * g + z * Sample3.wrapped_square /\
  cell_index 2 x y z = x + y * 2 + z * 2 * 2.
Proof.
  intros Hx Hy Hz.
  assert (Ex : x = 0 \/ x = 1) by lia. assert (Ey : y = 0 \/ y = 1) by lia.
  assert (Ez : z = 0 \/ z = 1) by lia.
  destruct Ex as [-> | ->], Ey as [-> | ->], Ez as [-> | ->];
    split; vm_compute; reflexivity.
Qed.

(** On a well-formed sheet with segment width 2, grid width [2^32 + 2] and
    as many vectors as the wrapped cube, the constructor and [Read] return,
    and the cell [(0, 0, 1)] of the segment is copied from index [2^34 + 4]
    of the sheet. *)
Lemma wrapped_sheet_read (c : nat) (nd : inode) (order : ByteOrder)
    (fname : string) (w : world) (n : nat) :
  files w !! fname = Some nd ->
  well_formed c nd order ->
  close_ok nd = true ->
  SegmentWidth (Raw (decoded_header c order nd (zero_GotetraHeader c))) = 2 ->
  GridWidth (Raw (decoded_header c order nd (zero_GotetraHeader c))) = g ->
  GridCount (Raw (decoded_header c order nd (zero_GotetraHeader c)))
    = Sample3.wrapped_cube ->
  Z.of_nat n = Sample3.wrapped_cube ->
  Z.of_nat (sizeofRawGotetraHeader c) + 8 < 2 ^ 63 ->
  (8 + sizeofRawGotetraHeader c + 12 * n <= length (contents nd))%nat ->
  exists b w1 o w' b',
    NewGotetraBuffer c fname w = (Returns (Some b, None), w1) /\
    sw b = 2 /\ gw b = g /\ Z.of_nat (length (sheet b)) = Sample3.wrapped_cube /\
    Read c fname (w1, b) = (Returns (Some o, None), (w', b')) /\
    (exists v, o !! 4%nat = Some v /\
               sheet b' !! Z.to_nat Sample3.wrapped_square = Some v) /\
    Z.of_nat (length (sheet b')) = Sample3.wrapped_cube.
Proof.
  intros Hf Hwf Hclose Hs Hg Hcount Hn Hbound Hlen.
  assert (En : Z.to_nat Sample3.wrapped_cube = n) by (rewrite <- Hn; apply Nat2Z.id).
  assert (Ec : int64 (int64 (g * g) * g) = Sample3.wrapped_cube)
    by (vm_compute; reflexivity).
  assert (E8 : int64 (int64 (2 * 2) * 2) = 8) by reflexivity.
  assert (Er : make_refused Sample3.wrapped_cube || make_refused 8 = false)
    by (vm_compute; reflexivity).
  pose (b := {| open := false; sheet := replicate n zero_vec3;
                out := replicate (Z.to_nat 8) zero_vec3;
                sw := 2; gw := g; hd := zero_GotetraHeader c |}).
  pose (w1 := after_probe c w fname).
  pose (ys := decode_vecs order n (payload_bytes c nd n)).
  pose (b1 := with_sheet ys (with_open true b)).
  assert (Hnew : NewGotetraBuffer c fname w = (Returns (Some b, None), w1)).
  { rewrite (NewGotetraBuffer_well_formed c w fname nd order Hf Hwf Hclose).
    cbv zeta. rewrite Hs, Hg, Ec, E8, Er, En. reflexivity. }
  assert (Hread : readSheetPositionsAt c fname (sheet b) w1
                  = (Returns (ys, None), after_payload c w1 fname n)).
  { rewrite (readSheetPositionsAt_complete c w1 fname nd (sheet b) order Hf Hwf).
    - unfold b. cbn [sheet]. rewrite length_replicate, Hclose. reflexivity.
    - unfold b. cbn [sheet]. rewrite length_replicate, Hcount, Hn.
      vm_compute. reflexivity.
    - exact Hbound.
    - unfold b. cbn [sheet]. rewrite length_replicate. exact Hlen. }
  assert (Hys : Z.of_nat (length ys) = Sample3.wrapped_cube)
    by (unfold ys; rewrite decode_vecs_length; exact Hn).
  assert (Hb : in_bounds b1).
  { intros x y z Hx Hy Hz. unfold b1, b in *.
    cbn [with_sheet with_open sw gw sheet out] in *.
    rewrite Hys, length_replicate.
    destruct (wrapped_cells x y z Hx Hy Hz) as [-> ->].
    unfold Sample3.wrapped_side, Sample3.wrapped_square, Sample3.wrapped_cube.
    change (Z.of_nat (Z.to_nat 8)) with 8. lia. }
  destruct (extract_total (after_payload c w1 fname n, b1) Hb) as ([w3 b3] & Hex & Hfr).
  assert (Hsw : 0 < sw (snd (after_payload c w1 fname n, b1))) by (cbn; lia).
  pose proof (extract_success _ (w3, b3) Hsw Hex) as (_ & _ & Hdone).
  destruct Hfr as (Hw3 & _ & Hsh3 & _).
  cbn [fst snd b1 b with_sheet with_open sw gw sheet] in Hw3, Hsh3, Hdone.
  exists b, w1, (out b3), w3, b3.
  split; [exact Hnew|]. split; [reflexivity|]. split; [reflexivity|].
  split; [unfold b; cbn [sheet]; by rewrite length_replicate|].
  split; [|split].
  - rewrite Read_closed by done. rewrite Hread. fold b1. by rewrite Hex.
  - destruct (Hdone 0 0 1) as [_ (v & Hv & Ho)]; [lia..|reflexivity|].
    destruct (wrapped_cells 0 0 1) as [Ei _]; [lia..|].
    rewrite Ei in Hv. exists v. split; [exact Ho|]. rewrite Hsh3. exact Hv.
  - by rewrite Hsh3.
Qed.

End Wrapped.

(** C3, counterexample: the header of "wrapped.dat" declares segment width
    2 and grid width [gw = 2^32 + 2]. The products [gw*gw] and [gw*gw*gw]
    wrap in [int64] to [2^34 + 4] and [3 * 2^34 + 8]; the constructor makes
    a sheet of that many cells and [Read] returns. The cell [(0, 0, 1)] of
    the segment, [out[4]], is copied from [sheet[2^34 + 4]]; the index
    [0 + 0*gw + 1*gw^2] of the claim is [2^64 + 2^34 + 4], behind the end
    of the sheet. *)
Lemma wrapped_grid_reads_other_cell :
  let c := Sample.cosmo in
  let side := Sample3.wrapped_side in
  exists b w1 o w' b',
    NewGotetraBuffer c "wrapped.dat" Sample3.wrapped_boot = (Returns (Some b, None), w1) /\
    sw b = 2 /\ gw b = side /\ side = 2 ^ 32 + 2 /\
    Z.of_nat (length (sheet b)) = Sample3.wrapped_cube /\
    Sample3.wrapped_cube = 3 * 2 ^ 34 + 8 /\
    Read c "wrapped.dat" (w1, b) = (Returns (Some o, None), (w', b')) /\
    cell_index (gw b) 0 0 1 = Sample3.wrapped_square /\
    Sample3.wrapped_square = 2 ^ 34 + 4 /\
    (exists v, o !! 4%nat = Some v /\
               sheet b' !! Z.to_nat Sample3.wrapped_square = Some v) /\
    0 + 0 * side + 1 * side * side = 2 ^ 64 + 2 ^ 34 + 4 /\
    sheet b' !! Z.to_nat (0 + 0 * side + 1 * side * side) = None.
Proof.
  cbv zeta.
  destruct (wrapped_sheet_header (replicate (Z.to_nat Sample3.wrapped_cube) zero_vec3))
    as (Hwf & Hclose & Hs & Hg & Hcount & Hlen).
  rewrite length_replicate in Hlen.
  assert (Hf : files Sample3.wrapped_boot !! "wrapped.dat"
               = Some (Sample3.wrapped_sheet_of
                         (replicate (Z.to_nat Sample3.wrapped_cube) zero_vec3)))
    by apply lookup_insert_eq.
  assert (Hn : Z.of_nat (Z.to_nat Sample3.wrapped_cube) = Sample3.wrapped_cube)
    by (apply Z2Nat.id; vm_compute; discriminate).
  assert (Hbound : Z.of_nat (sizeofRawGotetraHeader Sample.cosmo) + 8 < 2 ^ 63)
    by (vm_compute; reflexivity).
  destruct (wrapped_sheet_read Sample.cosmo _ LittleEndian "wrapped.dat"
              Sample3.wrapped_boot (Z.to_nat Sample3.wrapped_cube)
              Hf Hwf Hclose Hs Hg Hcount Hn Hbound (Nat.eq_le_incl _ _ (eq_sym Hlen)))
    as (b & w1 & o & w' & b' & Hnew & Hsw & Hgw & Hlenb & Hread & Hcell & Hlen').
  exists b, w1, o, w', b'.
  split; [exact Hnew|]. split; [exact Hsw|]. split; [exact Hgw|].
  split; [vm_compute; reflexivity|].
  split; [exact Hlenb|]. split; [vm_compute; reflexivity|]. split; [exact Hread|].
  split; [rewrite Hgw; vm_compute; reflexivity|].
  split; [vm_compute; reflexivity|].
  split; [exact Hcell|].
  split; [vm_compute; reflexivity|].
  apply lookup_ge_None_2. apply Nat2Z.inj_le.
  rewrite Hlen', Z2Nat.id by (vm_compute; discriminate).
  vm_compute. discriminate.
Qed.
